(** * hx711-multi: the read protocol of [hx711/hx711.py]

    A shallow embedding of the two classes of [hx711.py], [HX711] (the
    controller that owns the clock line) and [LoadCell] (one accumulator per
    data line), followed by the properties of the read protocol.

    Conventions of the embedding.
    - Python integers are [Z]; [<<], [|], [&], [^] are [Z.shiftl], [Z.lor],
      [Z.land], [Z.lxor].
    - Python floats are binary64, as Rocq's primitive floats are.
    - A Python exception is an [exn]; a call either returns or raises
      ([Res]).  A method that touches the outside world threads the list of
      the calls made so far ([trace]).
    - An attribute that [__init__] does not assign is an [option] field of
      the object's record, [None] standing for "the object has no such
      attribute" (reading it raises [AttributeError]).
    - [print] only writes to standard output and is left out, so the
      [if self._debug_mode: print(...)] blocks have no counterpart. *)

From Stdlib Require Import ZArith List String Bool Lia Floats.
Import ListNotations.
Open Scope Z_scope.

(** ** Exceptions, results and the outside world *)

Inductive exn : Type := TypeError | AttributeError | NameError.

Inductive Res (A : Type) : Type :=
| Ret (a : A)
| Raise (e : exn).
Arguments Ret {A} a.
Arguments Raise {A} e.

(** One entry per call that leaves the interpreter: the three [RPi.GPIO]
    calls, [time.sleep] and [time.perf_counter]. *)
Inductive event : Type :=
| EvSetup (pin : Z) (out : bool)
| EvOutput (pin : Z) (level : bool)
| EvInput (pin : Z)
| EvSleep
| EvPerfCounter.

(** The calls made so far, most recent first.  Its length is the index of
    the next call. *)
Definition trace : Type := list event.

(** What the host answers.  [SIMULATE_PI] is the module-level flag of
    [hx711.py]: it is [true] exactly when [import RPi.GPIO as GPIO] failed,
    in which case the global name [GPIO] is unbound.  [GPIO_input k pin] is
    the level [GPIO.input(pin)] returns when it is the [k]-th call, and
    [perf_counter_at k] the value of [perf_counter()] when it is the [k]-th
    call. *)
Record Host : Type := mkHost {
  SIMULATE_PI : bool;
  GPIO_input : nat -> Z -> Z;
  perf_counter_at : nat -> float }.

(** A computation over a state [S] that returns or raises; the state
    survives a raise, as Python's mutations do. *)
Definition M (S A : Type) : Type := S -> Res A * S.

Definition ret {S A : Type} (a : A) : M S A := fun s => (Ret a, s).
Definition raise {S A : Type} (e : exn) : M S A := fun s => (Raise e, s).
Definition bind {S A B : Type} (m : M S A) (k : A -> M S B) : M S B :=
  fun s => match m s with
           | (Ret a, s') => k a s'
           | (Raise e, s') => (Raise e, s')
           end.

Declare Scope py_scope.
Delimit Scope py_scope with py.
Notation "x <- m ;; k" := (bind m (fun x => k))
  (at level 61, m at next level, right associativity) : py_scope.
Notation "m ;; k" := (bind m (fun _ => k))
  (at level 61, right associativity) : py_scope.

(** ** The module [RPi.GPIO] and the module [time] *)

Module GPIO.
Section WithHost.
Variable host : Host.

(** Evaluating the global name [GPIO]: a [NameError] when the import
    failed. *)
Definition name : M trace unit :=
  if SIMULATE_PI host then raise NameError else ret tt.

(** [out] is [true] for [GPIO.OUT] and [false] for [GPIO.IN]. *)
Definition setup (pin : Z) (out : bool) : M trace unit :=
  fun tr => (Ret tt, EvSetup pin out :: tr).

Definition output (pin : Z) (level : bool) : M trace unit :=
  fun tr => (Ret tt, EvOutput pin level :: tr).

Definition input (pin : Z) : M trace Z :=
  fun tr => (Ret (GPIO_input host (List.length tr) pin), EvInput pin :: tr).

End WithHost.
End GPIO.

Definition sleep : M trace unit := fun tr => (Ret tt, EvSleep :: tr).

Definition perf_counter (host : Host) : M trace float :=
  fun tr => (Ret (perf_counter_at host (List.length tr)), EvPerfCounter :: tr).

(** ** class LoadCell *)

Module LoadCell.

(** [raw_reads] and [reads] are the two histories; an entry of [reads] is
    [None] where Python appends [None].  [_current_raw_read] and
    [_current_signed_value] are not assigned by [__init__]. *)
Record t : Type := mk {
  _dout_pin : Z;
  _debug_mode : bool;
  _offset : float;
  _scale_ratio : float;
  _last_raw_read : option Z;
  raw_reads : list Z;
  reads : list (option Z);
  _current_raw_read : option Z;
  _current_signed_value : option (option Z) }.

Definition __init__ (dout_pin : Z) (debug_mode : bool) : t :=
  {| _dout_pin := dout_pin;
     _debug_mode := debug_mode;
     _offset := 0%float;
     _scale_ratio := 1%float;
     _last_raw_read := None;
     raw_reads := [];
     reads := [];
     _current_raw_read := None;
     _current_signed_value := None |}.

Definition set_current_raw_read (self : t) (v : Z) : t :=
  {| _dout_pin := _dout_pin self;
     _debug_mode := _debug_mode self;
     _offset := _offset self;
     _scale_ratio := _scale_ratio self;
     _last_raw_read := _last_raw_read self;
     raw_reads := raw_reads self;
     reads := reads self;
     _current_raw_read := Some v;
     _current_signed_value := _current_signed_value self |}.

(** [self._current_raw_read = 0] *)
Definition _init_raw_read (self : t) : t := set_current_raw_read self 0.

(** [if not (0x7fffff < raw_value < 0x800000): return None], then the
    sign test [raw_value & 0x800000] and the two branches. *)
Definition convert_to_signed_value (self : t) (raw_value : Z) : option Z :=
  if negb ((0x7fffff <? raw_value) && (raw_value <? 0x800000)) then None
  else if negb (Z.land raw_value 0x800000 =? 0)
       then Some (- (Z.lxor raw_value 0xffffff + 1))
       else Some raw_value.

Section WithHost.
Variable host : Host.

(** [self._current_raw_read = (self._current_raw_read << 1) |
    GPIO.input(self._dout_pin)].  The left operand is evaluated first,
    so a missing [_current_raw_read] raises before [GPIO] is looked up;
    the assignment is the last step, so a raise leaves the object as it
    was. *)
Definition _read (self : t) : M trace t :=
  match _current_raw_read self with
  | None => raise AttributeError
  | Some cur =>
      (GPIO.name host ;;
       bit <- GPIO.input host (_dout_pin self) ;;
       ret (set_current_raw_read self (Z.lor (Z.shiftl cur 1) bit)))%py
  end.
End WithHost.

(** [raw_reads.append], [convert_to_signed_value], [reads.append].  The
    argument of the first [append] is evaluated before anything is
    appended, so a missing [_current_raw_read] leaves the object as it
    was. *)
Definition _finish_raw_read (self : t) : M trace t :=
  match _current_raw_read self with
  | None => raise AttributeError
  | Some cur =>
      let signed := convert_to_signed_value self cur in
      ret {| _dout_pin := _dout_pin self;
             _debug_mode := _debug_mode self;
             _offset := _offset self;
             _scale_ratio := _scale_ratio self;
             _last_raw_read := _last_raw_read self;
             raw_reads := raw_reads self ++ [cur];
             reads := reads self ++ [signed];
             _current_raw_read := Some cur;
             _current_signed_value := Some signed |}
  end.

Definition _init_set_of_reads (self : t) : t :=
  {| _dout_pin := _dout_pin self;
     _debug_mode := _debug_mode self;
     _offset := _offset self;
     _scale_ratio := _scale_ratio self;
     _last_raw_read := _last_raw_read self;
     raw_reads := [];
     reads := [];
     _current_raw_read := _current_raw_read self;
     _current_signed_value := _current_signed_value self |}.

End LoadCell.

(** ** Arguments of the constructor *)

(** The values a caller may pass for [dout_pins], [sck_pin],
    [channel_A_gain] and [channel_select].  Float arguments are left out. *)
#[warnings="-register-all"] Inductive pyval : Type :=
| PyNone
| PyBool (b : bool)
| PyInt (z : Z)
| PyStr (s : string)
| PyList (l : list pyval).

(** [v == n] for an integer literal [n]; [True == 1] and [False == 0]. *)
Definition eq_int (v : pyval) (n : Z) : bool :=
  match v with
  | PyInt z => z =? n
  | PyBool b => (if b then 1 else 0) =? n
  | _ => false
  end.

(** [v == s] for a string literal [s]. *)
Definition eq_str (v : pyval) (s : string) : bool :=
  match v with
  | PyStr s' => String.eqb s' s
  | _ => false
  end.

Fixpoint all_ints (l : list pyval) : option (list Z) :=
  match l with
  | [] => Some []
  | PyInt z :: rest =>
      match all_ints rest with
      | Some zs => Some (z :: zs)
      | None => None
      end
  | _ :: _ => None
  end.

(** Modelled from the spec: [hx711.utils.convert_to_list], imported by
    [hx711.py] and called as [convert_to_list(dout_pins, _type=int,
    _default_output=None)], is not among the sources.  The spec gives the
    data pins as "integer or list of integers", "one-or-more valid pin
    identifiers", refused "if empty or wrong type"; [None] is the
    [_default_output]. *)
Definition convert_to_list (input : pyval) : option (list Z) :=
  match input with
  | PyInt z => Some [z]
  | PyList [] => None
  | PyList l => all_ints l
  | _ => None
  end.

(** ** class HX711 *)

Module HX711.

(** [_pd_sck] is read by [_prepare_to_read] and [_pulse_sck_high] and
    assigned nowhere in the class: it is [None] unless a caller has set it
    on the object. *)
Record t : Type := mk {
  _debug_mode : bool;
  _dout_pins : list Z;
  _sck_pin : Z;
  _pd_sck : option Z;
  _channel_A_gain : pyval;
  _channel_select : pyval;
  _load_cells : list LoadCell.t }.

Definition set_load_cells (self : t) (cells : list LoadCell.t) : t :=
  {| _debug_mode := _debug_mode self;
     _dout_pins := _dout_pins self;
     _sck_pin := _sck_pin self;
     _pd_sck := _pd_sck self;
     _channel_A_gain := _channel_A_gain self;
     _channel_select := _channel_select self;
     _load_cells := cells |}.

(** The object and the calls made so far. *)
Definition state : Type := (t * trace)%type.

(** A method that does not assign to the object. *)
Definition call {A : Type} (m : t -> M trace A) : M state A :=
  fun s => let (r, tr') := m (fst s) (snd s) in (r, (fst s, tr')).

(** [for load_cell in cells: load_cell.m()]: the cells are updated in
    order; a raise stops the loop with the earlier cells updated. *)
Fixpoint each (m : LoadCell.t -> M trace LoadCell.t)
    (cells : list LoadCell.t) (tr : trace)
    : Res unit * (list LoadCell.t * trace) :=
  match cells with
  | [] => (Ret tt, ([], tr))
  | c :: rest =>
      match m c tr with
      | (Ret c', tr') =>
          let '(r, (rest', tr'')) := each m rest tr' in
          (r, (c' :: rest', tr''))
      | (Raise e, tr') => (Raise e, (c :: rest, tr'))
      end
  end.

Definition for_load_cells (m : LoadCell.t -> M trace LoadCell.t)
    : M state unit :=
  fun s =>
    let '(r, (cells, tr')) := each m (_load_cells (fst s)) (snd s) in
    (r, (set_load_cells (fst s) cells, tr')).

(** *** Construction *)

Definition _set_dout_pins (dout_pins : pyval) : Res (list Z) :=
  match convert_to_list dout_pins with
  | None => Raise TypeError
  | Some pins => Ret pins
  end.

(** [type(sck_pin) is not int] *)
Definition _set_sck_pin (sck_pin : pyval) : Res Z :=
  match sck_pin with
  | PyInt z => Ret z
  | _ => Raise TypeError
  end.

(** [channel_A_gain not in [128, 64]] *)
Definition _set_channel_a_gain (channel_A_gain : pyval) : Res pyval :=
  if negb (eq_int channel_A_gain 128 || eq_int channel_A_gain 64)
  then Raise TypeError
  else Ret channel_A_gain.

(** [channel_select not in ['A', 'B']] *)
Definition _set_channel_select (channel_select : pyval) : Res pyval :=
  if negb (eq_str channel_select "A" || eq_str channel_select "B")
  then Raise TypeError
  else Ret channel_select.

Definition _init_load_cells (dout_pins : list Z) (debug_mode : bool)
    : list LoadCell.t :=
  map (fun dout_pin => LoadCell.__init__ dout_pin debug_mode) dout_pins.

Section WithHost.
Variable host : Host.

Fixpoint setup_inputs (dout_pins : list Z) : M trace unit :=
  match dout_pins with
  | [] => ret tt
  | dout :: rest => (GPIO.setup dout false ;; setup_inputs rest)%py
  end.

Definition _init_gpio (sck_pin : Z) (dout_pins : list Z) : M trace unit :=
  if negb (SIMULATE_PI host)
  then (GPIO.setup sck_pin true ;; setup_inputs dout_pins)%py
  else ret tt.

(** The attributes are assigned in the order of the source; the object is
    returned to the caller only when no step raised. *)
Definition __init__ (dout_pins sck_pin channel_A_gain channel_select : pyval)
    (debug_mode : bool) : M trace t :=
  fun tr =>
    match _set_dout_pins dout_pins with
    | Raise e => (Raise e, tr)
    | Ret pins =>
    match _set_sck_pin sck_pin with
    | Raise e => (Raise e, tr)
    | Ret sck =>
    match _init_gpio sck pins tr with
    | (Raise e, tr1) => (Raise e, tr1)
    | (Ret _, tr1) =>
    match _set_channel_a_gain channel_A_gain with
    | Raise e => (Raise e, tr1)
    | Ret gain =>
    match _set_channel_select channel_select with
    | Raise e => (Raise e, tr1)
    | Ret channel =>
        (Ret {| _debug_mode := debug_mode;
                _dout_pins := pins;
                _sck_pin := sck;
                _pd_sck := None;
                _channel_A_gain := gain;
                _channel_select := channel;
                _load_cells := _init_load_cells pins debug_mode |}, tr1)
    end end end end end.

(** *** The read protocol *)

(** Reading [self._pd_sck]. *)
Definition get_pd_sck (self : t) : M trace Z :=
  match _pd_sck self with
  | Some pin => ret pin
  | None => raise AttributeError
  end.

(** [GPIO.output(self._pd_sck, level)]: the name [GPIO] is looked up, then
    the argument is evaluated, then the call is made. *)
Definition output_pd_sck (self : t) (level : bool) : M trace unit :=
  (GPIO.name host ;;
   pin <- get_pd_sck self ;;
   GPIO.output pin level)%py.

(** The inner loop of [_prepare_to_read]:
    [if GPIO.input(_load_cell._dout_pin) == 0: ready = False]. *)
Fixpoint poll_load_cells (cells : list LoadCell.t) (ready : bool)
    : M trace bool :=
  match cells with
  | [] => ret ready
  | c :: rest =>
      (GPIO.name host ;;
       level <- GPIO.input host (LoadCell._dout_pin c) ;;
       poll_load_cells rest (if level =? 0 then false else ready))%py
  end.

(** [n] remaining iterations of [for _ in range(20)]; [ready] is the value
    the variable holds when the loop is entered. *)
Fixpoint poll_ready (self : t) (n : nat) (ready : bool) : M trace bool :=
  match n with
  | O => ret ready
  | S n' =>
      (ready' <- poll_load_cells (_load_cells self) true ;;
       if ready' : bool then ret ready'
       else (sleep ;; poll_ready self n' ready'))%py
  end.

Definition _prepare_to_read (self : t) : M trace bool :=
  (output_pd_sck self false ;;
   poll_ready self 20 true)%py.

(** [0.00006], the binary64 value the literal denotes. *)
Definition sixty_us : float := 0x1.f75104d551d69p-15%float.

Definition _pulse_sck_high (self : t) : M trace bool :=
  (pulse_start <- perf_counter host ;;
   output_pd_sck self true ;;
   output_pd_sck self false ;;
   pulse_end <- perf_counter host ;;
   if PrimFloat.leb sixty_us (PrimFloat.sub pulse_end pulse_start)
   then ret false
   else ret true)%py.

Definition num_pulses (self : t) : nat :=
  if eq_str (_channel_select self) "A" && eq_int (_channel_A_gain self) 128
  then 1%nat
  else if eq_str (_channel_select self) "A" && eq_int (_channel_A_gain self) 64
  then 3%nat
  else 2%nat.

(** [for _ in range(n): if not self._pulse_sck_high(): return False] and
    the [return True] after it. *)
Fixpoint pulse_times (self : t) (n : nat) : M trace bool :=
  match n with
  | O => ret true
  | S n' =>
      (ok <- _pulse_sck_high self ;;
       if ok : bool then pulse_times self n' else ret false)%py
  end.

Definition _write_channel_gain (self : t) : M trace bool :=
  pulse_times self (num_pulses self).

(** [n] remaining iterations of [for _ in range(24)] in [_read]; [false]
    is the [return False] inside the loop, [true] its normal end. *)
Fixpoint read_bits (n : nat) : M state bool :=
  match n with
  | O => ret true
  | S n' =>
      (ok <- call _pulse_sck_high ;;
       if ok : bool
       then (for_load_cells (LoadCell._read host) ;; read_bits n')
       else ret false)%py
  end.

Definition _read : M state bool :=
  (ready <- call _prepare_to_read ;;
   if negb ready then ret false
   else
     (for_load_cells (fun c => ret (LoadCell._init_raw_read c)) ;;
      ok <- read_bits 24 ;;
      if negb ok then ret false
      else
        (for_load_cells LoadCell._finish_raw_read ;;
         ok' <- call _write_channel_gain ;;
         if negb ok' then ret false else ret true)))%py.

End WithHost.
End HX711.

(** ** Vocabulary of the properties *)

(** The decoding the specification asks of [convert_to_signed_value], in its
    own words: the value itself on [0, 0x7FFFFF], the two's-complement
    negation on [0x800000, 0xFFFFFF]. *)
Definition Decode_spec (raw : Z) : option Z :=
  if (0 <=? raw) && (raw <=? 0x7FFFFF) then Some raw
  else if (0x800000 <=? raw) && (raw <=? 0xFFFFFF)
       then Some (- (Z.lxor raw 0xFFFFFF + 1))
       else None.

(** One sampling step on the accumulator: [(acc << 1) | bit]. *)
Definition shift_in (acc bit : Z) : Z := Z.lor (Z.shiftl acc 1) bit.

(** The accumulator after the bits of a list, first bit first. *)
Definition compose (bits : list Z) : Z := fold_left shift_in bits 0.

(** The sum of [bit_i * 2^(n-1-i)] over a list of [n] bits. *)
Fixpoint msb_first (bits : list Z) : Z :=
  match bits with
  | [] => 0
  | b :: rest => b * 2 ^ Z.of_nat (List.length rest) + msb_first rest
  end.

Definition is_bit (b : Z) : Prop := b = 0 \/ b = 1.

(** Clock pulses: the calls [GPIO.output(pin, True)] of a trace. *)
Fixpoint high_pulses (tr : trace) : nat :=
  match tr with
  | [] => O
  | EvOutput _ true :: rest => S (high_pulses rest)
  | _ :: rest => high_pulses rest
  end.

(** The calls [sleep(0.01)] of a trace. *)
Fixpoint sleeps (tr : trace) : nat :=
  match tr with
  | [] => O
  | EvSleep :: rest => S (sleeps rest)
  | _ :: rest => sleeps rest
  end.

(** The calls [GPIO.input] of a trace. *)
Fixpoint inputs (tr : trace) : nat :=
  match tr with
  | [] => O
  | EvInput _ :: rest => S (inputs rest)
  | _ :: rest => inputs rest
  end.

(** The two histories of an accumulator are index-aligned. *)
Definition aligned (c : LoadCell.t) : Prop :=
  List.length (LoadCell.raw_reads c) = List.length (LoadCell.reads c).

(** Neither history of [c'] differs from that of [c]. *)
Definition same_histories (c c' : LoadCell.t) : Prop :=
  LoadCell.raw_reads c' = LoadCell.raw_reads c /\
  LoadCell.reads c' = LoadCell.reads c.

(** [c'] has exactly one more entry than [c] in each history: the raw value
    [v] and what [convert_to_signed_value] makes of it. *)
Definition appended (v : Z) (c c' : LoadCell.t) : Prop :=
  LoadCell.raw_reads c' = LoadCell.raw_reads c ++ [v] /\
  LoadCell.reads c' =
    LoadCell.reads c ++ [LoadCell.convert_to_signed_value c v].

(** The levels the [i]-th of [n] accumulators gets from its own pin during
    the [rounds] data pulses of a cycle whose first pulse starts at call
    [start]: a pulse is four calls (two [perf_counter], two [GPIO.output])
    and is followed by one [GPIO.input] per accumulator, in order. *)
Definition own_bits (host : Host) (start n i : nat) (pin : Z) (rounds : nat)
    : list Z :=
  map (fun j => GPIO_input host (start + j * (4 + n) + 4 + i)%nat pin)
      (seq 0 rounds).

(** The accumulator stepped once per trace of a list, each trace being the
    calls made before that step. *)
Fixpoint sample_at (host : Host) (c : LoadCell.t) (trs : list trace)
    : Res LoadCell.t :=
  match trs with
  | [] => Ret c
  | tr :: rest =>
      match LoadCell._read host c tr with
      | (Ret c', _) => sample_at host c' rest
      | (Raise e, _) => Raise e
      end
  end.

(** A controller as [__init__] leaves it, with [_pd_sck] then assigned by
    the caller. *)
Definition with_pd_sck (self : HX711.t) (pin : Z) : HX711.t :=
  {| HX711._debug_mode := HX711._debug_mode self;
     HX711._dout_pins := HX711._dout_pins self;
     HX711._sck_pin := HX711._sck_pin self;
     HX711._pd_sck := Some pin;
     HX711._channel_A_gain := HX711._channel_A_gain self;
     HX711._channel_select := HX711._channel_select self;
     HX711._load_cells := HX711._load_cells self |}.

(** *** What the protocol does to the trace and to the accumulators *)

(** The trace after one [GPIO.input] per accumulator, in order. *)
Definition polled (cells : list LoadCell.t) (tr : trace) : trace :=
  fold_left (fun t c => EvInput (LoadCell._dout_pin c) :: t) cells tr.

(** The trace after [n] polls that each found the pins not ready. *)
Fixpoint poll_rounds (n : nat) (cells : list LoadCell.t) (tr : trace)
    : trace :=
  match n with
  | O => tr
  | S n' => poll_rounds n' cells (EvSleep :: polled cells tr)
  end.

(** The trace after one clock pulse on [pin]. *)
Definition pulsed (pin : Z) (tr : trace) : trace :=
  EvPerfCounter :: EvOutput pin false :: EvOutput pin true
    :: EvPerfCounter :: tr.

(** The guard of [_pulse_sck_high] for the pulse whose first
    [perf_counter()] is call [start]: the second one is three calls
    later. *)
Definition pulse_too_long (host : Host) (start : nat) : bool :=
  PrimFloat.leb HX711.sixty_us
    (PrimFloat.sub (perf_counter_at host (3 + start))
                   (perf_counter_at host start)).

(** Some of [n] pulses trips the guard, the first pulse starting at call
    [start] and each next one [stride] calls after the one before. *)
Fixpoint any_long_pulse (host : Host) (start stride n : nat) : bool :=
  match n with
  | O => false
  | S n' =>
      pulse_too_long host start
      || any_long_pulse host (start + stride) stride n'
  end.

Definition has_current (c : LoadCell.t) : Prop :=
  exists cur, LoadCell._current_raw_read c = Some cur.

(** An accumulator after it has sampled [bit]. *)
Definition sample (c : LoadCell.t) (bit : Z) : LoadCell.t :=
  match LoadCell._current_raw_read c with
  | Some cur => LoadCell.set_current_raw_read c (shift_in cur bit)
  | None => c
  end.

(** The accumulators after each has sampled its pin once, the first at
    call [k]. *)
Fixpoint sample_each (host : Host) (k : nat) (cells : list LoadCell.t)
    : list LoadCell.t :=
  match cells with
  | [] => []
  | c :: rest =>
      sample c (GPIO_input host k (LoadCell._dout_pin c))
        :: sample_each host (S k) rest
  end.

(** The accumulators after [n] data pulses, the first starting at call
    [start] and each next one [stride] calls after the one before. *)
Fixpoint sample_rounds (host : Host) (n start stride : nat)
    (cells : list LoadCell.t) : list LoadCell.t :=
  match n with
  | O => cells
  | S n' =>
      sample_rounds host n' (start + stride) stride
        (sample_each host (4 + start) cells)
  end.

(** The trace after [n] pulses on [pin] with nothing in between. *)
Fixpoint pulsed_times (n : nat) (pin : Z) (tr : trace) : trace :=
  match n with
  | O => tr
  | S n' => pulsed_times n' pin (pulsed pin tr)
  end.

(** An accumulator after [_finish_raw_read]. *)
Definition finished (c : LoadCell.t) : LoadCell.t :=
  match LoadCell._current_raw_read c with
  | Some cur =>
      {| LoadCell._dout_pin := LoadCell._dout_pin c;
         LoadCell._debug_mode := LoadCell._debug_mode c;
         LoadCell._offset := LoadCell._offset c;
         LoadCell._scale_ratio := LoadCell._scale_ratio c;
         LoadCell._last_raw_read := LoadCell._last_raw_read c;
         LoadCell.raw_reads := LoadCell.raw_reads c ++ [cur];
         LoadCell.reads :=
           LoadCell.reads c ++ [LoadCell.convert_to_signed_value c cur];
         LoadCell._current_raw_read := Some cur;
         LoadCell._current_signed_value :=
           Some (LoadCell.convert_to_signed_value c cur) |}
  | None => c
  end.

(** A computation on the controller keeps a property of the
    accumulators, whatever its outcome. *)
Definition preserves {A : Type} (P : LoadCell.t -> Prop)
    (m : M HX711.state A) : Prop :=
  forall s r s',
    m s = (r, s') ->
    Forall P (HX711._load_cells (fst s)) ->
    Forall P (HX711._load_cells (fst s')).

(** *** Hosts and controllers of the examples *)

(** Every data pin reads HIGH, and the clock does not advance between two
    readings. *)
Definition host_high : Host :=
  mkHost false (fun _ _ => 1) (fun _ => 0%float).

(** Every data pin reads LOW. *)
Definition host_low : Host :=
  mkHost false (fun _ _ => 0) (fun _ => 0%float).

(** Every data pin reads HIGH, and the clock jumps by one second at call
    [k]. *)
Definition host_stall (k : nat) : Host :=
  mkHost false (fun _ _ => 1)
    (fun j => if Nat.ltb j k then 0%float else 1%float).

(** The data pins read 0 at even calls and 1 at odd ones. *)
Definition host_alternating : Host :=
  mkHost false (fun k _ => Z.of_nat (k mod 2)) (fun _ => 0%float).

(** [HX711(5, 6)]: one data pin, the default gain and channel. *)
Definition hx_5_6 : HX711.t :=
  {| HX711._debug_mode := false;
     HX711._dout_pins := [5];
     HX711._sck_pin := 6;
     HX711._pd_sck := None;
     HX711._channel_A_gain := PyInt 128;
     HX711._channel_select := PyStr "A";
     HX711._load_cells := [LoadCell.__init__ 5 false] |}.

(** [HX711(5, 6, 128, 'B')] *)
Definition hx_5_6_B : HX711.t :=
  {| HX711._debug_mode := false;
     HX711._dout_pins := [5];
     HX711._sck_pin := 6;
     HX711._pd_sck := None;
     HX711._channel_A_gain := PyInt 128;
     HX711._channel_select := PyStr "B";
     HX711._load_cells := [LoadCell.__init__ 5 false] |}.

(** One cycle of [HX711(5, 6)] with [_pd_sck] set, on HIGH pins. *)
Definition cycle_5_6 : Res bool * HX711.state :=
  HX711._read host_high (with_pd_sck hx_5_6 6, []).

(** Twenty-four traces, of 0 to 23 calls. *)
Definition traces_24 : list trace :=
  map (fun k => repeat EvSleep k) (seq 0 24).

(** *** Vocabulary of the further properties *)

(** The trace after [_init_gpio] on a host with [RPi.GPIO]: the clock pin
    set up as an output, then each data pin as an input, in order. *)
Definition setup_trace (sck_pin : Z) (dout_pins : list Z) (tr : trace)
    : trace :=
  fold_left (fun t pin => EvSetup pin false :: t) dout_pins
    (EvSetup sck_pin true :: tr).

(** No pin reads 0 in the poll whose first [GPIO.input] is call [k]. *)
Fixpoint poll_finds_ready (host : Host) (k : nat) (cells : list LoadCell.t)
    : bool :=
  match cells with
  | [] => true
  | c :: rest =>
      negb (GPIO_input host k (LoadCell._dout_pin c) =? 0)
      && poll_finds_ready host (S k) rest
  end.

(** One of [n] polls finds no pin at 0, the first poll starting at call
    [k]; a poll that fails is followed by one [sleep]. *)
Fixpoint ready_within (host : Host) (n k : nat) (cells : list LoadCell.t)
    : bool :=
  match n with
  | O => false
  | S n' =>
      poll_finds_ready host k cells
      || ready_within host n' (S (k + List.length cells)) cells
  end.

(** The polls that fail before the first one that succeeds, among [n]. *)
Fixpoint failed_polls (host : Host) (n k : nat) (cells : list LoadCell.t)
    : nat :=
  match n with
  | O => O
  | S n' =>
      if poll_finds_ready host k cells then O
      else S (failed_polls host n' (S (k + List.length cells)) cells)
  end.

(** The pulses that pass the guard before the first one that trips it,
    among [n] pulses. *)
Fixpoint rounds_before_long (host : Host) (start stride n : nat) : nat :=
  match n with
  | O => O
  | S n' =>
      if pulse_too_long host start then O
      else S (rounds_before_long host (start + stride) stride n')
  end.

(** The read protocol has left alone what [c] had outside its accumulator
    and its histories. *)
Definition untouched (c c' : LoadCell.t) : Prop :=
  LoadCell._dout_pin c' = LoadCell._dout_pin c /\
  LoadCell._debug_mode c' = LoadCell._debug_mode c /\
  LoadCell._offset c' = LoadCell._offset c /\
  LoadCell._scale_ratio c' = LoadCell._scale_ratio c /\
  LoadCell._last_raw_read c' = LoadCell._last_raw_read c.

(** The histories of [c'] are those of [c] with at most [k] entries added
    at the end of each, as many in one as in the other. *)
Definition grown_by (k : nat) (c c' : LoadCell.t) : Prop :=
  exists raw_new signed_new,
    LoadCell.raw_reads c' = LoadCell.raw_reads c ++ raw_new /\
    LoadCell.reads c' = LoadCell.reads c ++ signed_new /\
    List.length raw_new = List.length signed_new /\
    (List.length raw_new <= k)%nat.

(** The signed history holds nothing but [None]. *)
Definition all_invalid (c : LoadCell.t) : Prop :=
  Forall (fun r => r = None) (LoadCell.reads c).

(** A computation on the controller changes nothing but the accumulators,
    and relates each accumulator to what it was, whatever its outcome. *)
Definition relates {A : Type} (R : LoadCell.t -> LoadCell.t -> Prop)
    (m : M HX711.state A) : Prop :=
  forall s r s',
    m s = (r, s') ->
    fst s' = HX711.set_load_cells (fst s) (HX711._load_cells (fst s')) /\
    Forall2 R (HX711._load_cells (fst s)) (HX711._load_cells (fst s')).

(** The controller and the trace after [n] calls of [_read] in a row,
    whatever each call returned or raised. *)
Fixpoint cycles (host : Host) (n : nat) (s : HX711.state) : HX711.state :=
  match n with
  | O => s
  | S n' => cycles host n' (snd (HX711._read host s))
  end.

(** A host on which [import RPi.GPIO] failed. *)
Definition host_simulated : Host :=
  mkHost true (fun _ _ => 0) (fun _ => 0%float).

(** The data pins read LOW in the first two polls and HIGH from the third
    on (one data pin: the polls read at calls 1, 3 and 5). *)
Definition host_ready_late : Host :=
  mkHost false (fun k _ => if Nat.ltb k 5 then 0 else 1) (fun _ => 0%float).

(** [HX711([5, 7], 6)]: two data pins. *)
Definition hx_57_6 : HX711.t :=
  {| HX711._debug_mode := false;
     HX711._dout_pins := [5; 7];
     HX711._sck_pin := 6;
     HX711._pd_sck := None;
     HX711._channel_A_gain := PyInt 128;
     HX711._channel_select := PyStr "A";
     HX711._load_cells :=
       [LoadCell.__init__ 5 false; LoadCell.__init__ 7 false] |}.

(** The level of the most recent [GPIO.output] of a trace. *)
Fixpoint last_output (tr : trace) : option bool :=
  match tr with
  | [] => None
  | EvOutput _ level :: _ => Some level
  | _ :: rest => last_output rest
  end.

(** The clock was last written LOW. *)
Definition clock_low (tr : trace) : Prop := last_output tr = Some false.

(** A computation that, whatever its outcome, leaves the clock LOW when it
    found it LOW. *)
Definition keeps_clock_low {S A : Type} (trace_of : S -> trace)
    (m : M S A) : Prop :=
  forall s r s',
    m s = (r, s') -> clock_low (trace_of s) -> clock_low (trace_of s').

(** A computation that, whatever its outcome, makes at most [k] clock
    pulses. *)
Definition adds_at_most {S A : Type} (trace_of : S -> trace) (k : nat)
    (m : M S A) : Prop :=
  forall s r s',
    m s = (r, s') ->
    (high_pulses (trace_of s') <= k + high_pulses (trace_of s))%nat.

(** Data pin 5 reads HIGH at every call; every other data pin reads HIGH
    up to call 2 (the poll of a controller with two data pins) and then, at
    its sampling calls 8, 14, 20, ..., the levels 0, 1, 0, 1, ... *)
Definition host_two_signals : Host :=
  mkHost false
    (fun k pin => if pin =? 5 then 1 else Z.of_nat (((k + 4) / 6) mod 2))
    (fun _ => 0%float).

(** One cycle of [HX711([5, 7], 6)] with [_pd_sck] set, on these two
    signals. *)
Definition cycle_57_6 : Res bool * HX711.state :=
  HX711._read host_two_signals (with_pd_sck hx_57_6 6, []).

(** The calls [GPIO.output(pin, level)] of a trace, most recent first. *)
Fixpoint clock_writes (tr : trace) : list (Z * bool) :=
  match tr with
  | [] => []
  | EvOutput pin level :: rest => (pin, level) :: clock_writes rest
  | _ :: rest => clock_writes rest
  end.

(** * Properties *)

(** ** Decoding *)

Lemma no_integer_between (raw : Z) :
  (0x7fffff <? raw) && (raw <? 0x800000) = false.
Proof.
  destruct (0x7fffff <? raw) eqn:Hlo; [| reflexivity].
  destruct (raw <? 0x800000) eqn:Hhi; [| reflexivity].
  apply Z.ltb_lt in Hlo, Hhi. lia.
Qed.

Lemma convert_to_signed_value_None (self : LoadCell.t) (raw : Z) :
  LoadCell.convert_to_signed_value self raw = None.
Proof.
  unfold LoadCell.convert_to_signed_value.
  now rewrite no_integer_between.
Qed.

(** The decoding of the specification is the two's-complement reading of a
    24-bit pattern. *)
Lemma Decode_spec_twos_complement (raw : Z) :
  0 <= raw <= 0xFFFFFF ->
  Decode_spec raw =
    Some (if raw <? 0x800000 then raw else raw - 0x1000000).
Proof.
  intros Hr. unfold Decode_spec.
  destruct (raw <? 0x800000) eqn:Hlt.
  - apply Z.ltb_lt in Hlt.
    replace ((0 <=? raw) && (raw <=? 0x7FFFFF)) with true; [reflexivity |].
    symmetry. apply andb_true_iff. split; apply Z.leb_le; lia.
  - apply Z.ltb_ge in Hlt.
    replace ((0 <=? raw) && (raw <=? 0x7FFFFF)) with false.
    2:{ symmetry. apply andb_false_iff. right. apply Z.leb_gt. lia. }
    replace ((0x800000 <=? raw) && (raw <=? 0xFFFFFF)) with true.
    2:{ symmetry. apply andb_true_iff. split; apply Z.leb_le; lia. }
    f_equal.
    pose proof (Z.sub_lor_land raw 0xFFFFFF) as Hsub.
    pose proof (Z.add_lor_land raw 0xFFFFFF) as Hadd.
    assert (Hland : Z.land raw 0xFFFFFF = raw).
    { change 0xFFFFFF with (Z.ones 24).
      rewrite Z.land_ones by lia.
      apply Z.mod_small. change (2 ^ 24) with 0x1000000. lia. }
    lia.
Qed.

(** C1. Two's-complement decoding is what the lines after the validity
    test of [convert_to_signed_value] compute, but the validity test lets
    no integer through: at 0x7FFFFF, 0x800000 and 0xFFFFFF the method
    returns [None], where the decoding of the specification gives 8388607,
    -8388608 and -1. *)
Theorem convert_to_signed_value_misses_twos_complement (self : LoadCell.t) :
  (LoadCell.convert_to_signed_value self 0x7FFFFF = None /\
   Decode_spec 0x7FFFFF = Some 8388607) /\
  (LoadCell.convert_to_signed_value self 0x800000 = None /\
   Decode_spec 0x800000 = Some (-8388608)) /\
  (LoadCell.convert_to_signed_value self 0xFFFFFF = None /\
   Decode_spec 0xFFFFFF = Some (-1)).
Proof.
  repeat split; try apply convert_to_signed_value_None; reflexivity.
Qed.

(** C2. The invalid branch is the only one taken: whatever the raw value,
    24-bit or not, [convert_to_signed_value] returns [None], because
    [not (0x7fffff < raw < 0x800000)] is true of every integer. *)
Theorem convert_to_signed_value_always_invalid
    (self : LoadCell.t) (raw : Z) :
  negb ((0x7fffff <? raw) && (raw <? 0x800000)) = true /\
  LoadCell.convert_to_signed_value self raw = None.
Proof.
  split.
  - now rewrite no_integer_between.
  - apply convert_to_signed_value_None.
Qed.

(** ** Construction *)

Lemma eq_int_128 (v : pyval) : eq_int v 128 = true <-> v = PyInt 128.
Proof.
  destruct v as [| b | z | s | l]; simpl; split; intros H;
    try discriminate; try (destruct b; discriminate).
  - apply Z.eqb_eq in H. now subst.
  - inversion H. reflexivity.
Qed.

Lemma eq_int_64 (v : pyval) : eq_int v 64 = true <-> v = PyInt 64.
Proof.
  destruct v as [| b | z | s | l]; simpl; split; intros H;
    try discriminate; try (destruct b; discriminate).
  - apply Z.eqb_eq in H. now subst.
  - inversion H. reflexivity.
Qed.

Lemma eq_str_iff (v : pyval) (s : string) :
  eq_str v s = true <-> v = PyStr s.
Proof.
  destruct v as [| b | z | s' | l]; simpl; split; intros H;
    try discriminate.
  - apply String.eqb_eq in H. now subst.
  - inversion H. apply String.eqb_refl.
Qed.

Lemma _set_channel_a_gain_Ret (gain : pyval) :
  gain = PyInt 128 \/ gain = PyInt 64 ->
  HX711._set_channel_a_gain gain = Ret gain.
Proof.
  intros [-> | ->]; reflexivity.
Qed.

Lemma _set_channel_a_gain_Raise (gain : pyval) :
  gain <> PyInt 128 -> gain <> PyInt 64 ->
  HX711._set_channel_a_gain gain = Raise TypeError.
Proof.
  intros H128 H64. unfold HX711._set_channel_a_gain.
  destruct (eq_int gain 128) eqn:E1.
  { apply eq_int_128 in E1. contradiction. }
  destruct (eq_int gain 64) eqn:E2.
  { apply eq_int_64 in E2. contradiction. }
  reflexivity.
Qed.

Lemma _set_channel_select_Ret (channel : pyval) :
  channel = PyStr "A" \/ channel = PyStr "B" ->
  HX711._set_channel_select channel = Ret channel.
Proof.
  intros [-> | ->]; reflexivity.
Qed.

Lemma _set_channel_select_Raise (channel : pyval) :
  channel <> PyStr "A" -> channel <> PyStr "B" ->
  HX711._set_channel_select channel = Raise TypeError.
Proof.
  intros HA HB. unfold HX711._set_channel_select.
  destruct (eq_str channel "A") eqn:E1.
  { apply eq_str_iff in E1. contradiction. }
  destruct (eq_str channel "B") eqn:E2.
  { apply eq_str_iff in E2. contradiction. }
  reflexivity.
Qed.

Lemma _set_channel_a_gain_cases (gain : pyval) :
  HX711._set_channel_a_gain gain = Ret gain \/
  HX711._set_channel_a_gain gain = Raise TypeError.
Proof.
  unfold HX711._set_channel_a_gain.
  destruct (negb _); [right | left]; reflexivity.
Qed.

Lemma _init_gpio_Ret (host : Host) (sck : Z) (pins : list Z) (tr : trace) :
  exists tr', HX711._init_gpio host sck pins tr = (Ret tt, tr').
Proof.
  unfold HX711._init_gpio.
  destruct (negb (SIMULATE_PI host)); [| eexists; reflexivity].
  unfold bind, GPIO.setup.
  generalize (EvSetup sck true :: tr). clear tr.
  induction pins as [| pin pins IH]; intros tr; simpl.
  - eexists. reflexivity.
  - unfold bind, GPIO.setup. apply IH.
Qed.

(** What [__init__] raises is a [TypeError], and it raises one whenever the
    gain or the channel is refused. *)
Lemma __init___refuses (host : Host)
    (dout_pins sck_pin gain channel : pyval) (debug : bool) (tr : trace) :
  (gain <> PyInt 128 /\ gain <> PyInt 64) \/
  (channel <> PyStr "A" /\ channel <> PyStr "B") ->
  exists tr',
    HX711.__init__ host dout_pins sck_pin gain channel debug tr
    = (Raise TypeError, tr').
Proof.
  intros Hbad. unfold HX711.__init__, HX711._set_dout_pins.
  destruct (convert_to_list dout_pins) as [pins |]; [| eexists; reflexivity].
  destruct sck_pin as [| b | sck | s | l]; simpl;
    try (eexists; reflexivity).
  destruct (_init_gpio_Ret host sck pins tr) as [tr1 ->].
  destruct (_set_channel_a_gain_cases gain) as [Hg | Hg]; rewrite Hg;
    [| eexists; reflexivity].
  destruct Hbad as [[H128 H64] | [HA HB]].
  - rewrite (_set_channel_a_gain_Raise gain H128 H64) in Hg. discriminate Hg.
  - rewrite (_set_channel_select_Raise channel HA HB).
    eexists; reflexivity.
Qed.

(** Valid pins, an [int] clock pin, a gain of 128 or 64 and a channel of
    'A' or 'B', in any combination, give a controller. *)
Lemma __init___accepts (host : Host)
    (dout_pins gain channel : pyval) (pins : list Z) (sck : Z)
    (debug : bool) (tr : trace) :
  convert_to_list dout_pins = Some pins ->
  gain = PyInt 128 \/ gain = PyInt 64 ->
  channel = PyStr "A" \/ channel = PyStr "B" ->
  exists tr',
    HX711.__init__ host dout_pins (PyInt sck) gain channel debug tr
    = (Ret {| HX711._debug_mode := debug;
              HX711._dout_pins := pins;
              HX711._sck_pin := sck;
              HX711._pd_sck := None;
              HX711._channel_A_gain := gain;
              HX711._channel_select := channel;
              HX711._load_cells := HX711._init_load_cells pins debug |},
       tr').
Proof.
  intros Hpins Hgain Hchannel.
  unfold HX711.__init__, HX711._set_dout_pins. rewrite Hpins. simpl.
  destruct (_init_gpio_Ret host sck pins tr) as [tr1 ->].
  rewrite (_set_channel_a_gain_Ret gain Hgain).
  rewrite (_set_channel_select_Ret channel Hchannel).
  eexists; reflexivity.
Qed.

(** C9 as stated fails: channel 'B' with gain 128 is accepted.  It is what
    [HX711(5, 6, channel_select='B')] passes, 128 being the default of
    [channel_A_gain]. *)
Lemma channel_B_with_gain_128_is_accepted :
  HX711.__init__ host_high (PyInt 5) (PyInt 6) (PyInt 128) (PyStr "B")
    false []
  = (Ret hx_5_6_B, [EvSetup 5 false; EvSetup 6 true]).
Proof. reflexivity. Qed.

(** C9, amended. The gain and the channel are validated one after the
    other, each on its own: [__init__] raises [TypeError], and so returns
    no controller, whenever the gain is neither 128 nor 64 or the channel
    neither 'A' nor 'B'; with valid pins, every gain of 128 or 64 goes with
    every channel of 'A' or 'B', and the controller holds both as given. *)
Theorem init_validates_gain_and_channel_separately (host : Host)
    (dout_pins sck_pin gain channel : pyval) (debug : bool) (tr : trace) :
  ((gain <> PyInt 128 /\ gain <> PyInt 64) \/
   (channel <> PyStr "A" /\ channel <> PyStr "B") ->
   exists tr',
     HX711.__init__ host dout_pins sck_pin gain channel debug tr
     = (Raise TypeError, tr')) /\
  (forall pins sck,
     convert_to_list dout_pins = Some pins ->
     sck_pin = PyInt sck ->
     gain = PyInt 128 \/ gain = PyInt 64 ->
     channel = PyStr "A" \/ channel = PyStr "B" ->
     exists self tr',
       HX711.__init__ host dout_pins sck_pin gain channel debug tr
       = (Ret self, tr') /\
       HX711._channel_A_gain self = gain /\
       HX711._channel_select self = channel).
Proof.
  split.
  - apply __init___refuses.
  - intros pins sck Hpins -> Hgain Hchannel.
    destruct (__init___accepts host dout_pins gain channel pins sck debug tr
                Hpins Hgain Hchannel) as [tr' Hinit].
    eexists. exists tr'. split; [exact Hinit |]. split; reflexivity.
Qed.

Lemma init_validates_gain_and_channel_separately_witness :
  (exists tr',
     HX711.__init__ host_high (PyInt 5) (PyInt 6) (PyInt 32) (PyStr "B")
       false []
     = (Raise TypeError, tr')) /\
  (exists self tr',
     HX711.__init__ host_high (PyInt 5) (PyInt 6) (PyInt 64) (PyStr "B")
       false []
     = (Ret self, tr') /\
     HX711._channel_A_gain self = PyInt 64 /\
     HX711._channel_select self = PyStr "B").
Proof.
  split.
  - apply (proj1 (init_validates_gain_and_channel_separately host_high
                    (PyInt 5) (PyInt 6) (PyInt 32) (PyStr "B") false [])).
    left. split; discriminate.
  - apply (proj2 (init_validates_gain_and_channel_separately host_high
                    (PyInt 5) (PyInt 6) (PyInt 64) (PyStr "B") false [])
             [5] 6).
    + reflexivity.
    + reflexivity.
    + right; reflexivity.
    + right; reflexivity.
Defined.

Lemma __init___pd_sck (host : Host)
    (dout_pins sck_pin gain channel : pyval) (debug : bool)
    (tr tr' : trace) (self : HX711.t) :
  HX711.__init__ host dout_pins sck_pin gain channel debug tr
  = (Ret self, tr') ->
  HX711._pd_sck self = None.
Proof.
  unfold HX711.__init__.
  destruct (HX711._set_dout_pins dout_pins); [| discriminate].
  destruct (HX711._set_sck_pin sck_pin); [| discriminate].
  destruct (HX711._init_gpio host _ _ tr) as [[[] | e] tr1]; [| discriminate].
  destruct (HX711._set_channel_a_gain gain); [| discriminate].
  destruct (HX711._set_channel_select channel); [| discriminate].
  intros H. inversion H. reflexivity.
Qed.

(** ** The clock line *)

Section Clock.
Variable host : Host.
Variable self : HX711.t.

Lemma output_pd_sck_absent (level : bool) (tr : trace) :
  HX711._pd_sck self = None ->
  HX711.output_pd_sck host self level tr
  = (Raise (if SIMULATE_PI host then NameError else AttributeError), tr).
Proof.
  intros Hnone. unfold HX711.output_pd_sck, HX711.get_pd_sck, GPIO.name, bind.
  rewrite Hnone. destruct (SIMULATE_PI host); reflexivity.
Qed.

Lemma output_pd_sck_present (pin : Z) (level : bool) (tr : trace) :
  SIMULATE_PI host = false ->
  HX711._pd_sck self = Some pin ->
  HX711.output_pd_sck host self level tr = (Ret tt, EvOutput pin level :: tr).
Proof.
  intros Hgpio Hpin.
  unfold HX711.output_pd_sck, HX711.get_pd_sck, GPIO.name, bind.
  rewrite Hgpio, Hpin. reflexivity.
Qed.

(** A call that got past [GPIO.output(self._pd_sck, ...)] had both the
    module and the attribute. *)
Lemma output_pd_sck_Ret (level : bool) (tr tr' : trace) (u : unit) :
  HX711.output_pd_sck host self level tr = (Ret u, tr') ->
  SIMULATE_PI host = false /\ exists pin, HX711._pd_sck self = Some pin.
Proof.
  unfold HX711.output_pd_sck, HX711.get_pd_sck, GPIO.name, bind.
  destruct (SIMULATE_PI host); [discriminate |].
  destruct (HX711._pd_sck self) as [pin |]; [| discriminate].
  intros _. split; [reflexivity | now exists pin].
Qed.

Lemma _prepare_to_read_absent (tr : trace) :
  HX711._pd_sck self = None ->
  HX711._prepare_to_read host self tr
  = (Raise (if SIMULATE_PI host then NameError else AttributeError), tr).
Proof.
  intros Hnone. unfold HX711._prepare_to_read, bind.
  now rewrite output_pd_sck_absent.
Qed.

Lemma _pulse_sck_high_absent (tr : trace) :
  HX711._pd_sck self = None ->
  HX711._pulse_sck_high host self tr
  = (Raise (if SIMULATE_PI host then NameError else AttributeError),
     EvPerfCounter :: tr).
Proof.
  intros Hnone. unfold HX711._pulse_sck_high, bind, perf_counter.
  now rewrite output_pd_sck_absent.
Qed.

Lemma num_pulses_positive : exists n, HX711.num_pulses self = S n.
Proof.
  unfold HX711.num_pulses.
  destruct (_ && _); [now exists 0%nat |].
  destruct (_ && _); [now exists 2%nat | now exists 1%nat].
Qed.

Lemma _write_channel_gain_absent (tr : trace) :
  HX711._pd_sck self = None ->
  HX711._write_channel_gain host self tr
  = (Raise (if SIMULATE_PI host then NameError else AttributeError),
     EvPerfCounter :: tr).
Proof.
  intros Hnone. unfold HX711._write_channel_gain.
  destruct num_pulses_positive as [n ->]. simpl. unfold bind at 1.
  now rewrite _pulse_sck_high_absent.
Qed.

Lemma _read_absent (tr : trace) :
  HX711._pd_sck self = None ->
  HX711._read host (self, tr)
  = (Raise (if SIMULATE_PI host then NameError else AttributeError),
     (self, tr)).
Proof.
  intros Hnone. unfold HX711._read, bind at 1. unfold HX711.call. simpl.
  now rewrite _prepare_to_read_absent.
Qed.

End Clock.

(** C3. A controller that [__init__] returned has no attribute [_pd_sck]
    ([__init__] stores the clock pin as [_sck_pin]), so [_prepare_to_read],
    [_pulse_sck_high], [_write_channel_gain] and [_read] each raise on it,
    whatever the pins and the clock do: [AttributeError], or [NameError]
    when [RPi.GPIO] could not be imported.  None returns a boolean. *)
Theorem constructed_controller_raises (host : Host)
    (dout_pins sck_pin gain channel : pyval) (debug : bool)
    (tr0 tr1 : trace) (self : HX711.t) :
  HX711.__init__ host dout_pins sck_pin gain channel debug tr0
  = (Ret self, tr1) ->
  forall tr : trace,
    let e := if SIMULATE_PI host then NameError else AttributeError in
    fst (HX711._prepare_to_read host self tr) = Raise e /\
    fst (HX711._pulse_sck_high host self tr) = Raise e /\
    fst (HX711._write_channel_gain host self tr) = Raise e /\
    fst (HX711._read host (self, tr)) = Raise e.
Proof.
  intros Hinit tr e. apply __init___pd_sck in Hinit.
  rewrite _prepare_to_read_absent, _pulse_sck_high_absent,
    _write_channel_gain_absent, _read_absent by assumption.
  repeat split.
Qed.

Lemma constructed_controller_raises_witness :
  HX711.__init__ host_high (PyInt 5) (PyInt 6) (PyInt 128) (PyStr "A")
    false []
  = (Ret hx_5_6, [EvSetup 5 false; EvSetup 6 true]) /\
  fst (HX711._prepare_to_read host_high hx_5_6
         [EvSetup 5 false; EvSetup 6 true]) = Raise AttributeError /\
  fst (HX711._pulse_sck_high host_high hx_5_6
         [EvSetup 5 false; EvSetup 6 true]) = Raise AttributeError /\
  fst (HX711._write_channel_gain host_high hx_5_6
         [EvSetup 5 false; EvSetup 6 true]) = Raise AttributeError /\
  fst (HX711._read host_high
         (hx_5_6, [EvSetup 5 false; EvSetup 6 true])) = Raise AttributeError.
Proof.
  split; [reflexivity |].
  exact (constructed_controller_raises host_high
           (PyInt 5) (PyInt 6) (PyInt 128) (PyStr "A") false
           [] [EvSetup 5 false; EvSetup 6 true] hx_5_6 eq_refl
           [EvSetup 5 false; EvSetup 6 true]).
Defined.

(** ** Counting on traces *)

Lemma polled_cons (c : LoadCell.t) (cells : list LoadCell.t) (tr : trace) :
  polled (c :: cells) tr = polled cells (EvInput (LoadCell._dout_pin c) :: tr).
Proof. reflexivity. Qed.

Lemma length_polled (cells : list LoadCell.t) (tr : trace) :
  List.length (polled cells tr) = (List.length cells + List.length tr)%nat.
Proof.
  revert tr. induction cells as [| c cells IH]; intros tr; [reflexivity |].
  rewrite polled_cons, IH. simpl. lia.
Qed.

Lemma high_pulses_polled (cells : list LoadCell.t) (tr : trace) :
  high_pulses (polled cells tr) = high_pulses tr.
Proof.
  revert tr. induction cells as [| c cells IH]; intros tr; [reflexivity |].
  rewrite polled_cons, IH. reflexivity.
Qed.

Lemma sleeps_polled (cells : list LoadCell.t) (tr : trace) :
  sleeps (polled cells tr) = sleeps tr.
Proof.
  revert tr. induction cells as [| c cells IH]; intros tr; [reflexivity |].
  rewrite polled_cons, IH. reflexivity.
Qed.

Lemma inputs_polled (cells : list LoadCell.t) (tr : trace) :
  inputs (polled cells tr) = (List.length cells + inputs tr)%nat.
Proof.
  revert tr. induction cells as [| c cells IH]; intros tr; [reflexivity |].
  rewrite polled_cons, IH. simpl. lia.
Qed.

Lemma sleeps_poll_rounds (n : nat) (cells : list LoadCell.t) (tr : trace) :
  sleeps (poll_rounds n cells tr) = (n + sleeps tr)%nat.
Proof.
  revert tr. induction n as [| n IH]; intros tr; [reflexivity |].
  simpl. rewrite IH. simpl. rewrite sleeps_polled. lia.
Qed.

Lemma inputs_poll_rounds (n : nat) (cells : list LoadCell.t) (tr : trace) :
  inputs (poll_rounds n cells tr)
  = (n * List.length cells + inputs tr)%nat.
Proof.
  revert tr. induction n as [| n IH]; intros tr; [reflexivity |].
  simpl. rewrite IH. simpl. rewrite inputs_polled. lia.
Qed.

Lemma high_pulses_poll_rounds (n : nat) (cells : list LoadCell.t)
    (tr : trace) :
  high_pulses (poll_rounds n cells tr) = high_pulses tr.
Proof.
  revert tr. induction n as [| n IH]; intros tr; [reflexivity |].
  simpl. rewrite IH. simpl. apply high_pulses_polled.
Qed.

Lemma high_pulses_pulsed_times (n : nat) (pin : Z) (tr : trace) :
  high_pulses (pulsed_times n pin tr) = (n + high_pulses tr)%nat.
Proof.
  revert tr. induction n as [| n IH]; intros tr; [reflexivity |].
  simpl. rewrite IH. simpl. lia.
Qed.

(** ** The ready-wait *)

Section ReadyWait.
Variable host : Host.
Hypothesis Hgpio : SIMULATE_PI host = false.

Lemma GPIO_name_Ret (tr : trace) : GPIO.name host tr = (Ret tt, tr).
Proof. unfold GPIO.name. now rewrite Hgpio. Qed.

Lemma poll_load_cells_step (c : LoadCell.t) (cells : list LoadCell.t)
    (ready : bool) (tr : trace) :
  HX711.poll_load_cells host (c :: cells) ready tr
  = HX711.poll_load_cells host cells
      (if GPIO_input host (List.length tr) (LoadCell._dout_pin c) =? 0
       then false else ready)
      (EvInput (LoadCell._dout_pin c) :: tr).
Proof.
  simpl. unfold bind at 1. rewrite GPIO_name_Ret. reflexivity.
Qed.

Lemma poll_load_cells_Ret (cells : list LoadCell.t) (ready : bool)
    (tr : trace) :
  exists b, HX711.poll_load_cells host cells ready tr
            = (Ret b, polled cells tr).
Proof.
  revert ready tr. induction cells as [| c cells IH]; intros ready tr.
  - exists ready. reflexivity.
  - rewrite poll_load_cells_step, polled_cons. apply IH.
Qed.

(** Once a pin has read 0 the poll answers "not ready". *)
Lemma poll_load_cells_false (cells : list LoadCell.t) (tr : trace) :
  HX711.poll_load_cells host cells false tr = (Ret false, polled cells tr).
Proof.
  revert tr. induction cells as [| c cells IH]; intros tr; [reflexivity |].
  rewrite poll_load_cells_step, polled_cons.
  destruct (_ =? 0); apply IH.
Qed.

Lemma poll_load_cells_low (cells : list LoadCell.t) (ready : bool)
    (tr : trace) :
  (forall k pin, GPIO_input host k pin = 0) ->
  cells <> [] ->
  HX711.poll_load_cells host cells ready tr = (Ret false, polled cells tr).
Proof.
  intros Hlow Hcells. destruct cells as [| c cells]; [contradiction |].
  rewrite poll_load_cells_step, polled_cons, Hlow. simpl.
  apply poll_load_cells_false.
Qed.

Lemma poll_load_cells_high (cells : list LoadCell.t) (ready : bool)
    (tr : trace) :
  (forall k pin, GPIO_input host k pin = 1) ->
  HX711.poll_load_cells host cells ready tr = (Ret ready, polled cells tr).
Proof.
  intros Hhigh. revert tr. induction cells as [| c cells IH]; intros tr.
  - reflexivity.
  - rewrite poll_load_cells_step, polled_cons, Hhigh. simpl. apply IH.
Qed.

Lemma poll_ready_Ret (self : HX711.t) (n : nat) (ready : bool) (tr : trace) :
  exists b tr',
    HX711.poll_ready host self n ready tr = (Ret b, tr') /\
    high_pulses tr' = high_pulses tr.
Proof.
  revert ready tr. induction n as [| n IH]; intros ready tr.
  - exists ready, tr. split; reflexivity.
  - simpl. unfold bind at 1.
    destruct (poll_load_cells_Ret (HX711._load_cells self) true tr)
      as [b ->].
    destruct b.
    + eexists. eexists. split; [reflexivity | apply high_pulses_polled].
    + unfold bind, sleep.
      destruct (IH false (EvSleep :: polled (HX711._load_cells self) tr))
        as (b & tr' & -> & Hhp).
      exists b, tr'. split; [reflexivity |].
      rewrite Hhp. simpl. apply high_pulses_polled.
Qed.

Lemma poll_ready_low (self : HX711.t) (n : nat) (tr : trace) :
  (forall k pin, GPIO_input host k pin = 0) ->
  HX711._load_cells self <> [] ->
  HX711.poll_ready host self n false tr
  = (Ret false, poll_rounds n (HX711._load_cells self) tr).
Proof.
  intros Hlow Hcells. revert tr. induction n as [| n IH]; intros tr.
  - reflexivity.
  - simpl. unfold bind at 1.
    rewrite (poll_load_cells_low _ true tr Hlow Hcells).
    unfold bind, sleep. apply IH.
Qed.

Lemma poll_ready_low_S (self : HX711.t) (n : nat) (ready : bool)
    (tr : trace) :
  (forall k pin, GPIO_input host k pin = 0) ->
  HX711._load_cells self <> [] ->
  HX711.poll_ready host self (S n) ready tr
  = (Ret false, poll_rounds (S n) (HX711._load_cells self) tr).
Proof.
  intros Hlow Hcells. simpl. unfold bind at 1.
  rewrite (poll_load_cells_low _ true tr Hlow Hcells).
  unfold bind, sleep. apply (poll_ready_low self n _ Hlow Hcells).
Qed.

Lemma poll_ready_high_S (self : HX711.t) (n : nat) (ready : bool)
    (tr : trace) :
  (forall k pin, GPIO_input host k pin = 1) ->
  HX711.poll_ready host self (S n) ready tr
  = (Ret true, polled (HX711._load_cells self) tr).
Proof.
  intros Hhigh. simpl. unfold bind at 1.
  rewrite (poll_load_cells_high _ true tr Hhigh). reflexivity.
Qed.

Lemma _prepare_to_read_low (self : HX711.t) (pin : Z) (tr : trace) :
  HX711._pd_sck self = Some pin ->
  (forall k p, GPIO_input host k p = 0) ->
  HX711._load_cells self <> [] ->
  HX711._prepare_to_read host self tr
  = (Ret false,
     poll_rounds 20 (HX711._load_cells self) (EvOutput pin false :: tr)).
Proof.
  intros Hpin Hlow Hcells. unfold HX711._prepare_to_read, bind.
  rewrite (output_pd_sck_present host self pin false tr Hgpio Hpin).
  apply (poll_ready_low_S self 19 true _ Hlow Hcells).
Qed.

Lemma _prepare_to_read_high (self : HX711.t) (pin : Z) (tr : trace) :
  HX711._pd_sck self = Some pin ->
  (forall k p, GPIO_input host k p = 1) ->
  HX711._prepare_to_read host self tr
  = (Ret true, polled (HX711._load_cells self) (EvOutput pin false :: tr)).
Proof.
  intros Hpin Hhigh. unfold HX711._prepare_to_read, bind.
  rewrite (output_pd_sck_present host self pin false tr Hgpio Hpin).
  apply (poll_ready_high_S self 19 true _ Hhigh).
Qed.

End ReadyWait.

(** C4. With the clock attribute in place, [_prepare_to_read] tests
    readiness the wrong way round: on data pins that read LOW at every poll
    (the chip ready all along) it polls 20 times, sleeps 20 times and
    returns [False]; on data pins that read HIGH (no chip ready) it returns
    [True] after the first poll, without sleeping. *)
Theorem prepare_to_read_tests_ready_inverted (host : Host)
    (self : HX711.t) (pin : Z) (tr : trace) :
  SIMULATE_PI host = false ->
  HX711._pd_sck self = Some pin ->
  HX711._load_cells self <> [] ->
  ((forall k p, GPIO_input host k p = 0) ->
   exists tr',
     HX711._prepare_to_read host self tr = (Ret false, tr') /\
     sleeps tr' = (20 + sleeps tr)%nat /\
     inputs tr'
     = (20 * List.length (HX711._load_cells self) + inputs tr)%nat) /\
  ((forall k p, GPIO_input host k p = 1) ->
   exists tr',
     HX711._prepare_to_read host self tr = (Ret true, tr') /\
     sleeps tr' = sleeps tr /\
     inputs tr' = (List.length (HX711._load_cells self) + inputs tr)%nat).
Proof.
  intros Hgpio Hpin Hcells. split.
  - intros Hlow. eexists. split.
    + apply (_prepare_to_read_low host Hgpio self pin tr Hpin Hlow Hcells).
    + rewrite sleeps_poll_rounds, inputs_poll_rounds. split; reflexivity.
  - intros Hhigh. eexists. split.
    + apply (_prepare_to_read_high host Hgpio self pin tr Hpin Hhigh).
    + rewrite sleeps_polled, inputs_polled. split; reflexivity.
Qed.

Lemma prepare_to_read_tests_ready_inverted_witness :
  (exists tr',
     HX711._prepare_to_read host_low (with_pd_sck hx_5_6 6) []
     = (Ret false, tr') /\
     sleeps tr' = 20%nat /\ inputs tr' = 20%nat) /\
  (exists tr',
     HX711._prepare_to_read host_high (with_pd_sck hx_5_6 6) []
     = (Ret true, tr') /\
     sleeps tr' = 0%nat /\ inputs tr' = 1%nat).
Proof.
  split.
  - apply (proj1 (prepare_to_read_tests_ready_inverted host_low
                    (with_pd_sck hx_5_6 6) 6 []
                    eq_refl eq_refl ltac:(discriminate))).
    reflexivity.
  - apply (proj2 (prepare_to_read_tests_ready_inverted host_high
                    (with_pd_sck hx_5_6 6) 6 []
                    eq_refl eq_refl ltac:(discriminate))).
    reflexivity.
Defined.

(** ** Clock pulses *)

Section Pulses.
Variable host : Host.
Hypothesis Hgpio : SIMULATE_PI host = false.
Variable self : HX711.t.
Variable pin : Z.
Hypothesis Hpin : HX711._pd_sck self = Some pin.

Lemma _pulse_sck_high_exact (tr : trace) :
  HX711._pulse_sck_high host self tr
  = (Ret (negb (pulse_too_long host (List.length tr))), pulsed pin tr).
Proof.
  unfold HX711._pulse_sck_high, bind at 1. unfold perf_counter at 1.
  unfold bind at 1.
  rewrite (output_pd_sck_present host self pin true _ Hgpio Hpin).
  unfold bind at 1.
  rewrite (output_pd_sck_present host self pin false _ Hgpio Hpin).
  unfold bind, perf_counter, pulse_too_long, pulsed. simpl List.length.
  destruct (PrimFloat.leb _ _); reflexivity.
Qed.

Lemma pulse_times_exact (n : nat) (tr : trace) :
  exists tr',
    HX711.pulse_times host self n tr
    = (Ret (negb (any_long_pulse host (List.length tr) 4 n)), tr') /\
    (any_long_pulse host (List.length tr) 4 n = false ->
     tr' = pulsed_times n pin tr).
Proof.
  revert tr. induction n as [| n IH]; intros tr.
  - exists tr. split; [reflexivity | reflexivity].
  - simpl. unfold bind at 1. rewrite _pulse_sck_high_exact.
    destruct (pulse_too_long host (List.length tr)); simpl.
    + eexists. split; [reflexivity | discriminate].
    + destruct (IH (pulsed pin tr)) as (tr' & Hrun & Htr).
      replace (List.length (pulsed pin tr))
        with (List.length tr + 4)%nat in Hrun, Htr by (simpl; lia).
      exists tr'. split; assumption.
Qed.

End Pulses.

(** ** One step of every accumulator *)

Lemma set_load_cells_id (self : HX711.t) :
  HX711.set_load_cells self (HX711._load_cells self) = self.
Proof. destruct self. reflexivity. Qed.

Lemma each_init (cells : list LoadCell.t) (tr : trace) :
  HX711.each (fun c => ret (LoadCell._init_raw_read c)) cells tr
  = (Ret tt, (map LoadCell._init_raw_read cells, tr)).
Proof.
  induction cells as [| c cells IH]; [reflexivity |].
  cbn [HX711.each]. unfold ret at 1. cbv beta iota.
  rewrite IH. reflexivity.
Qed.

Lemma each_finish (cells : list LoadCell.t) (tr : trace) :
  Forall has_current cells ->
  HX711.each LoadCell._finish_raw_read cells tr
  = (Ret tt, (map finished cells, tr)).
Proof.
  induction 1 as [| c cells [cur Hcur] _ IH]; [reflexivity |].
  cbn [HX711.each map].
  assert (Hstep : LoadCell._finish_raw_read c tr = (Ret (finished c), tr)).
  { unfold LoadCell._finish_raw_read, finished. rewrite Hcur. reflexivity. }
  rewrite Hstep. cbv beta iota. rewrite IH. reflexivity.
Qed.

Lemma each_read (host : Host) (cells : list LoadCell.t) (tr : trace) :
  SIMULATE_PI host = false ->
  Forall has_current cells ->
  HX711.each (LoadCell._read host) cells tr
  = (Ret tt, (sample_each host (List.length tr) cells, polled cells tr)).
Proof.
  intros Hgpio Hcur. revert tr.
  induction Hcur as [| c cells [cur Hc] _ IH]; intros tr; [reflexivity |].
  cbn [HX711.each sample_each].
  assert (Hstep : LoadCell._read host c tr
                  = (Ret (sample c (GPIO_input host (List.length tr)
                                      (LoadCell._dout_pin c))),
                     EvInput (LoadCell._dout_pin c) :: tr)).
  { unfold LoadCell._read, sample. rewrite Hc.
    unfold bind at 1. rewrite (GPIO_name_Ret host Hgpio). reflexivity. }
  rewrite Hstep. cbv beta iota. rewrite IH. reflexivity.
Qed.

Lemma has_current_init (cells : list LoadCell.t) :
  Forall has_current (map LoadCell._init_raw_read cells).
Proof.
  apply Forall_forall. intros c Hin. apply in_map_iff in Hin.
  destruct Hin as (c0 & <- & _). now exists 0.
Qed.

Lemma has_current_sample (c : LoadCell.t) (bit : Z) :
  has_current c -> has_current (sample c bit).
Proof.
  intros [cur Hcur]. unfold sample. rewrite Hcur.
  now exists (shift_in cur bit).
Qed.

Lemma has_current_sample_each (host : Host) (k : nat)
    (cells : list LoadCell.t) :
  Forall has_current cells -> Forall has_current (sample_each host k cells).
Proof.
  intros Hcur. revert k.
  induction Hcur as [| c cells Hc _ IH]; intros k; simpl; constructor.
  - now apply has_current_sample.
  - apply IH.
Qed.

Lemma length_sample_each (host : Host) (k : nat) (cells : list LoadCell.t) :
  List.length (sample_each host k cells) = List.length cells.
Proof.
  revert k. induction cells as [| c cells IH]; intros k; simpl;
    [reflexivity | now rewrite IH].
Qed.

Lemma length_sample_rounds (host : Host) (n start stride : nat)
    (cells : list LoadCell.t) :
  List.length (sample_rounds host n start stride cells) = List.length cells.
Proof.
  revert start cells. induction n as [| n IH]; intros start cells; simpl;
    [reflexivity | now rewrite IH, length_sample_each].
Qed.

Lemma has_current_sample_rounds (host : Host) (n start stride : nat)
    (cells : list LoadCell.t) :
  Forall has_current cells ->
  Forall has_current (sample_rounds host n start stride cells).
Proof.
  revert start cells. induction n as [| n IH]; intros start cells Hcur;
    simpl; [assumption |].
  apply IH. now apply has_current_sample_each.
Qed.

(** *** Histories are left alone by sampling *)

Lemma same_histories_refl (cells : list LoadCell.t) :
  Forall2 same_histories cells cells.
Proof.
  induction cells; constructor; [split; reflexivity | assumption].
Qed.

Lemma same_histories_trans (l1 l2 l3 : list LoadCell.t) :
  Forall2 same_histories l1 l2 -> Forall2 same_histories l2 l3 ->
  Forall2 same_histories l1 l3.
Proof.
  intros H12. revert l3.
  induction H12 as [| a b l1 l2 [Hr Hs] _ IH]; intros l3 H23;
    inversion H23 as [| b' c l2' l3' [Hr' Hs'] Hrest]; subst; constructor.
  - split; congruence.
  - now apply IH.
Qed.

Lemma same_histories_init (cells : list LoadCell.t) :
  Forall2 same_histories cells (map LoadCell._init_raw_read cells).
Proof.
  induction cells; simpl; constructor;
    [split; reflexivity | assumption].
Qed.

Lemma same_histories_sample (c : LoadCell.t) (bit : Z) :
  same_histories c (sample c bit).
Proof.
  unfold sample. destruct (LoadCell._current_raw_read c);
    split; reflexivity.
Qed.

Lemma same_histories_sample_each (host : Host) (k : nat)
    (cells : list LoadCell.t) :
  Forall2 same_histories cells (sample_each host k cells).
Proof.
  revert k. induction cells as [| c cells IH]; intros k; simpl; constructor;
    [apply same_histories_sample | apply IH].
Qed.

(** ** The 24 data pulses *)

Section DataLoop.
Variable host : Host.
Hypothesis Hgpio : SIMULATE_PI host = false.
Variable pin : Z.

Lemma for_load_cells_read (self : HX711.t) (tr : trace) :
  Forall has_current (HX711._load_cells self) ->
  HX711.for_load_cells (LoadCell._read host) (self, tr)
  = (Ret tt,
     (HX711.set_load_cells self
        (sample_each host (List.length tr) (HX711._load_cells self)),
      polled (HX711._load_cells self) tr)).
Proof.
  intros Hcur. unfold HX711.for_load_cells. cbn [fst snd].
  rewrite (each_read host _ tr Hgpio Hcur). reflexivity.
Qed.

(** The loop returns [False] exactly when one of its pulses trips the
    guard; it never touches a history; when no pulse trips the guard, the
    accumulators have sampled after every pulse. *)
Lemma read_bits_exact (n : nat) (self : HX711.t) (tr : trace) :
  HX711._pd_sck self = Some pin ->
  Forall has_current (HX711._load_cells self) ->
  exists cells' tr',
    HX711.read_bits host n (self, tr)
    = (Ret (negb (any_long_pulse host (List.length tr)
                    (4 + List.length (HX711._load_cells self)) n)),
       (HX711.set_load_cells self cells', tr')) /\
    Forall2 same_histories (HX711._load_cells self) cells' /\
    (any_long_pulse host (List.length tr)
       (4 + List.length (HX711._load_cells self)) n = false ->
     cells' = sample_rounds host n (List.length tr)
                (4 + List.length (HX711._load_cells self))
                (HX711._load_cells self)
     /\ List.length tr'
        = (List.length tr + n * (4 + List.length (HX711._load_cells self)))%nat
     /\ high_pulses tr' = (n + high_pulses tr)%nat).
Proof.
  revert self tr. induction n as [| n IH]; intros self tr Hpin Hcur.
  - exists (HX711._load_cells self), tr. rewrite set_load_cells_id.
    split; [reflexivity |]. split; [apply same_histories_refl |].
    intros _. simpl. repeat split; lia.
  - cbn [HX711.read_bits any_long_pulse]. unfold bind at 1.
    unfold HX711.call at 1. cbn [fst snd].
    rewrite (_pulse_sck_high_exact host Hgpio self pin Hpin tr).
    destruct (pulse_too_long host (List.length tr)) eqn:Hlong.
    + exists (HX711._load_cells self), (pulsed pin tr).
      rewrite set_load_cells_id.
      split; [reflexivity |]. split; [apply same_histories_refl |].
      discriminate.
    + cbn [negb orb]. unfold bind at 1.
      rewrite (for_load_cells_read self _ Hcur).
      set (cells1 := sample_each host (List.length (pulsed pin tr))
                       (HX711._load_cells self)).
      set (tr1 := polled (HX711._load_cells self) (pulsed pin tr)).
      destruct (IH (HX711.set_load_cells self cells1) tr1 Hpin)
        as (cells' & tr' & Hrun & Hsame & Hexact).
      { apply has_current_sample_each, Hcur. }
      cbn [HX711.set_load_cells HX711._load_cells] in Hrun, Hsame, Hexact.
      assert (Hlen1 : List.length cells1
                      = List.length (HX711._load_cells self))
        by apply length_sample_each.
      assert (Htr1 : List.length tr1
                     = (List.length tr
                        + (4 + List.length (HX711._load_cells self)))%nat).
      { unfold tr1. rewrite length_polled. simpl. lia. }
      rewrite Hlen1, Htr1 in Hrun, Hexact.
      exists cells', tr'. split; [exact Hrun |]. split.
      * eapply same_histories_trans; [| exact Hsame].
        apply same_histories_sample_each.
      * intros Hnone. destruct (Hexact Hnone) as (Hcells & Hlen & Hhp).
        split; [| split].
        -- rewrite Hcells. reflexivity.
        -- rewrite Hlen. lia.
        -- rewrite Hhp. unfold tr1. rewrite high_pulses_polled. simpl. lia.
Qed.

End DataLoop.

(** ** The cycle *)

Section Cycle.
Variable host : Host.
Variable self : HX711.t.
Variable tr : trace.

Lemma _prepare_to_read_Ret (b : bool) (tr1 : trace) :
  HX711._prepare_to_read host self tr = (Ret b, tr1) ->
  SIMULATE_PI host = false /\
  (exists pin, HX711._pd_sck self = Some pin) /\
  high_pulses tr1 = high_pulses tr.
Proof.
  unfold HX711._prepare_to_read, bind.
  destruct (HX711.output_pd_sck host self false tr) as [[[] | e] tr0] eqn:Hout;
    [| discriminate].
  destruct (output_pd_sck_Ret host self false tr tr0 tt Hout)
    as [Hgpio [pin Hpin]].
  rewrite (output_pd_sck_present host self pin false tr Hgpio Hpin) in Hout.
  inversion Hout; subst tr0.
  destruct (poll_ready_Ret host Hgpio self 20 true (EvOutput pin false :: tr))
    as (b' & tr' & Hpoll & Hhp).
  rewrite Hpoll. intros Heq. inversion Heq; subst.
  split; [assumption |]. split; [now exists pin |].
  rewrite Hhp. reflexivity.
Qed.

Lemma _read_prepare_Raise (e : exn) (tr1 : trace) :
  HX711._prepare_to_read host self tr = (Raise e, tr1) ->
  HX711._read host (self, tr) = (Raise e, (self, tr1)).
Proof.
  intros Hprep. unfold HX711._read, bind at 1. unfold HX711.call at 1.
  cbn [fst snd]. rewrite Hprep. reflexivity.
Qed.

Lemma _read_not_ready (tr1 : trace) :
  HX711._prepare_to_read host self tr = (Ret false, tr1) ->
  HX711._read host (self, tr) = (Ret false, (self, tr1)).
Proof.
  intros Hprep. unfold HX711._read, bind at 1. unfold HX711.call at 1.
  cbn [fst snd]. rewrite Hprep. reflexivity.
Qed.

(** What a cycle that found the pins ready does: it stops with [False] at
    a data pulse that trips the guard, the histories as they were; else
    every accumulator is finalised, and the result is that of the trailing
    pulses. *)
Lemma _read_ready (tr1 : trace) :
  HX711._prepare_to_read host self tr = (Ret true, tr1) ->
  let cells := HX711._load_cells self in
  let start := List.length tr1 in
  let stride := (4 + List.length cells)%nat in
  if any_long_pulse host start stride 24
  then exists cells' tr',
         HX711._read host (self, tr)
         = (Ret false, (HX711.set_load_cells self cells', tr')) /\
         Forall2 same_histories cells cells'
  else exists tr',
         HX711._read host (self, tr)
         = (Ret (negb (any_long_pulse host (start + 24 * stride) 4
                         (HX711.num_pulses self))),
            (HX711.set_load_cells self
               (map finished
                  (sample_rounds host 24 start stride
                     (map LoadCell._init_raw_read cells))), tr')) /\
         (any_long_pulse host (start + 24 * stride) 4
            (HX711.num_pulses self) = false ->
          high_pulses tr'
          = (24 + HX711.num_pulses self + high_pulses tr)%nat).
Proof.
  intros Hprep cells start stride.
  destruct (_prepare_to_read_Ret true tr1 Hprep) as (Hgpio & [pin Hpin] & Hhp).
  pose (self1 := HX711.set_load_cells self
                   (map LoadCell._init_raw_read cells)).
  destruct (read_bits_exact host Hgpio pin 24 self1 tr1 Hpin
              (has_current_init cells))
    as (cells3 & tr3 & Hbits & Hsame & Hexact).
  cbn [self1 HX711.set_load_cells HX711._load_cells] in Hbits, Hsame, Hexact.
  rewrite length_map in Hbits, Hexact.
  fold stride start in Hbits, Hexact.
  assert (Hrun : HX711._read host (self, tr)
                 = (if negb (any_long_pulse host start stride 24)
                    then
                      (HX711.for_load_cells LoadCell._finish_raw_read ;;
                       ok' <- HX711.call (HX711._write_channel_gain host) ;;
                       if negb ok' then ret false else ret true)%py
                        (HX711.set_load_cells self cells3, tr3)
                    else (Ret false, (HX711.set_load_cells self cells3, tr3)))).
  { unfold HX711._read, bind at 1. unfold HX711.call at 1.
    cbn [fst snd]. rewrite Hprep. cbn [negb]. unfold bind at 1.
    unfold HX711.for_load_cells at 1. cbn [fst snd].
    rewrite each_init. fold cells. unfold bind at 1.
    change (HX711.set_load_cells self (map LoadCell._init_raw_read cells))
      with self1.
    rewrite Hbits.
    destruct (any_long_pulse host start stride 24); reflexivity. }
  rewrite Hrun. clear Hrun Hbits.
  destruct (any_long_pulse host start stride 24).
  - exists cells3, tr3. cbn [negb]. split; [reflexivity |].
    eapply same_histories_trans; [apply same_histories_init | exact Hsame].
  - cbn [negb]. destruct (Hexact eq_refl) as (Hcells & Hlen & Hhp3).
    subst cells3.
    set (cells3 := sample_rounds host 24 start stride
                     (map LoadCell._init_raw_read cells)).
    unfold bind at 1. unfold HX711.for_load_cells at 1. cbn [fst snd].
    rewrite each_finish
      by apply has_current_sample_rounds, has_current_init.
    unfold bind at 1. unfold HX711.call at 1. cbn [fst snd].
    change (HX711.set_load_cells (HX711.set_load_cells self cells3)
              (map finished
                 (HX711._load_cells (HX711.set_load_cells self cells3))))
      with (HX711.set_load_cells self (map finished cells3)).
    unfold HX711._write_channel_gain.
    change (HX711.num_pulses
              (HX711.set_load_cells self (map finished cells3)))
      with (HX711.num_pulses self).
    destruct (pulse_times_exact host Hgpio
                (HX711.set_load_cells self (map finished cells3))
                pin Hpin (HX711.num_pulses self) tr3)
      as (tr5 & Hgain & Htr5).
    rewrite Hlen in Hgain, Htr5. rewrite Hgain.
    exists tr5. split.
    + destruct (any_long_pulse host (start + 24 * stride) 4
                  (HX711.num_pulses self)); reflexivity.
    + intros Hnone. rewrite (Htr5 Hnone), high_pulses_pulsed_times.
      rewrite Hhp3, Hhp. lia.
Qed.

End Cycle.

(** ** What one accumulator has sampled *)

Lemma own_bits_S (host : Host) (start n i : nat) (pin : Z) (rounds : nat) :
  own_bits host start n i pin (S rounds)
  = GPIO_input host (4 + start + i)%nat pin
      :: own_bits host (start + (4 + n)) n i pin rounds.
Proof.
  unfold own_bits. cbn [seq map]. f_equal.
  - f_equal. lia.
  - rewrite <- seq_shift, map_map. apply map_ext.
    intros j. f_equal. lia.
Qed.

Lemma length_own_bits (host : Host) (start n i : nat) (pin : Z)
    (rounds : nat) :
  List.length (own_bits host start n i pin rounds) = rounds.
Proof. unfold own_bits. now rewrite length_map, length_seq. Qed.

Lemma nth_error_sample_each (host : Host) (cells : list LoadCell.t)
    (k i : nat) (c : LoadCell.t) :
  nth_error cells i = Some c ->
  nth_error (sample_each host k cells) i
  = Some (sample c (GPIO_input host (k + i)%nat (LoadCell._dout_pin c))).
Proof.
  revert k i. induction cells as [| c0 cells IH]; intros k i Hnth.
  - destruct i; discriminate.
  - destruct i as [| i]; simpl in *.
    + inversion Hnth; subst. now rewrite Nat.add_0_r.
    + rewrite (IH (S k) i Hnth). do 3 f_equal. lia.
Qed.

Lemma set_current_raw_read_same (c : LoadCell.t) (cur : Z) :
  LoadCell._current_raw_read c = Some cur ->
  LoadCell.set_current_raw_read c cur = c.
Proof. destruct c. simpl. now intros ->. Qed.

(** After [n] data pulses the [i]-th accumulator holds its former value
    with the [n] levels of its own pin shifted in. *)
Lemma nth_error_sample_rounds (host : Host) (n start m : nat)
    (cells : list LoadCell.t) (i : nat) (c : LoadCell.t) (cur : Z) :
  nth_error cells i = Some c ->
  LoadCell._current_raw_read c = Some cur ->
  nth_error (sample_rounds host n start (4 + m) cells) i
  = Some (LoadCell.set_current_raw_read c
            (fold_left shift_in
               (own_bits host start m i (LoadCell._dout_pin c) n) cur)).
Proof.
  revert start cells c cur.
  induction n as [| n IH]; intros start cells c cur Hnth Hcur.
  - simpl. now rewrite set_current_raw_read_same.
  - cbn [sample_rounds]. rewrite own_bits_S. cbn [fold_left].
    pose proof (nth_error_sample_each host cells (4 + start) i c Hnth)
      as Hstep.
    unfold sample in Hstep. rewrite Hcur in Hstep.
    rewrite (IH _ _ _ _ Hstep eq_refl). reflexivity.
Qed.

Lemma finished_appended (c : LoadCell.t) (v : Z) :
  appended v c (finished (LoadCell.set_current_raw_read c v)).
Proof. split; reflexivity. Qed.

(** The accumulators of a completed cycle, one by one. *)
Lemma nth_error_cycle (host : Host) (start : nat) (cells : list LoadCell.t)
    (i : nat) (c : LoadCell.t) :
  nth_error cells i = Some c ->
  nth_error
    (map finished
       (sample_rounds host 24 start (4 + List.length cells)
          (map LoadCell._init_raw_read cells))) i
  = Some (finished
            (LoadCell.set_current_raw_read c
               (compose (own_bits host start (List.length cells) i
                           (LoadCell._dout_pin c) 24)))).
Proof.
  intros Hnth. apply map_nth_error.
  rewrite (nth_error_sample_rounds host 24 start (List.length cells) _ i
             (LoadCell._init_raw_read c) 0).
  - change (LoadCell._dout_pin (LoadCell._init_raw_read c))
      with (LoadCell._dout_pin c).
    unfold compose.
    generalize (fold_left shift_in
                  (own_bits host start (List.length cells) i
                     (LoadCell._dout_pin c) 24) 0).
    intros v. reflexivity.
  - now apply map_nth_error.
  - reflexivity.
Qed.

Lemma length_cycle (host : Host) (start stride : nat)
    (cells : list LoadCell.t) :
  List.length
    (map finished
       (sample_rounds host 24 start stride
          (map LoadCell._init_raw_read cells)))
  = List.length cells.
Proof. now rewrite length_map, length_sample_rounds, length_map. Qed.

(** ** Bits and their sum *)

Lemma shift_in_bit (acc bit : Z) : is_bit bit -> shift_in acc bit = 2 * acc + bit.
Proof.
  intros Hbit. unfold shift_in. rewrite Z.shiftl_mul_pow2 by lia.
  change (2 ^ 1) with 2.
  pose proof (Z.add_lor_land (acc * 2) bit) as Hadd.
  assert (Hland : Z.land (acc * 2) bit = 0).
  { destruct Hbit as [-> | ->]; [apply Z.land_0_r |].
    change 1 with (Z.ones 1). rewrite Z.land_ones by lia.
    change (2 ^ 1) with 2. apply Z.mod_mul. lia. }
  lia.
Qed.

Lemma fold_shift_in_msb_first (bits : list Z) (acc : Z) :
  Forall is_bit bits ->
  fold_left shift_in bits acc
  = acc * 2 ^ Z.of_nat (List.length bits) + msb_first bits.
Proof.
  intros Hbits. revert acc.
  induction Hbits as [| b bits Hb _ IH]; intros acc.
  - simpl. lia.
  - cbn [fold_left msb_first List.length]. rewrite IH, (shift_in_bit acc b Hb).
    rewrite Nat2Z.inj_succ, Z.pow_succ_r by lia. ring.
Qed.

Lemma compose_msb_first (bits : list Z) :
  Forall is_bit bits -> compose bits = msb_first bits.
Proof.
  intros Hbits. unfold compose. now rewrite fold_shift_in_msb_first.
Qed.

Lemma msb_first_range (bits : list Z) :
  Forall is_bit bits ->
  0 <= msb_first bits < 2 ^ Z.of_nat (List.length bits).
Proof.
  induction 1 as [| b bits Hb _ IH].
  - simpl. lia.
  - cbn [msb_first List.length].
    rewrite Nat2Z.inj_succ, Z.pow_succ_r by lia.
    assert (0 < 2 ^ Z.of_nat (List.length bits)) by (apply Z.pow_pos_nonneg; lia).
    destruct Hb as [-> | ->]; lia.
Qed.

(** ** The pulse count of a cycle *)

Lemma num_pulses_table (self : HX711.t) :
  (HX711._channel_select self = PyStr "A" ->
   HX711._channel_A_gain self = PyInt 128 ->
   HX711.num_pulses self = 1%nat) /\
  (HX711._channel_select self = PyStr "A" ->
   HX711._channel_A_gain self = PyInt 64 ->
   HX711.num_pulses self = 3%nat) /\
  (HX711._channel_select self = PyStr "B" ->
   HX711.num_pulses self = 2%nat).
Proof.
  unfold HX711.num_pulses. repeat split.
  - intros -> ->. reflexivity.
  - intros -> ->. reflexivity.
  - intros ->. reflexivity.
Qed.

(** A cycle that returned [True] went through all of its steps. *)
Lemma _read_True (host : Host) (self : HX711.t) (tr : trace)
    (s' : HX711.state) :
  HX711._read host (self, tr) = (Ret true, s') ->
  exists tr1,
    HX711._prepare_to_read host self tr = (Ret true, tr1) /\
    any_long_pulse host (List.length tr1)
      (4 + List.length (HX711._load_cells self)) 24 = false /\
    any_long_pulse host
      (List.length tr1 + 24 * (4 + List.length (HX711._load_cells self)))
      4 (HX711.num_pulses self) = false /\
    fst s' = HX711.set_load_cells self
               (map finished
                  (sample_rounds host 24 (List.length tr1)
                     (4 + List.length (HX711._load_cells self))
                     (map LoadCell._init_raw_read (HX711._load_cells self))))
    /\ high_pulses (snd s')
       = (24 + HX711.num_pulses self + high_pulses tr)%nat.
Proof.
  intros Hread.
  destruct (HX711._prepare_to_read host self tr) as [[[|] | e] tr1] eqn:Hprep.
  - exists tr1. split; [reflexivity |].
    pose proof (_read_ready host self tr tr1 Hprep) as Hcases.
    cbv zeta in Hcases.
    destruct (any_long_pulse host (List.length tr1)
                (4 + List.length (HX711._load_cells self)) 24) eqn:Hdata.
    + destruct Hcases as (cells' & tr' & Hrun & _).
      rewrite Hrun in Hread. discriminate Hread.
    + destruct Hcases as (tr' & Hrun & Hhp).
      rewrite Hrun in Hread.
      destruct (any_long_pulse host _ 4 (HX711.num_pulses self)) eqn:Hgain;
        [discriminate Hread |].
      apply (f_equal snd) in Hread. cbn [snd] in Hread. subst s'.
      split; [reflexivity |]. split; [reflexivity |].
      split; [reflexivity |]. exact (Hhp eq_refl).
  - rewrite (_read_not_ready host self tr tr1 Hprep) in Hread.
    discriminate Hread.
  - rewrite (_read_prepare_Raise host self tr e tr1 Hprep) in Hread.
    discriminate Hread.
Qed.

(** C5. A cycle that returns [True] has issued 24 clock pulses and then
    the trailing ones of the configuration: 25 in all for channel 'A' with
    gain 128, 27 for channel 'A' with gain 64, 26 for channel 'B'. *)
Theorem read_issues_24_data_pulses_and_the_trailing_ones (host : Host)
    (self : HX711.t) (tr : trace) (s' : HX711.state) :
  HX711._read host (self, tr) = (Ret true, s') ->
  (HX711._channel_select self = PyStr "A" ->
   HX711._channel_A_gain self = PyInt 128 ->
   high_pulses (snd s') = (25 + high_pulses tr)%nat) /\
  (HX711._channel_select self = PyStr "A" ->
   HX711._channel_A_gain self = PyInt 64 ->
   high_pulses (snd s') = (27 + high_pulses tr)%nat) /\
  (HX711._channel_select self = PyStr "B" ->
   high_pulses (snd s') = (26 + high_pulses tr)%nat).
Proof.
  intros Hread.
  destruct (_read_True host self tr s' Hread) as (tr1 & _ & _ & _ & _ & Hhp).
  destruct (num_pulses_table self) as (H128 & H64 & HB).
  repeat split.
  - intros Hc Hg. rewrite Hhp, (H128 Hc Hg). reflexivity.
  - intros Hc Hg. rewrite Hhp, (H64 Hc Hg). reflexivity.
  - intros Hc. rewrite Hhp, (HB Hc). reflexivity.
Qed.

Lemma read_issues_24_data_pulses_and_the_trailing_ones_witness :
  fst cycle_5_6 = Ret true /\
  high_pulses (snd (snd cycle_5_6)) = (25 + high_pulses [])%nat.
Proof.
  assert (Hread : HX711._read host_high (with_pd_sck hx_5_6 6, [])
                  = (Ret true, snd cycle_5_6))
    by (vm_compute; reflexivity).
  split; [vm_compute; reflexivity |].
  exact (proj1 (read_issues_24_data_pulses_and_the_trailing_ones
                  host_high (with_pd_sck hx_5_6 6) [] (snd cycle_5_6) Hread)
           eq_refl eq_refl).
Defined.

(** ** Cycles that stop early *)

(** C6. A cycle that finds the pins not ready, or one of whose 24 data
    pulses trips the 60 microsecond guard, returns [False] and leaves both
    histories of every accumulator as they were. *)
Theorem read_stopped_before_finalization_appends_nothing (host : Host)
    (self : HX711.t) (tr tr1 : trace) :
  HX711._prepare_to_read host self tr = (Ret false, tr1) \/
  (HX711._prepare_to_read host self tr = (Ret true, tr1) /\
   any_long_pulse host (List.length tr1)
     (4 + List.length (HX711._load_cells self)) 24 = true) ->
  exists s',
    HX711._read host (self, tr) = (Ret false, s') /\
    Forall2 same_histories (HX711._load_cells self)
      (HX711._load_cells (fst s')).
Proof.
  intros [Hprep | [Hprep Hlong]].
  - exists (self, tr1). split.
    + apply _read_not_ready, Hprep.
    + apply same_histories_refl.
  - pose proof (_read_ready host self tr tr1 Hprep) as Hcases.
    cbv zeta in Hcases. rewrite Hlong in Hcases.
    destruct Hcases as (cells' & tr' & Hrun & Hsame).
    exists (HX711.set_load_cells self cells', tr'). split; assumption.
Qed.

Lemma read_stopped_before_finalization_appends_nothing_witness :
  (exists s',
     HX711._read host_low (with_pd_sck hx_5_6 6, []) = (Ret false, s') /\
     Forall2 same_histories (HX711._load_cells (with_pd_sck hx_5_6 6))
       (HX711._load_cells (fst s'))) /\
  (exists s',
     HX711._read (host_stall 5) (with_pd_sck hx_5_6 6, []) = (Ret false, s') /\
     Forall2 same_histories (HX711._load_cells (with_pd_sck hx_5_6 6))
       (HX711._load_cells (fst s'))).
Proof.
  split.
  - apply (read_stopped_before_finalization_appends_nothing host_low
             (with_pd_sck hx_5_6 6) []
             (snd (HX711._prepare_to_read host_low
                     (with_pd_sck hx_5_6 6) []))).
    left. vm_compute. reflexivity.
  - apply (read_stopped_before_finalization_appends_nothing (host_stall 5)
             (with_pd_sck hx_5_6 6) []
             (snd (HX711._prepare_to_read (host_stall 5)
                     (with_pd_sck hx_5_6 6) []))).
    right. split; vm_compute; reflexivity.
Defined.

(** C7. When the pins are ready and the 24 data pulses pass the guard but
    a trailing pulse trips it, the cycle returns [False], and every
    accumulator still has its entry of the cycle at the end of each
    history: the value made of the 24 levels of its own pin, and what
    [convert_to_signed_value] returns for it. *)
Theorem read_keeps_entries_when_trailing_pulse_fails (host : Host)
    (self : HX711.t) (tr tr1 : trace) :
  HX711._prepare_to_read host self tr = (Ret true, tr1) ->
  any_long_pulse host (List.length tr1)
    (4 + List.length (HX711._load_cells self)) 24 = false ->
  any_long_pulse host
    (List.length tr1 + 24 * (4 + List.length (HX711._load_cells self)))
    4 (HX711.num_pulses self) = true ->
  exists s',
    HX711._read host (self, tr) = (Ret false, s') /\
    List.length (HX711._load_cells (fst s'))
    = List.length (HX711._load_cells self) /\
    forall i c,
      nth_error (HX711._load_cells self) i = Some c ->
      exists c',
        nth_error (HX711._load_cells (fst s')) i = Some c' /\
        appended
          (compose (own_bits host (List.length tr1)
                      (List.length (HX711._load_cells self)) i
                      (LoadCell._dout_pin c) 24))
          c c'.
Proof.
  intros Hprep Hdata Hgain.
  pose proof (_read_ready host self tr tr1 Hprep) as Hcases.
  cbv zeta in Hcases. rewrite Hdata, Hgain in Hcases.
  destruct Hcases as (tr' & Hrun & _).
  eexists. split; [exact Hrun |]. cbn [fst HX711.set_load_cells HX711._load_cells].
  split; [apply length_cycle |].
  intros i c Hnth. eexists. split.
  - apply nth_error_cycle, Hnth.
  - apply finished_appended.
Qed.

Lemma read_keeps_entries_when_trailing_pulse_fails_witness :
  exists s',
    HX711._read (host_stall 125) (with_pd_sck hx_5_6 6, [])
    = (Ret false, s') /\
    List.length (HX711._load_cells (fst s'))
    = List.length (HX711._load_cells (with_pd_sck hx_5_6 6)) /\
    forall i c,
      nth_error (HX711._load_cells (with_pd_sck hx_5_6 6)) i = Some c ->
      exists c',
        nth_error (HX711._load_cells (fst s')) i = Some c' /\
        appended
          (compose (own_bits (host_stall 125)
                      (List.length
                         (snd (HX711._prepare_to_read (host_stall 125)
                                 (with_pd_sck hx_5_6 6) [])))
                      (List.length (HX711._load_cells (with_pd_sck hx_5_6 6)))
                      i (LoadCell._dout_pin c) 24))
          c c'.
Proof.
  apply (read_keeps_entries_when_trailing_pulse_fails (host_stall 125)
           (with_pd_sck hx_5_6 6) []
           (snd (HX711._prepare_to_read (host_stall 125)
                   (with_pd_sck hx_5_6 6) []))).
  - vm_compute. reflexivity.
  - vm_compute. reflexivity.
  - vm_compute. reflexivity.
Defined.

(** ** The two histories stay aligned *)

Lemma aligned___init__ (dout_pin : Z) (debug : bool) :
  aligned (LoadCell.__init__ dout_pin debug).
Proof. reflexivity. Qed.

Lemma aligned__init_raw_read (c : LoadCell.t) :
  aligned c -> aligned (LoadCell._init_raw_read c).
Proof. intros H. exact H. Qed.

Lemma aligned__init_set_of_reads (c : LoadCell.t) :
  aligned (LoadCell._init_set_of_reads c).
Proof. reflexivity. Qed.

Lemma aligned__read (host : Host) (c c' : LoadCell.t) (tr tr' : trace) :
  LoadCell._read host c tr = (Ret c', tr') -> aligned c -> aligned c'.
Proof.
  unfold LoadCell._read.
  destruct (LoadCell._current_raw_read c) as [cur |]; [| discriminate].
  unfold bind, GPIO.name. destruct (SIMULATE_PI host); [discriminate |].
  intros H. inversion H; subst. intros Hal. exact Hal.
Qed.

Lemma aligned__finish_raw_read (c c' : LoadCell.t) (tr tr' : trace) :
  LoadCell._finish_raw_read c tr = (Ret c', tr') -> aligned c -> aligned c'.
Proof.
  unfold LoadCell._finish_raw_read.
  destruct (LoadCell._current_raw_read c) as [cur |]; [| discriminate].
  intros H. inversion H; subst. unfold aligned. simpl.
  rewrite !length_app. simpl. intros ->. reflexivity.
Qed.

(** A decode failure takes a slot of the signed history. *)
Lemma _finish_raw_read_sentinel (c : LoadCell.t) (cur : Z) (tr : trace) :
  LoadCell._current_raw_read c = Some cur ->
  LoadCell.convert_to_signed_value c cur = None ->
  exists c',
    LoadCell._finish_raw_read c tr = (Ret c', tr) /\
    LoadCell.raw_reads c' = LoadCell.raw_reads c ++ [cur] /\
    LoadCell.reads c' = LoadCell.reads c ++ [None].
Proof.
  intros Hcur Hnone. unfold LoadCell._finish_raw_read. rewrite Hcur, Hnone.
  eexists. split; [reflexivity |]. split; reflexivity.
Qed.

Section Preservation.
Variable P : LoadCell.t -> Prop.

Lemma each_Forall (m : LoadCell.t -> M trace LoadCell.t) :
  (forall c tr c' tr', m c tr = (Ret c', tr') -> P c -> P c') ->
  forall cells tr r cells' tr',
    HX711.each m cells tr = (r, (cells', tr')) ->
    Forall P cells -> Forall P cells'.
Proof.
  intros Hm. induction cells as [| c cells IH]; intros tr r cells' tr' Hrun HP.
  - inversion Hrun; subst. constructor.
  - cbn [HX711.each] in Hrun. inversion HP as [| c0 l0 Hc Hrest]; subst.
    destruct (m c tr) as [[c1 | e] tr1] eqn:Hstep.
    + destruct (HX711.each m cells tr1) as [r0 [rest' tr2]] eqn:Heach.
      inversion Hrun; subst. constructor.
      * eapply Hm; eassumption.
      * eapply IH; eassumption.
    + inversion Hrun; subst. assumption.
Qed.

Lemma preserves_ret (A : Type) (a : A) : preserves P (ret a).
Proof. intros s r s' H. inversion H; subst. auto. Qed.

Lemma preserves_bind (A B : Type) (m : M HX711.state A)
    (k : A -> M HX711.state B) :
  preserves P m -> (forall a, preserves P (k a)) -> preserves P (bind m k).
Proof.
  intros Hm Hk s r s' Hrun HP. unfold bind in Hrun.
  destruct (m s) as [[a | e] s1] eqn:Hms.
  - eapply Hk; [exact Hrun |]. eapply Hm; eassumption.
  - inversion Hrun; subst. eapply Hm; eassumption.
Qed.

Lemma preserves_call (A : Type) (m : HX711.t -> M trace A) :
  preserves P (HX711.call m).
Proof.
  intros s r s' Hrun HP. unfold HX711.call in Hrun.
  destruct (m (fst s) (snd s)) as [r0 tr']. inversion Hrun; subst.
  exact HP.
Qed.

Lemma preserves_for_load_cells (m : LoadCell.t -> M trace LoadCell.t) :
  (forall c tr c' tr', m c tr = (Ret c', tr') -> P c -> P c') ->
  preserves P (HX711.for_load_cells m).
Proof.
  intros Hm s r s' Hrun HP. unfold HX711.for_load_cells in Hrun.
  destruct (HX711.each m (HX711._load_cells (fst s)) (snd s))
    as [r0 [cells' tr']] eqn:Heach.
  inversion Hrun; subst. cbn [fst HX711.set_load_cells HX711._load_cells].
  eapply each_Forall; eassumption.
Qed.

Lemma preserves_read_bits (host : Host) (n : nat) :
  (forall c tr c' tr', LoadCell._read host c tr = (Ret c', tr') ->
                       P c -> P c') ->
  preserves P (HX711.read_bits host n).
Proof.
  intros Hread. induction n as [| n IH]; cbn [HX711.read_bits].
  - apply preserves_ret.
  - apply preserves_bind; [apply preserves_call |].
    intros [|]; [| apply preserves_ret].
    apply preserves_bind; [now apply preserves_for_load_cells |].
    intros _. exact IH.
Qed.

Lemma preserves__read (host : Host) :
  (forall c, P c -> P (LoadCell._init_raw_read c)) ->
  (forall c tr c' tr', LoadCell._read host c tr = (Ret c', tr') ->
                       P c -> P c') ->
  (forall c tr c' tr', LoadCell._finish_raw_read c tr = (Ret c', tr') ->
                       P c -> P c') ->
  preserves P (HX711._read host).
Proof.
  intros Hinit Hread Hfinish. unfold HX711._read.
  apply preserves_bind; [apply preserves_call |].
  intros [|]; cbn [negb]; [| apply preserves_ret].
  apply preserves_bind.
  { apply preserves_for_load_cells.
    intros c tr c' tr' H. inversion H; subst. apply Hinit. }
  intros _. apply preserves_bind; [now apply preserves_read_bits |].
  intros [|]; cbn [negb]; [| apply preserves_ret].
  apply preserves_bind; [now apply preserves_for_load_cells |].
  intros _. apply preserves_bind; [apply preserves_call |].
  intros [|]; apply preserves_ret.
Qed.

End Preservation.

(** C8. A cycle that returns [True], whatever the number of accumulators,
    leaves as many accumulators as it found, and gives the [i]-th one
    exactly one new entry at the end of each history: the raw value made of
    the 24 levels read from that accumulator's own pin, one after each data
    pulse, and what [convert_to_signed_value] returns for it ([None] taking
    the slot when it returns [None]).  [LoadCell.__init__] gives aligned
    histories, and [_init_raw_read], [_init_set_of_reads], [LoadCell._read],
    [_finish_raw_read] and, whatever its outcome, [HX711._read] keep them
    aligned. *)
Theorem read_grows_every_history_in_lockstep (host : Host) :
  (forall self tr s',
     HX711._read host (self, tr) = (Ret true, s') ->
     exists tr1,
       HX711._prepare_to_read host self tr = (Ret true, tr1) /\
       List.length (HX711._load_cells (fst s'))
       = List.length (HX711._load_cells self) /\
       forall i c,
         nth_error (HX711._load_cells self) i = Some c ->
         exists c',
           nth_error (HX711._load_cells (fst s')) i = Some c' /\
           appended
             (compose (own_bits host (List.length tr1)
                         (List.length (HX711._load_cells self)) i
                         (LoadCell._dout_pin c) 24))
             c c' /\
           List.length (LoadCell.raw_reads c')
           = S (List.length (LoadCell.raw_reads c)) /\
           List.length (LoadCell.reads c')
           = S (List.length (LoadCell.reads c))) /\
  (forall dout_pin debug, aligned (LoadCell.__init__ dout_pin debug)) /\
  (forall c,
     aligned c ->
     aligned (LoadCell._init_raw_read c) /\
     aligned (LoadCell._init_set_of_reads c) /\
     (forall tr c' tr',
        LoadCell._read host c tr = (Ret c', tr') -> aligned c') /\
     (forall tr c' tr',
        LoadCell._finish_raw_read c tr = (Ret c', tr') -> aligned c')) /\
  (forall c cur tr,
     LoadCell._current_raw_read c = Some cur ->
     LoadCell.convert_to_signed_value c cur = None ->
     exists c',
       LoadCell._finish_raw_read c tr = (Ret c', tr) /\
       LoadCell.raw_reads c' = LoadCell.raw_reads c ++ [cur] /\
       LoadCell.reads c' = LoadCell.reads c ++ [None]) /\
  (forall s r s',
     HX711._read host s = (r, s') ->
     Forall aligned (HX711._load_cells (fst s)) ->
     Forall aligned (HX711._load_cells (fst s'))).
Proof.
  split; [| split; [| split; [| split]]].
  - intros self tr s' Hread.
    destruct (_read_True host self tr s' Hread)
      as (tr1 & Hprep & _ & _ & Hself & _).
    exists tr1. split; [exact Hprep |]. rewrite Hself.
    cbn [HX711.set_load_cells HX711._load_cells].
    split; [apply length_cycle |].
    intros i c Hnth. eexists. split; [apply nth_error_cycle, Hnth |].
    split; [apply finished_appended |].
    destruct (finished_appended c
                (compose (own_bits host (List.length tr1)
                            (List.length (HX711._load_cells self)) i
                            (LoadCell._dout_pin c) 24))) as [Hraw Hsigned].
    rewrite Hraw, Hsigned, !length_app. simpl. split; lia.
  - apply aligned___init__.
  - intros c Hal. split; [now apply aligned__init_raw_read |].
    split; [apply aligned__init_set_of_reads |]. split.
    + intros tr c' tr' Hrun. eapply aligned__read; eassumption.
    + intros tr c' tr' Hrun. eapply aligned__finish_raw_read; eassumption.
  - intros c cur tr. apply _finish_raw_read_sentinel.
  - apply (preserves__read aligned host).
    + apply aligned__init_raw_read.
    + intros c tr c' tr'. apply aligned__read.
    + intros c tr c' tr'. apply aligned__finish_raw_read.
Qed.

Lemma read_grows_every_history_in_lockstep_witness :
  fst cycle_57_6 = Ret true /\
  List.length (HX711._load_cells (fst (snd cycle_57_6))) = 2%nat /\
  (exists c0 c1,
     nth_error (HX711._load_cells (fst (snd cycle_57_6))) 0 = Some c0 /\
     nth_error (HX711._load_cells (fst (snd cycle_57_6))) 1 = Some c1 /\
     appended 0xFFFFFF (LoadCell.__init__ 5 false) c0 /\
     appended 0x555555 (LoadCell.__init__ 7 false) c1 /\
     List.length (LoadCell.raw_reads c0) = 1%nat /\
     List.length (LoadCell.raw_reads c1) = 1%nat) /\
  Forall aligned (HX711._load_cells (fst (snd cycle_57_6))).
Proof.
  assert (Hread : HX711._read host_two_signals (with_pd_sck hx_57_6 6, [])
                  = (Ret true, snd cycle_57_6))
    by (vm_compute; reflexivity).
  assert (Hpoll : HX711._prepare_to_read host_two_signals
                    (with_pd_sck hx_57_6 6) []
                  = (Ret true, [EvInput 7; EvInput 5; EvOutput 6 false]))
    by (vm_compute; reflexivity).
  assert (Hbits0 : compose (own_bits host_two_signals 3 2 0 5 24) = 0xFFFFFF)
    by (vm_compute; reflexivity).
  assert (Hbits1 : compose (own_bits host_two_signals 3 2 1 7 24) = 0x555555)
    by (vm_compute; reflexivity).
  split; [vm_compute; reflexivity |].
  destruct (proj1 (read_grows_every_history_in_lockstep host_two_signals)
              (with_pd_sck hx_57_6 6) [] (snd cycle_57_6) Hread)
    as (tr1 & Hprep & Hlen & Hcells).
  rewrite Hpoll in Hprep. injection Hprep as <-.
  split; [exact Hlen |]. split.
  - destruct (Hcells 0%nat (LoadCell.__init__ 5 false) eq_refl)
      as (c0 & Hc0 & Happ0 & Hraw0 & _).
    destruct (Hcells 1%nat (LoadCell.__init__ 7 false) eq_refl)
      as (c1 & Hc1 & Happ1 & Hraw1 & _).
    exists c0, c1.
    change (List.length [EvInput 7; EvInput 5; EvOutput 6 false])
      with 3%nat in Happ0, Happ1.
    change (List.length (HX711._load_cells (with_pd_sck hx_57_6 6)))
      with 2%nat in Happ0, Happ1.
    change (LoadCell._dout_pin (LoadCell.__init__ 5 false))
      with 5 in Happ0.
    change (LoadCell._dout_pin (LoadCell.__init__ 7 false))
      with 7 in Happ1.
    rewrite Hbits0 in Happ0. rewrite Hbits1 in Happ1.
    split; [exact Hc0 |]. split; [exact Hc1 |].
    split; [exact Happ0 |]. split; [exact Happ1 |].
    split; [exact Hraw0 | exact Hraw1].
  - apply (proj2 (proj2 (proj2 (proj2
             (read_grows_every_history_in_lockstep host_two_signals))))
             (with_pd_sck hx_57_6 6, []) (Ret true) (snd cycle_57_6) Hread).
    repeat constructor.
Defined.

(** ** The accumulator as a 24-bit number *)

Lemma _read_step (host : Host) (c : LoadCell.t) (cur : Z) (tr : trace) :
  SIMULATE_PI host = false ->
  LoadCell._current_raw_read c = Some cur ->
  LoadCell._read host c tr
  = (Ret (LoadCell.set_current_raw_read c
            (shift_in cur
               (GPIO_input host (List.length tr) (LoadCell._dout_pin c)))),
     EvInput (LoadCell._dout_pin c) :: tr).
Proof.
  intros Hgpio Hcur. unfold LoadCell._read. rewrite Hcur.
  unfold bind at 1. rewrite (GPIO_name_Ret host Hgpio). reflexivity.
Qed.

Lemma sample_at_exact (host : Host) (trs : list trace) (c : LoadCell.t)
    (cur : Z) :
  SIMULATE_PI host = false ->
  LoadCell._current_raw_read c = Some cur ->
  sample_at host c trs
  = Ret (LoadCell.set_current_raw_read c
           (fold_left shift_in
              (map (fun tr => GPIO_input host (List.length tr)
                                (LoadCell._dout_pin c)) trs)
              cur)).
Proof.
  intros Hgpio. revert c cur.
  induction trs as [| tr trs IH]; intros c cur Hcur.
  - simpl. now rewrite set_current_raw_read_same.
  - cbn [sample_at]. rewrite (_read_step host c cur tr Hgpio Hcur).
    rewrite (IH (LoadCell.set_current_raw_read c
                   (shift_in cur
                      (GPIO_input host (List.length tr)
                         (LoadCell._dout_pin c))))
                (shift_in cur
                   (GPIO_input host (List.length tr) (LoadCell._dout_pin c)))
                eq_refl).
    reflexivity.
Qed.

Lemma Forall2_nth_error_both (A : Type) (R : A -> A -> Prop)
    (l l' : list A) (i : nat) (a b : A) :
  Forall2 R l l' ->
  nth_error l i = Some a -> nth_error l' i = Some b -> R a b.
Proof.
  intros HR. revert i.
  induction HR as [| x y l l' Hxy _ IH]; intros i Ha Hb.
  - destruct i; discriminate.
  - destruct i as [| i]; simpl in Ha, Hb.
    + inversion Ha; inversion Hb; subst. exact Hxy.
    + eapply IH; eassumption.
Qed.

Lemma own_bits_are_bits (host : Host) (start n i : nat) (pin : Z)
    (rounds : nat) :
  (forall k p, is_bit (GPIO_input host k p)) ->
  Forall is_bit (own_bits host start n i pin rounds).
Proof.
  intros Hbits. unfold own_bits. apply Forall_forall.
  intros b Hin. apply in_map_iff in Hin. destruct Hin as (j & <- & _).
  apply Hbits.
Qed.

Lemma msb_first_24 (bits : list Z) :
  List.length bits = 24%nat -> Forall is_bit bits ->
  0 <= msb_first bits < 2 ^ 24.
Proof.
  intros Hlen Hbits. pose proof (msb_first_range bits Hbits) as Hr.
  rewrite Hlen in Hr. exact Hr.
Qed.

(** What a cycle does to the raw history of an accumulator when every pin
    reads 0 or 1: nothing, or one more value below 2^24. *)
Lemma read_appends_24_bit_values (host : Host) (self : HX711.t)
    (tr : trace) (r : Res bool) (s' : HX711.state) :
  (forall k p, is_bit (GPIO_input host k p)) ->
  HX711._read host (self, tr) = (r, s') ->
  forall i c c',
    nth_error (HX711._load_cells self) i = Some c ->
    nth_error (HX711._load_cells (fst s')) i = Some c' ->
    LoadCell.raw_reads c' = LoadCell.raw_reads c \/
    exists bits,
      List.length bits = 24%nat /\ Forall is_bit bits /\
      LoadCell.raw_reads c' = LoadCell.raw_reads c ++ [msb_first bits] /\
      0 <= msb_first bits < 2 ^ 24.
Proof.
  intros Hbits Hread i c c' Hc Hc'.
  destruct (HX711._prepare_to_read host self tr) as [[[|] | e] tr1] eqn:Hprep.
  - pose proof (_read_ready host self tr tr1 Hprep) as Hcases.
    cbv zeta in Hcases.
    destruct (any_long_pulse host (List.length tr1)
                (4 + List.length (HX711._load_cells self)) 24).
    + destruct Hcases as (cells' & tr' & Hrun & Hsame).
      rewrite Hrun in Hread. apply (f_equal snd) in Hread.
      cbn [snd] in Hread. subst s'.
      cbn [fst HX711.set_load_cells HX711._load_cells] in Hc'.
      left. exact (proj1 (Forall2_nth_error_both _ _ _ _ i c c' Hsame Hc Hc')).
    + destruct Hcases as (tr' & Hrun & _).
      match type of Hrun with
      | _ = (_, (HX711.set_load_cells _ ?X, _)) =>
          remember X as cells4 eqn:Hcells4
      end.
      rewrite Hrun in Hread. apply (f_equal snd) in Hread.
      cbn [snd] in Hread. subst s'.
      cbn [fst HX711.set_load_cells HX711._load_cells] in Hc'.
      rewrite Hcells4 in Hc'.
      rewrite (nth_error_cycle host (List.length tr1) _ i c Hc) in Hc'.
      injection Hc' as <-.
      assert (Hb : Forall is_bit
                     (own_bits host (List.length tr1)
                        (List.length (HX711._load_cells self)) i
                        (LoadCell._dout_pin c) 24))
        by now apply own_bits_are_bits.
      right. eexists. split; [apply length_own_bits |].
      split; [exact Hb |]. split.
      * rewrite <- (compose_msb_first _ Hb).
        apply (proj1 (finished_appended c _)).
      * apply msb_first_24; [apply length_own_bits | exact Hb].
  - rewrite (_read_not_ready host self tr tr1 Hprep) in Hread.
    inversion Hread; subst. cbn [fst] in Hc'. left. congruence.
  - rewrite (_read_prepare_Raise host self tr e tr1 Hprep) in Hread.
    inversion Hread; subst. cbn [fst] in Hc'. left. congruence.
Qed.

(** C10. Zeroed by [_init_raw_read] and then stepped 24 times by [_read],
    each step reading 0 or 1 from the pin, the accumulator holds the sum of
    [bit_i * 2^(23-i)], which is at least 0 and below 2^24, and it is this
    value that [_finish_raw_read] then appends to the raw history. *)
Theorem accumulator_is_msb_first_sum_of_24_bits (host : Host)
    (c : LoadCell.t) (trs : list trace) :
  SIMULATE_PI host = false ->
  List.length trs = 24%nat ->
  Forall (fun tr => is_bit (GPIO_input host (List.length tr)
                              (LoadCell._dout_pin c))) trs ->
  let bits := map (fun tr => GPIO_input host (List.length tr)
                               (LoadCell._dout_pin c)) trs in
  exists c',
    sample_at host (LoadCell._init_raw_read c) trs = Ret c' /\
    LoadCell._current_raw_read c' = Some (msb_first bits) /\
    0 <= msb_first bits < 2 ^ 24 /\
    forall tr, exists c'',
      LoadCell._finish_raw_read c' tr = (Ret c'', tr) /\
      LoadCell.raw_reads c'' = LoadCell.raw_reads c ++ [msb_first bits].
Proof.
  intros Hgpio Hlen Hlevels bits.
  assert (Hbits : Forall is_bit bits).
  { unfold bits. apply Forall_forall. intros b Hin.
    apply in_map_iff in Hin. destruct Hin as (tr & <- & Htr).
    rewrite Forall_forall in Hlevels. now apply Hlevels. }
  assert (Hlenb : List.length bits = 24%nat)
    by (unfold bits; now rewrite length_map).
  eexists. split.
  - apply (sample_at_exact host trs (LoadCell._init_raw_read c) 0 Hgpio).
    reflexivity.
  - change (LoadCell._dout_pin (LoadCell._init_raw_read c))
      with (LoadCell._dout_pin c).
    fold bits. change (fold_left shift_in bits 0) with (compose bits).
    rewrite (compose_msb_first bits Hbits).
    split; [reflexivity |]. split; [now apply msb_first_24 |].
    intros tr. eexists. split; reflexivity.
Qed.

Lemma accumulator_is_msb_first_sum_of_24_bits_witness :
  exists c',
    sample_at host_alternating
      (LoadCell._init_raw_read (LoadCell.__init__ 5 false)) traces_24
    = Ret c' /\
    LoadCell._current_raw_read c'
    = Some (msb_first
              (map (fun tr => GPIO_input host_alternating (List.length tr)
                                (LoadCell._dout_pin (LoadCell.__init__ 5 false)))
                 traces_24)) /\
    0 <= msb_first
           (map (fun tr => GPIO_input host_alternating (List.length tr)
                             (LoadCell._dout_pin (LoadCell.__init__ 5 false)))
              traces_24) < 2 ^ 24 /\
    forall tr, exists c'',
      LoadCell._finish_raw_read c' tr = (Ret c'', tr) /\
      LoadCell.raw_reads c''
      = LoadCell.raw_reads (LoadCell.__init__ 5 false)
        ++ [msb_first
              (map (fun tr => GPIO_input host_alternating (List.length tr)
                                (LoadCell._dout_pin (LoadCell.__init__ 5 false)))
                 traces_24)].
Proof.
  apply (accumulator_is_msb_first_sum_of_24_bits host_alternating
           (LoadCell.__init__ 5 false) traces_24).
  - reflexivity.
  - reflexivity.
  - unfold traces_24. cbn [seq map].
    repeat (apply Forall_cons; [vm_compute; auto |]). apply Forall_nil.
Defined.

Example alternating_bits_value :
  msb_first
    (map (fun tr => GPIO_input host_alternating (List.length tr) 5) traces_24)
  = 0x555555.
Proof. reflexivity. Qed.

(** ** With the clock attribute in place *)

(** Once a caller has set [_pd_sck] on the controller and [RPi.GPIO] is
    there, none of the four methods raises: each returns a boolean. *)
Lemma methods_return_with_pd_sck (host : Host) (self : HX711.t) (pin : Z)
    (tr : trace) :
  SIMULATE_PI host = false ->
  HX711._pd_sck self = Some pin ->
  (exists b tr', HX711._prepare_to_read host self tr = (Ret b, tr')) /\
  (exists b tr', HX711._pulse_sck_high host self tr = (Ret b, tr')) /\
  (exists b tr', HX711._write_channel_gain host self tr = (Ret b, tr')) /\
  (exists b s', HX711._read host (self, tr) = (Ret b, s')).
Proof.
  intros Hgpio Hpin.
  assert (Hprep : exists b tr',
             HX711._prepare_to_read host self tr = (Ret b, tr')).
  { unfold HX711._prepare_to_read, bind.
    rewrite (output_pd_sck_present host self pin false tr Hgpio Hpin).
    destruct (poll_ready_Ret host Hgpio self 20 true
                (EvOutput pin false :: tr)) as (b & tr' & Hpoll & _).
    now exists b, tr'. }
  split; [exact Hprep |]. split; [| split].
  - rewrite (_pulse_sck_high_exact host Hgpio self pin Hpin).
    eexists. eexists. reflexivity.
  - unfold HX711._write_channel_gain.
    destruct (pulse_times_exact host Hgpio self pin Hpin
                (HX711.num_pulses self) tr) as (tr' & Hrun & _).
    rewrite Hrun. eexists. eexists. reflexivity.
  - destruct Hprep as ([|] & tr1 & Hprep).
    + pose proof (_read_ready host self tr tr1 Hprep) as Hcases.
      cbv zeta in Hcases.
      destruct (any_long_pulse host (List.length tr1)
                  (4 + List.length (HX711._load_cells self)) 24).
      * destruct Hcases as (cells' & tr' & Hrun & _).
        rewrite Hrun. eexists. eexists. reflexivity.
      * destruct Hcases as (tr' & Hrun & _).
        rewrite Hrun. eexists. eexists. reflexivity.
    + rewrite (_read_not_ready host self tr tr1 Hprep).
      eexists. eexists. reflexivity.
Qed.

(** * Further properties *)

(** ** What construction does *)

Lemma setup_inputs_exact (dout_pins : list Z) (tr : trace) :
  HX711.setup_inputs dout_pins tr
  = (Ret tt, fold_left (fun t pin => EvSetup pin false :: t) dout_pins tr).
Proof.
  revert tr. induction dout_pins as [| pin pins IH]; intros tr.
  - reflexivity.
  - cbn [HX711.setup_inputs fold_left]. unfold bind, GPIO.setup. apply IH.
Qed.

Lemma _init_gpio_exact (host : Host) (sck : Z) (pins : list Z) (tr : trace) :
  HX711._init_gpio host sck pins tr
  = (Ret tt, if SIMULATE_PI host then tr else setup_trace sck pins tr).
Proof.
  unfold HX711._init_gpio, setup_trace.
  destruct (SIMULATE_PI host); cbn [negb]; [reflexivity |].
  unfold bind, GPIO.setup. apply setup_inputs_exact.
Qed.

Lemma _set_channel_a_gain_Ret_inv (gain x : pyval) :
  HX711._set_channel_a_gain gain = Ret x ->
  x = gain /\ (gain = PyInt 128 \/ gain = PyInt 64).
Proof.
  unfold HX711._set_channel_a_gain.
  destruct (eq_int gain 128) eqn:E1; cbn [orb negb].
  - intros H. injection H as <-. apply eq_int_128 in E1. auto.
  - destruct (eq_int gain 64) eqn:E2; cbn [negb]; [| discriminate].
    intros H. injection H as <-. apply eq_int_64 in E2. auto.
Qed.

Lemma _set_channel_select_Ret_inv (channel x : pyval) :
  HX711._set_channel_select channel = Ret x ->
  x = channel /\ (channel = PyStr "A" \/ channel = PyStr "B").
Proof.
  unfold HX711._set_channel_select.
  destruct (eq_str channel "A") eqn:E1; cbn [orb negb].
  - intros H. injection H as <-. apply eq_str_iff in E1. auto.
  - destruct (eq_str channel "B") eqn:E2; cbn [negb]; [| discriminate].
    intros H. injection H as <-. apply eq_str_iff in E2. auto.
Qed.

(** X1. A controller that [__init__] returns has an [int] clock pin, a gain
    of 128 or 64 and a channel of 'A' or 'B' as they were passed, and one
    fresh accumulator per data pin, in the order of the pins; on the way
    [__init__] has set up the clock pin as an output and then every data
    pin as an input, in order, and has made no GPIO call at all when
    [RPi.GPIO] could not be imported. *)
Theorem init_sets_up_pins_and_accumulators (host : Host)
    (dout_pins sck_pin gain channel : pyval) (debug : bool)
    (tr tr' : trace) (self : HX711.t) :
  HX711.__init__ host dout_pins sck_pin gain channel debug tr
  = (Ret self, tr') ->
  convert_to_list dout_pins = Some (HX711._dout_pins self) /\
  sck_pin = PyInt (HX711._sck_pin self) /\
  HX711._debug_mode self = debug /\
  HX711._channel_A_gain self = gain /\
  (gain = PyInt 128 \/ gain = PyInt 64) /\
  HX711._channel_select self = channel /\
  (channel = PyStr "A" \/ channel = PyStr "B") /\
  HX711._load_cells self
  = map (fun pin => LoadCell.__init__ pin debug) (HX711._dout_pins self) /\
  tr' = (if SIMULATE_PI host then tr
         else setup_trace (HX711._sck_pin self) (HX711._dout_pins self) tr).
Proof.
  unfold HX711.__init__, HX711._set_dout_pins.
  destruct (convert_to_list dout_pins) as [pins |]; [| discriminate].
  destruct sck_pin as [| b | sck | str | l]; cbn [HX711._set_sck_pin];
    try discriminate.
  rewrite _init_gpio_exact.
  destruct (HX711._set_channel_a_gain gain) as [g |] eqn:Hg; [| discriminate].
  destruct (HX711._set_channel_select channel) as [ch |] eqn:Hc;
    [| discriminate].
  destruct (_set_channel_a_gain_Ret_inv gain g Hg) as [-> Hgain].
  destruct (_set_channel_select_Ret_inv channel ch Hc) as [-> Hchannel].
  intros H. inversion H; subst. cbn.
  repeat split; assumption || reflexivity.
Qed.

Lemma init_sets_up_pins_and_accumulators_witness :
  HX711._load_cells hx_57_6
  = map (fun pin => LoadCell.__init__ pin false) (HX711._dout_pins hx_57_6) /\
  [EvSetup 7 false; EvSetup 5 false; EvSetup 6 true]
  = (if SIMULATE_PI host_high then []
     else setup_trace (HX711._sck_pin hx_57_6) (HX711._dout_pins hx_57_6) []).
Proof.
  pose proof (init_sets_up_pins_and_accumulators host_high
                (PyList [PyInt 5; PyInt 7]) (PyInt 6) (PyInt 128) (PyStr "A")
                false [] [EvSetup 7 false; EvSetup 5 false; EvSetup 6 true]
                hx_57_6 eq_refl)
    as (_ & _ & _ & _ & _ & _ & _ & Hcells & Htrace).
  split; [exact Hcells | exact Htrace].
Defined.

(** X2. Where [__init__] fails decides what it has done by then: a clock
    pin that is not an [int] (a [bool] included) and data pins that
    [convert_to_list] refuses give a [TypeError] before any GPIO call; a
    gain or a channel that is refused gives the [TypeError] after the
    clock pin and every data pin have been set up, [_init_gpio] coming
    before the two checks. *)
Theorem init_checks_gain_and_channel_after_gpio_setup (host : Host)
    (dout_pins sck_pin gain channel : pyval) (debug : bool) (tr : trace) :
  (convert_to_list dout_pins = None ->
   HX711.__init__ host dout_pins sck_pin gain channel debug tr
   = (Raise TypeError, tr)) /\
  ((forall z, sck_pin <> PyInt z) ->
   HX711.__init__ host dout_pins sck_pin gain channel debug tr
   = (Raise TypeError, tr)) /\
  (forall pins sck,
     convert_to_list dout_pins = Some pins ->
     sck_pin = PyInt sck ->
     (gain <> PyInt 128 /\ gain <> PyInt 64) \/
     (channel <> PyStr "A" /\ channel <> PyStr "B") ->
     HX711.__init__ host dout_pins sck_pin gain channel debug tr
     = (Raise TypeError,
        if SIMULATE_PI host then tr else setup_trace sck pins tr)).
Proof.
  split; [| split].
  - intros Hnone. unfold HX711.__init__, HX711._set_dout_pins.
    now rewrite Hnone.
  - intros Hsck. unfold HX711.__init__, HX711._set_dout_pins.
    destruct (convert_to_list dout_pins) as [pins |]; [| reflexivity].
    destruct sck_pin as [| b | sck | str | l]; try reflexivity.
    exfalso. now apply (Hsck sck).
  - intros pins sck Hpins -> Hbad.
    unfold HX711.__init__, HX711._set_dout_pins. rewrite Hpins.
    cbn [HX711._set_sck_pin]. rewrite _init_gpio_exact.
    destruct (_set_channel_a_gain_cases gain) as [Hg | Hg]; rewrite Hg;
      [| reflexivity].
    destruct Hbad as [[H128 H64] | [HA HB]].
    + rewrite (_set_channel_a_gain_Raise gain H128 H64) in Hg.
      discriminate Hg.
    + now rewrite (_set_channel_select_Raise channel HA HB).
Qed.

Lemma init_checks_gain_and_channel_after_gpio_setup_witness :
  HX711.__init__ host_high (PyStr "5") (PyInt 6) (PyInt 128) (PyStr "A")
    false []
  = (Raise TypeError, []) /\
  HX711.__init__ host_high (PyInt 5) (PyBool true) (PyInt 128) (PyStr "A")
    false []
  = (Raise TypeError, []) /\
  HX711.__init__ host_high (PyInt 5) (PyInt 6) (PyInt 32) (PyStr "A")
    false []
  = (Raise TypeError,
     if SIMULATE_PI host_high then [] else setup_trace 6 [5] []).
Proof.
  split; [| split].
  - apply (proj1 (init_checks_gain_and_channel_after_gpio_setup host_high
                    (PyStr "5") (PyInt 6) (PyInt 128) (PyStr "A") false [])).
    reflexivity.
  - apply (proj1 (proj2 (init_checks_gain_and_channel_after_gpio_setup
                    host_high (PyInt 5) (PyBool true) (PyInt 128) (PyStr "A")
                    false []))).
    intros z. discriminate.
  - apply (proj2 (proj2 (init_checks_gain_and_channel_after_gpio_setup
                    host_high (PyInt 5) (PyInt 6) (PyInt 32) (PyStr "A")
                    false [])) [5] 6).
    + reflexivity.
    + reflexivity.
    + left. split; discriminate.
Defined.

(** ** The ready-wait on any pin levels *)

Section ReadyWaitExact.
Variable host : Host.
Hypothesis Hgpio : SIMULATE_PI host = false.

Lemma poll_load_cells_exact (cells : list LoadCell.t) (ready : bool)
    (tr : trace) :
  HX711.poll_load_cells host cells ready tr
  = (Ret (ready && poll_finds_ready host (List.length tr) cells),
     polled cells tr).
Proof.
  revert ready tr. induction cells as [| c cells IH]; intros ready tr.
  - cbn. now rewrite andb_true_r.
  - rewrite (poll_load_cells_step host Hgpio), polled_cons, IH.
    cbn [poll_finds_ready List.length].
    destruct (GPIO_input host (List.length tr) (LoadCell._dout_pin c) =? 0),
      ready; reflexivity.
Qed.

Lemma failed_polls_le (n k : nat) (cells : list LoadCell.t) :
  (failed_polls host n k cells <= n)%nat.
Proof.
  revert k. induction n as [| n IH]; intros k; cbn [failed_polls].
  - lia.
  - destruct (poll_finds_ready host k cells); [lia |].
    specialize (IH (S (k + List.length cells))). lia.
Qed.

(** A run of polls that has lasted [n] polls without success ends "not
    ready". *)
Lemma ready_within_false (n k : nat) (cells : list LoadCell.t) :
  ready_within host n k cells = false -> failed_polls host n k cells = n.
Proof.
  revert k. induction n as [| n IH]; intros k; cbn [ready_within failed_polls].
  - reflexivity.
  - destruct (poll_finds_ready host k cells); cbn [orb]; [discriminate |].
    intros H. now rewrite (IH _ H).
Qed.

Lemma poll_ready_trace (self : HX711.t) (n : nat) (tr : trace) :
  HX711.poll_ready host self n false tr
  = (Ret (ready_within host n (List.length tr) (HX711._load_cells self)),
     if ready_within host n (List.length tr) (HX711._load_cells self)
     then polled (HX711._load_cells self)
            (poll_rounds
               (failed_polls host n (List.length tr) (HX711._load_cells self))
               (HX711._load_cells self) tr)
     else poll_rounds
            (failed_polls host n (List.length tr) (HX711._load_cells self))
            (HX711._load_cells self) tr).
Proof.
  revert tr. induction n as [| n IH]; intros tr.
  - reflexivity.
  - cbn [HX711.poll_ready ready_within failed_polls]. unfold bind at 1.
    rewrite poll_load_cells_exact. cbn [andb].
    destruct (poll_finds_ready host (List.length tr) (HX711._load_cells self)).
    + reflexivity.
    + unfold bind, sleep. cbn [orb]. rewrite IH.
      replace (List.length (EvSleep :: polled (HX711._load_cells self) tr))
        with (S (List.length tr + List.length (HX711._load_cells self)))
        by (cbn [List.length]; rewrite length_polled; lia).
      reflexivity.
Qed.

End ReadyWaitExact.

Lemma clock_writes_polled (cells : list LoadCell.t) (tr : trace) :
  clock_writes (polled cells tr) = clock_writes tr.
Proof.
  revert tr. induction cells as [| c cells IH]; intros tr; [reflexivity |].
  rewrite polled_cons, IH. reflexivity.
Qed.

Lemma clock_writes_poll_rounds (n : nat) (cells : list LoadCell.t)
    (tr : trace) :
  clock_writes (poll_rounds n cells tr) = clock_writes tr.
Proof.
  revert tr. induction n as [| n IH]; intros tr; [reflexivity |].
  cbn [poll_rounds]. rewrite IH. cbn [clock_writes].
  apply clock_writes_polled.
Qed.

(** X3. With [RPi.GPIO] there and [_pd_sck] set, [_prepare_to_read] writes
    LOW to the clock once, as its first call, never HIGH, and then only
    polls and sleeps: it returns [True] exactly when, in one of at most 20
    polls, no data pin reads 0, and [False] after 20 polls otherwise; it
    sleeps once after every poll that failed and not after the one that
    succeeded, so at most 20 times, and reads every data pin once per
    poll.  (With no accumulator at all the first poll succeeds without
    reading a pin.) *)
Theorem prepare_to_read_polls_until_no_pin_reads_0 (host : Host)
    (self : HX711.t) (pin : Z) (tr : trace) :
  SIMULATE_PI host = false ->
  HX711._pd_sck self = Some pin ->
  let cells := HX711._load_cells self in
  let ready := ready_within host 20 (S (List.length tr)) cells in
  let failed := failed_polls host 20 (S (List.length tr)) cells in
  exists tr',
    HX711._prepare_to_read host self tr = (Ret ready, tr') /\
    tr' = (if ready
           then polled cells (poll_rounds failed cells (EvOutput pin false :: tr))
           else poll_rounds failed cells (EvOutput pin false :: tr)) /\
    clock_writes tr' = (pin, false) :: clock_writes tr /\
    sleeps tr' = (failed + sleeps tr)%nat /\
    (failed <= 20)%nat /\
    (ready = false -> failed = 20%nat) /\
    inputs tr'
    = ((failed + (if ready then 1 else 0)) * List.length cells + inputs tr)%nat
    /\ high_pulses tr' = high_pulses tr.
Proof.
  intros Hgpio Hpin cells ready failed.
  assert (Hrun : HX711._prepare_to_read host self tr
                 = (Ret ready,
                    if ready
                    then polled cells
                           (poll_rounds failed cells (EvOutput pin false :: tr))
                    else poll_rounds failed cells (EvOutput pin false :: tr))).
  { unfold HX711._prepare_to_read, bind.
    rewrite (output_pd_sck_present host self pin false tr Hgpio Hpin).
    exact (poll_ready_trace host Hgpio self 20 (EvOutput pin false :: tr)). }
  eexists. split; [exact Hrun |]. split; [reflexivity |].
  split.
  { destruct ready.
    - now rewrite clock_writes_polled, clock_writes_poll_rounds.
    - now rewrite clock_writes_poll_rounds. }
  split.
  { destruct ready.
    - rewrite sleeps_polled, sleeps_poll_rounds. reflexivity.
    - rewrite sleeps_poll_rounds. reflexivity. }
  split; [apply failed_polls_le |].
  split; [apply ready_within_false |].
  split.
  - destruct ready.
    + rewrite inputs_polled, inputs_poll_rounds. cbn [inputs]. lia.
    + rewrite inputs_poll_rounds. cbn [inputs]. lia.
  - destruct ready.
    + now rewrite high_pulses_polled, high_pulses_poll_rounds.
    + now rewrite high_pulses_poll_rounds.
Qed.

Lemma prepare_to_read_polls_until_no_pin_reads_0_witness :
  exists tr',
    HX711._prepare_to_read host_ready_late (with_pd_sck hx_5_6 6) []
    = (Ret true, tr') /\
    tr' = [EvInput 5; EvSleep; EvInput 5; EvSleep; EvInput 5;
           EvOutput 6 false] /\
    clock_writes tr' = [(6, false)] /\
    sleeps tr' = 2%nat /\ inputs tr' = 3%nat /\ high_pulses tr' = 0%nat.
Proof.
  destruct (prepare_to_read_polls_until_no_pin_reads_0 host_ready_late
              (with_pd_sck hx_5_6 6) 6 [] eq_refl eq_refl)
    as (tr' & Hrun & Htr & Hcw & Hsl & _ & _ & Hin & Hhp).
  exists tr'. split; [exact Hrun |]. split; [exact Htr |].
  split; [exact Hcw |]. split; [exact Hsl |].
  split; [exact Hin | exact Hhp].
Defined.

(** ** Where a run of pulses stops *)

Lemma rounds_before_long_le (host : Host) (start stride n : nat) :
  (rounds_before_long host start stride n
   + (if any_long_pulse host start stride n then 1 else 0) <= n)%nat.
Proof.
  revert start. induction n as [| n IH]; intros start;
    cbn [rounds_before_long any_long_pulse].
  - lia.
  - destruct (pulse_too_long host start); cbn [orb]; [lia |].
    specialize (IH (start + stride)%nat).
    destruct (any_long_pulse host (start + stride) stride n); lia.
Qed.

Lemma rounds_before_long_none (host : Host) (start stride n : nat) :
  any_long_pulse host start stride n = false ->
  rounds_before_long host start stride n = n.
Proof.
  revert start. induction n as [| n IH]; intros start;
    cbn [rounds_before_long any_long_pulse].
  - reflexivity.
  - destruct (pulse_too_long host start); cbn [orb]; [discriminate |].
    intros H. now rewrite (IH _ H).
Qed.

Lemma pulsed_times_S (n : nat) (pin : Z) (tr : trace) :
  pulsed_times (S n) pin tr = pulsed pin (pulsed_times n pin tr).
Proof.
  revert tr. induction n as [| n IH]; intros tr; [reflexivity |].
  change (pulsed_times (S (S n)) pin tr)
    with (pulsed_times (S n) pin (pulsed pin tr)).
  rewrite IH. reflexivity.
Qed.

Section PulseRuns.
Variable host : Host.
Hypothesis Hgpio : SIMULATE_PI host = false.
Variable pin : Z.

Lemma pulse_times_stops (self : HX711.t) (n : nat) (tr : trace) :
  HX711._pd_sck self = Some pin ->
  HX711.pulse_times host self n tr
  = (Ret (negb (any_long_pulse host (List.length tr) 4 n)),
     pulsed_times
       (rounds_before_long host (List.length tr) 4 n
        + (if any_long_pulse host (List.length tr) 4 n then 1 else 0))
       pin tr).
Proof.
  intros Hpin. revert tr. induction n as [| n IH]; intros tr.
  - reflexivity.
  - cbn [HX711.pulse_times any_long_pulse rounds_before_long].
    unfold bind at 1.
    rewrite (_pulse_sck_high_exact host Hgpio self pin Hpin tr).
    destruct (pulse_too_long host (List.length tr)); cbn [negb orb].
    + reflexivity.
    + rewrite IH.
      replace (List.length (pulsed pin tr))
        with (List.length tr + 4)%nat by (cbn; lia).
      reflexivity.
Qed.

Lemma read_bits_stops (n : nat) (self : HX711.t) (tr : trace) :
  HX711._pd_sck self = Some pin ->
  Forall has_current (HX711._load_cells self) ->
  let stride := (4 + List.length (HX711._load_cells self))%nat in
  let rounds := rounds_before_long host (List.length tr) stride n in
  let long := any_long_pulse host (List.length tr) stride n in
  exists tr',
    HX711.read_bits host n (self, tr)
    = (Ret (negb long),
       (HX711.set_load_cells self
          (sample_rounds host rounds (List.length tr) stride
             (HX711._load_cells self)), tr')) /\
    high_pulses tr'
    = (rounds + (if long then 1 else 0) + high_pulses tr)%nat /\
    inputs tr'
    = (rounds * List.length (HX711._load_cells self) + inputs tr)%nat.
Proof.
  cbv zeta. revert self tr. induction n as [| n IH]; intros self tr Hpin Hcur.
  - exists tr. cbn [rounds_before_long any_long_pulse sample_rounds].
    rewrite set_load_cells_id. repeat split; reflexivity.
  - cbn [HX711.read_bits any_long_pulse rounds_before_long].
    unfold bind at 1. unfold HX711.call at 1. cbn [fst snd].
    rewrite (_pulse_sck_high_exact host Hgpio self pin Hpin tr).
    destruct (pulse_too_long host (List.length tr)) eqn:Hlong;
      cbn [negb orb].
    + exists (pulsed pin tr). cbn [sample_rounds].
      rewrite set_load_cells_id. repeat split; reflexivity.
    + unfold bind at 1.
      rewrite (for_load_cells_read host Hgpio self _ Hcur).
      set (cells1 := sample_each host (List.length (pulsed pin tr))
                       (HX711._load_cells self)).
      set (tr1 := polled (HX711._load_cells self) (pulsed pin tr)).
      destruct (IH (HX711.set_load_cells self cells1) tr1 Hpin)
        as (tr' & Hrun & Hhp & Hin).
      { apply has_current_sample_each, Hcur. }
      cbn [HX711.set_load_cells HX711._load_cells] in Hrun, Hhp, Hin.
      assert (Hlen1 : List.length cells1
                      = List.length (HX711._load_cells self))
        by apply length_sample_each.
      assert (Htr1 : List.length tr1
                     = (List.length tr
                        + (4 + List.length (HX711._load_cells self)))%nat).
      { unfold tr1. rewrite length_polled. cbn. lia. }
      rewrite Hlen1, Htr1 in Hrun, Hhp, Hin.
      exists tr'. split; [exact Hrun |]. rewrite Hhp, Hin. unfold tr1.
      rewrite high_pulses_polled, inputs_polled. cbn. split; lia.
Qed.

End PulseRuns.

(** X4. With [RPi.GPIO] there and [_pd_sck] set, [_write_channel_gain]
    makes its pulses one after the other and stops right after the first
    one that trips the 60 microsecond guard: it returns [False] exactly
    when one of the pulses of the configuration trips the guard, it has
    then made no pulse after that one, and in every case it has made at
    least one pulse and at most three. *)
Theorem write_channel_gain_stops_at_first_long_pulse (host : Host)
    (self : HX711.t) (pin : Z) (tr : trace) :
  SIMULATE_PI host = false ->
  HX711._pd_sck self = Some pin ->
  let long := any_long_pulse host (List.length tr) 4 (HX711.num_pulses self) in
  let made :=
    (rounds_before_long host (List.length tr) 4 (HX711.num_pulses self)
     + (if long then 1 else 0))%nat in
  HX711._write_channel_gain host self tr
  = (Ret (negb long), pulsed_times made pin tr) /\
  high_pulses (pulsed_times made pin tr) = (made + high_pulses tr)%nat /\
  (1 <= made <= HX711.num_pulses self)%nat /\
  (HX711.num_pulses self <= 3)%nat /\
  (long = false -> made = HX711.num_pulses self).
Proof.
  intros Hgpio Hpin long made. unfold HX711._write_channel_gain.
  split; [apply (pulse_times_stops host Hgpio pin self _ tr Hpin) |].
  split; [apply high_pulses_pulsed_times |].
  pose proof (rounds_before_long_le host (List.length tr) 4
                (HX711.num_pulses self)) as Hle.
  pose proof (rounds_before_long_none host (List.length tr) 4
                (HX711.num_pulses self)) as Hnone.
  fold long in Hle, Hnone. fold made in Hle.
  assert (Hn : (1 <= HX711.num_pulses self <= 3)%nat).
  { unfold HX711.num_pulses. destruct (_ && _); [lia |].
    destruct (_ && _); lia. }
  split; [| split; [lia |]].
  - split; [| exact Hle]. unfold made.
    destruct long; [lia |]. rewrite (Hnone eq_refl). lia.
  - intros Hl. unfold made. rewrite Hl, (Hnone Hl). lia.
Qed.

Lemma write_channel_gain_stops_at_first_long_pulse_witness :
  HX711._write_channel_gain (host_stall 3) (with_pd_sck hx_5_6_B 6) []
  = (Ret false, pulsed_times 1 6 []) /\
  HX711._write_channel_gain (host_stall 7) (with_pd_sck hx_5_6_B 6) []
  = (Ret false, pulsed_times 2 6 []).
Proof.
  split.
  - exact (proj1 (write_channel_gain_stops_at_first_long_pulse
                    (host_stall 3) (with_pd_sck hx_5_6_B 6) 6 []
                    eq_refl eq_refl)).
  - exact (proj1 (write_channel_gain_stops_at_first_long_pulse
                    (host_stall 7) (with_pd_sck hx_5_6_B 6) 6 []
                    eq_refl eq_refl)).
Defined.

(** ** A cycle cut short *)

Lemma _read_data_loop_False (host : Host) (self : HX711.t) (tr tr1 : trace)
    (s3 : HX711.state) :
  HX711._prepare_to_read host self tr = (Ret true, tr1) ->
  HX711.read_bits host 24
    (HX711.set_load_cells self
       (map LoadCell._init_raw_read (HX711._load_cells self)), tr1)
  = (Ret false, s3) ->
  HX711._read host (self, tr) = (Ret false, s3).
Proof.
  intros Hprep Hbits. unfold HX711._read, bind at 1. unfold HX711.call at 1.
  cbn [fst snd]. rewrite Hprep. cbn [negb]. unfold bind at 1.
  unfold HX711.for_load_cells at 1. cbn [fst snd].
  rewrite each_init. unfold bind at 1. rewrite Hbits. reflexivity.
Qed.

(** X5. When the pins are ready and the first data pulse to trip the guard
    comes after [k] good ones, the cycle returns [False] having made
    exactly [k + 1] clock pulses, [k] being less than 24, and every
    accumulator is as it was except for its transient value, which holds
    the [k] levels sampled from its own pin since the reset at the start
    of the cycle. *)
Theorem read_cut_short_keeps_partial_bits_out_of_histories (host : Host)
    (self : HX711.t) (tr tr1 : trace) :
  HX711._prepare_to_read host self tr = (Ret true, tr1) ->
  let n := List.length (HX711._load_cells self) in
  any_long_pulse host (List.length tr1) (4 + n) 24 = true ->
  let k := rounds_before_long host (List.length tr1) (4 + n) 24 in
  exists s',
    HX711._read host (self, tr) = (Ret false, s') /\
    (k < 24)%nat /\
    high_pulses (snd s') = (S k + high_pulses tr)%nat /\
    List.length (HX711._load_cells (fst s')) = n /\
    forall i c,
      nth_error (HX711._load_cells self) i = Some c ->
      nth_error (HX711._load_cells (fst s')) i
      = Some (LoadCell.set_current_raw_read c
                (compose (own_bits host (List.length tr1) n i
                            (LoadCell._dout_pin c) k))).
Proof.
  intros Hprep n Hlong k.
  destruct (_prepare_to_read_Ret host self tr true tr1 Hprep)
    as (Hgpio & [pin Hpin] & Hhp).
  destruct (read_bits_stops host Hgpio pin 24
              (HX711.set_load_cells self
                 (map LoadCell._init_raw_read (HX711._load_cells self)))
              tr1 Hpin (has_current_init _))
    as (tr' & Hbits & Hhp' & _).
  cbn [HX711.set_load_cells HX711._load_cells] in Hbits, Hhp'.
  rewrite length_map in Hbits, Hhp'. fold n in Hbits, Hhp'.
  rewrite Hlong in Hbits, Hhp'. fold k in Hbits, Hhp'. cbn [negb] in Hbits.
  eexists. split; [exact (_read_data_loop_False host self tr tr1 _ Hprep Hbits) |].
  cbn [fst snd HX711.set_load_cells HX711._load_cells].
  pose proof (rounds_before_long_le host (List.length tr1) (4 + n) 24) as Hle.
  rewrite Hlong in Hle. fold k in Hle.
  split; [lia |]. split; [rewrite Hhp', Hhp; lia |].
  split; [now rewrite length_sample_rounds, length_map |].
  intros i c Hnth.
  rewrite (nth_error_sample_rounds host k (List.length tr1) n _ i
             (LoadCell._init_raw_read c) 0).
  - reflexivity.
  - now apply map_nth_error.
  - reflexivity.
Qed.

Lemma read_cut_short_keeps_partial_bits_out_of_histories_witness :
  exists s',
    HX711._read (host_stall 15) (with_pd_sck hx_5_6 6, []) = (Ret false, s') /\
    high_pulses (snd s') = 3%nat /\
    nth_error (HX711._load_cells (fst s')) 0
    = Some (LoadCell.set_current_raw_read (LoadCell.__init__ 5 false) 3).
Proof.
  destruct (read_cut_short_keeps_partial_bits_out_of_histories
              (host_stall 15) (with_pd_sck hx_5_6 6) []
              (snd (HX711._prepare_to_read (host_stall 15)
                      (with_pd_sck hx_5_6 6) [])))
    as (s' & Hrun & _ & Hhp & _ & Hcells).
  - vm_compute. reflexivity.
  - vm_compute. reflexivity.
  - exists s'. split; [exact Hrun |]. split; [exact Hhp |].
    exact (Hcells 0%nat (LoadCell.__init__ 5 false) eq_refl).
Defined.

(** ** What a cycle never changes *)

Lemma set_load_cells_trans (a b c : HX711.t) :
  b = HX711.set_load_cells a (HX711._load_cells b) ->
  c = HX711.set_load_cells b (HX711._load_cells c) ->
  c = HX711.set_load_cells a (HX711._load_cells c).
Proof.
  intros Hb Hc. rewrite Hc at 1. rewrite Hb at 1. reflexivity.
Qed.

Section Relating.
Variable R : LoadCell.t -> LoadCell.t -> Prop.
Hypothesis R_refl : forall c, R c c.
Hypothesis R_trans : forall a b c, R a b -> R b c -> R a c.

Lemma Forall2_R_refl (cells : list LoadCell.t) : Forall2 R cells cells.
Proof. induction cells; constructor; auto. Qed.

Lemma Forall2_R_trans (l1 l2 l3 : list LoadCell.t) :
  Forall2 R l1 l2 -> Forall2 R l2 l3 -> Forall2 R l1 l3.
Proof.
  intros H12. revert l3.
  induction H12 as [| a b l1 l2 Hab _ IH]; intros l3 H23;
    inversion H23; subst; constructor; eauto.
Qed.

Lemma each_Forall2 (m : LoadCell.t -> M trace LoadCell.t) :
  (forall c tr c' tr', m c tr = (Ret c', tr') -> R c c') ->
  forall cells tr r cells' tr',
    HX711.each m cells tr = (r, (cells', tr')) ->
    Forall2 R cells cells'.
Proof.
  intros Hm. induction cells as [| c cells IH]; intros tr r cells' tr' Hrun.
  - inversion Hrun; subst. constructor.
  - cbn [HX711.each] in Hrun.
    destruct (m c tr) as [[c1 | e] tr1] eqn:Hstep.
    + destruct (HX711.each m cells tr1) as [r0 [rest' tr2]] eqn:Heach.
      inversion Hrun; subst. constructor.
      * eapply Hm; eassumption.
      * eapply IH; eassumption.
    + inversion Hrun; subst. apply Forall2_R_refl.
Qed.

Lemma relates_ret (A : Type) (a : A) : relates R (ret a).
Proof.
  intros s r s' H. inversion H; subst. split.
  - symmetry. apply set_load_cells_id.
  - apply Forall2_R_refl.
Qed.

Lemma relates_bind (A B : Type) (m : M HX711.state A)
    (k : A -> M HX711.state B) :
  relates R m -> (forall a, relates R (k a)) -> relates R (bind m k).
Proof.
  intros Hm Hk s r s' Hrun. unfold bind in Hrun.
  destruct (m s) as [[a | e] s1] eqn:Hms.
  - destruct (Hm s _ s1 Hms) as [Hf1 HR1].
    destruct (Hk a s1 r s' Hrun) as [Hf2 HR2]. split.
    + eapply set_load_cells_trans; eassumption.
    + eapply Forall2_R_trans; eassumption.
  - inversion Hrun; subst. eapply Hm; eassumption.
Qed.

Lemma relates_call (A : Type) (m : HX711.t -> M trace A) :
  relates R (HX711.call m).
Proof.
  intros s r s' Hrun. unfold HX711.call in Hrun.
  destruct (m (fst s) (snd s)) as [r0 tr']. inversion Hrun; subst.
  cbn [fst]. split.
  - symmetry. apply set_load_cells_id.
  - apply Forall2_R_refl.
Qed.

Lemma relates_for_load_cells (m : LoadCell.t -> M trace LoadCell.t) :
  (forall c tr c' tr', m c tr = (Ret c', tr') -> R c c') ->
  relates R (HX711.for_load_cells m).
Proof.
  intros Hm s r s' Hrun. unfold HX711.for_load_cells in Hrun.
  destruct (HX711.each m (HX711._load_cells (fst s)) (snd s))
    as [r0 [cells' tr']] eqn:Heach.
  inversion Hrun; subst. cbn [fst HX711.set_load_cells HX711._load_cells].
  split; [reflexivity |]. eapply each_Forall2; eassumption.
Qed.

Lemma relates_read_bits (host : Host) (n : nat) :
  (forall c tr c' tr', LoadCell._read host c tr = (Ret c', tr') -> R c c') ->
  relates R (HX711.read_bits host n).
Proof.
  intros Hread. induction n as [| n IH]; cbn [HX711.read_bits].
  - apply relates_ret.
  - apply relates_bind; [apply relates_call |].
    intros [|]; [| apply relates_ret].
    apply relates_bind; [now apply relates_for_load_cells |].
    intros _. exact IH.
Qed.

Lemma relates__read (host : Host) :
  (forall c, R c (LoadCell._init_raw_read c)) ->
  (forall c tr c' tr', LoadCell._read host c tr = (Ret c', tr') -> R c c') ->
  (forall c tr c' tr',
     LoadCell._finish_raw_read c tr = (Ret c', tr') -> R c c') ->
  relates R (HX711._read host).
Proof.
  intros Hinit Hread Hfinish. unfold HX711._read.
  apply relates_bind; [apply relates_call |].
  intros [|]; cbn [negb]; [| apply relates_ret].
  apply relates_bind.
  { apply relates_for_load_cells.
    intros c tr c' tr' H. inversion H; subst. apply Hinit. }
  intros _. apply relates_bind; [now apply relates_read_bits |].
  intros [|]; cbn [negb]; [| apply relates_ret].
  apply relates_bind; [now apply relates_for_load_cells |].
  intros _. apply relates_bind; [apply relates_call |].
  intros [|]; apply relates_ret.
Qed.

End Relating.

Lemma untouched_refl (c : LoadCell.t) : untouched c c.
Proof. repeat split. Qed.

Lemma untouched_trans (a b c : LoadCell.t) :
  untouched a b -> untouched b c -> untouched a c.
Proof.
  intros (H1 & H2 & H3 & H4 & H5) (K1 & K2 & K3 & K4 & K5).
  repeat split; congruence.
Qed.

Lemma untouched__read (host : Host) (c : LoadCell.t) (tr : trace)
    (c' : LoadCell.t) (tr' : trace) :
  LoadCell._read host c tr = (Ret c', tr') -> untouched c c'.
Proof.
  unfold LoadCell._read.
  destruct (LoadCell._current_raw_read c) as [cur |]; [| discriminate].
  unfold bind, GPIO.name. destruct (SIMULATE_PI host); [discriminate |].
  intros H. inversion H; subst. repeat split.
Qed.

Lemma untouched__finish_raw_read (c : LoadCell.t) (tr : trace)
    (c' : LoadCell.t) (tr' : trace) :
  LoadCell._finish_raw_read c tr = (Ret c', tr') -> untouched c c'.
Proof.
  unfold LoadCell._finish_raw_read.
  destruct (LoadCell._current_raw_read c) as [cur |]; [| discriminate].
  intros H. inversion H; subst. repeat split.
Qed.

(** X6. Whatever a cycle returns or raises, it changes nothing of the
    controller but its accumulators (the pins, [_pd_sck], the gain and the
    channel stay), it leaves as many accumulators as there were, in the
    same order, and of each accumulator it keeps the data pin, the debug
    flag, the offset, the scale ratio and [_last_raw_read]. *)
Theorem read_changes_only_accumulator_and_histories (host : Host)
    (s s' : HX711.state) (r : Res bool) :
  HX711._read host s = (r, s') ->
  fst s' = HX711.set_load_cells (fst s) (HX711._load_cells (fst s')) /\
  Forall2 untouched (HX711._load_cells (fst s)) (HX711._load_cells (fst s'))
  /\ map LoadCell._dout_pin (HX711._load_cells (fst s'))
     = map LoadCell._dout_pin (HX711._load_cells (fst s)).
Proof.
  intros Hrun.
  destruct (relates__read untouched untouched_refl untouched_trans host
              (fun c => untouched_refl _)
              (untouched__read host) untouched__finish_raw_read
              s r s' Hrun) as [Hframe Hcells].
  split; [exact Hframe |]. split; [exact Hcells |].
  clear Hrun Hframe.
  induction Hcells as [| c c' l l' (Hpin & _) _ IH]; [reflexivity |].
  cbn [map]. now rewrite Hpin, IH.
Qed.

Lemma read_changes_only_accumulator_and_histories_witness :
  map LoadCell._dout_pin (HX711._load_cells (fst (snd cycle_5_6))) = [5] /\
  HX711._channel_A_gain (fst (snd cycle_5_6)) = PyInt 128.
Proof.
  assert (Hread : HX711._read host_high (with_pd_sck hx_5_6 6, [])
                  = (fst cycle_5_6, snd cycle_5_6))
    by (vm_compute; reflexivity).
  destruct (read_changes_only_accumulator_and_histories host_high
              (with_pd_sck hx_5_6 6, []) (snd cycle_5_6) (fst cycle_5_6)
              Hread) as (Hframe & _ & Hpins).
  split; [exact Hpins |]. rewrite Hframe. reflexivity.
Defined.

(** ** Histories only grow, one entry at a time, all together *)

Lemma same_histories_sample_rounds (host : Host) (n start stride : nat)
    (cells : list LoadCell.t) :
  Forall2 same_histories cells (sample_rounds host n start stride cells).
Proof.
  revert start cells. induction n as [| n IH]; intros start cells;
    cbn [sample_rounds].
  - apply same_histories_refl.
  - eapply same_histories_trans; [apply same_histories_sample_each |].
    apply IH.
Qed.

Lemma Forall2_finished (cells cells1 : list LoadCell.t) :
  Forall2 same_histories cells cells1 ->
  Forall has_current cells1 ->
  Forall2 (fun c c' => exists v, appended v c c') cells (map finished cells1).
Proof.
  induction 1 as [| c c1 cells cells1 [Hraw Hsigned] _ IH]; intros Hcur.
  - constructor.
  - inversion Hcur as [| x l [cur Hc] Hrest]; subst.
    cbn [map]. constructor; [| now apply IH].
    exists cur. unfold appended, finished. rewrite Hc. cbn.
    rewrite Hraw, Hsigned. split; reflexivity.
Qed.

Lemma _read_all_or_none (host : Host)
    (self : HX711.t) (tr : trace) (r : Res bool) (s' : HX711.state) :
  HX711._read host (self, tr) = (r, s') ->
  (Forall2 same_histories (HX711._load_cells self)
     (HX711._load_cells (fst s')) /\ r <> Ret true) \/
  Forall2 (fun c c' => exists v, appended v c c') (HX711._load_cells self)
    (HX711._load_cells (fst s')).
Proof.
  intros Hread.
  destruct (HX711._prepare_to_read host self tr) as [[[|] | e] tr1] eqn:Hprep.
  - pose proof (_read_ready host self tr tr1 Hprep) as Hcases.
    cbv zeta in Hcases.
    destruct (any_long_pulse host (List.length tr1)
                (4 + List.length (HX711._load_cells self)) 24).
    + destruct Hcases as (cells' & tr' & Hrun & Hsame).
      rewrite Hrun in Hread. inversion Hread; subst.
      left. split; [exact Hsame | discriminate].
    + destruct Hcases as (tr' & Hrun & _).
      match type of Hrun with
      | _ = (_, (HX711.set_load_cells _ (map finished ?X), _)) =>
          assert (Hall : Forall2 (fun c c' => exists v, appended v c c')
                           (HX711._load_cells self) (map finished X))
      end.
      { apply Forall2_finished.
        - eapply same_histories_trans; [apply same_histories_init |].
          apply same_histories_sample_rounds.
        - apply has_current_sample_rounds, has_current_init. }
      match type of Hrun with
      | _ = (_, (HX711.set_load_cells _ ?X, _)) =>
          remember X as cells4 eqn:Hcells4
      end.
      rewrite Hrun in Hread. apply (f_equal snd) in Hread.
      cbn [snd] in Hread. subst s'.
      right. exact Hall.
  - rewrite (_read_not_ready host self tr tr1 Hprep) in Hread.
    inversion Hread; subst. left.
    split; [apply same_histories_refl | discriminate].
  - rewrite (_read_prepare_Raise host self tr e tr1 Hprep) in Hread.
    inversion Hread; subst. left.
    split; [apply same_histories_refl | discriminate].
Qed.

(** X7. Whatever a cycle returns or raises, the accumulators go together:
    either no history of any accumulator has changed, or every accumulator
    has exactly one new entry at the end of its raw history and one at the
    end of its signed history.  No entry is ever removed or rewritten, and
    a cycle that returns [True] is in the second case. *)
Theorem read_appends_to_all_histories_or_to_none (host : Host)
    (self : HX711.t) (tr : trace) (r : Res bool) (s' : HX711.state) :
  HX711._read host (self, tr) = (r, s') ->
  (Forall2 same_histories (HX711._load_cells self)
     (HX711._load_cells (fst s')) /\ r <> Ret true) \/
  Forall2 (fun c c' => exists v, appended v c c') (HX711._load_cells self)
    (HX711._load_cells (fst s')).
Proof.
  intros Hread.
  destruct (_read_all_or_none host self tr r s' Hread) as [Hnone | Hall].
  - left. exact Hnone.
  - right. exact Hall.
Qed.

Lemma read_appends_to_all_histories_or_to_none_witness :
  (Forall2 same_histories (HX711._load_cells (with_pd_sck hx_57_6 6))
     (HX711._load_cells
        (fst (snd (HX711._read (host_stall 20)
                     (with_pd_sck hx_57_6 6, []))))) /\
   fst (HX711._read (host_stall 20) (with_pd_sck hx_57_6 6, []))
   <> Ret true) \/
  Forall2 (fun c c' => exists v, appended v c c')
    (HX711._load_cells (with_pd_sck hx_57_6 6))
    (HX711._load_cells
       (fst (snd (HX711._read (host_stall 20)
                    (with_pd_sck hx_57_6 6, []))))).
Proof.
  apply (read_appends_to_all_histories_or_to_none (host_stall 20)
           (with_pd_sck hx_57_6 6) []).
  vm_compute. reflexivity.
Defined.

(** ** Cycles in a row *)

Lemma grown_by_same (c c' : LoadCell.t) :
  same_histories c c' -> grown_by 1 c c'.
Proof.
  intros [Hraw Hsigned]. exists [], []. rewrite Hraw, Hsigned, !app_nil_r.
  cbn. repeat split; lia.
Qed.

Lemma grown_by_appended (v : Z) (c c' : LoadCell.t) :
  appended v c c' -> grown_by 1 c c'.
Proof.
  intros [Hraw Hsigned]. eexists. eexists.
  split; [exact Hraw |]. split; [exact Hsigned |]. cbn. split; lia.
Qed.

Lemma grown_by_refl (c : LoadCell.t) : grown_by 0 c c.
Proof.
  exists [], []. rewrite !app_nil_r. cbn. repeat split; lia.
Qed.

Lemma grown_by_compose (a b : nat) (c1 c2 c3 : LoadCell.t) :
  grown_by a c1 c2 -> grown_by b c2 c3 -> grown_by (a + b) c1 c3.
Proof.
  intros (r1 & s1 & Hr1 & Hs1 & Hl1 & Hk1) (r2 & s2 & Hr2 & Hs2 & Hl2 & Hk2).
  exists (r1 ++ r2), (s1 ++ s2).
  rewrite Hr2, Hr1, Hs2, Hs1, <- !app_assoc, !length_app.
  repeat split; lia.
Qed.

Lemma Forall2_grown_by_compose (a b : nat) (l1 l2 l3 : list LoadCell.t) :
  Forall2 (grown_by a) l1 l2 -> Forall2 (grown_by b) l2 l3 ->
  Forall2 (grown_by (a + b)) l1 l3.
Proof.
  intros H12. revert l3.
  induction H12 as [| x y l1 l2 Hxy _ IH]; intros l3 H23;
    inversion H23; subst; constructor.
  - eapply grown_by_compose; eassumption.
  - now apply IH.
Qed.

Lemma _read_grown_by_1 (host : Host) (s : HX711.state) :
  Forall2 (grown_by 1) (HX711._load_cells (fst s))
    (HX711._load_cells (fst (snd (HX711._read host s)))).
Proof.
  destruct s as [self tr].
  destruct (HX711._read host (self, tr)) as [r s'] eqn:Hread.
  cbn [fst snd].
  destruct (_read_all_or_none host self tr r s' Hread)
    as [[Hsame _] | Hall].
  - eapply Forall2_impl; [| exact Hsame]. apply grown_by_same.
  - eapply Forall2_impl; [| exact Hall].
    intros c c' [v Hv]. exact (grown_by_appended v c c' Hv).
Qed.

Lemma all_invalid__finish_raw_read (c : LoadCell.t) (tr : trace)
    (c' : LoadCell.t) (tr' : trace) :
  LoadCell._finish_raw_read c tr = (Ret c', tr') ->
  all_invalid c -> all_invalid c'.
Proof.
  unfold LoadCell._finish_raw_read.
  destruct (LoadCell._current_raw_read c) as [cur |]; [| discriminate].
  intros H. inversion H; subst. unfold all_invalid. cbn.
  rewrite convert_to_signed_value_None. intros Hall.
  apply Forall_app. split; [exact Hall |]. constructor; [reflexivity |].
  constructor.
Qed.

Lemma all_invalid__read (host : Host) (c : LoadCell.t) (tr : trace)
    (c' : LoadCell.t) (tr' : trace) :
  LoadCell._read host c tr = (Ret c', tr') -> all_invalid c -> all_invalid c'.
Proof.
  unfold LoadCell._read.
  destruct (LoadCell._current_raw_read c) as [cur |]; [| discriminate].
  unfold bind, GPIO.name. destruct (SIMULATE_PI host); [discriminate |].
  intros H. inversion H; subst. intros Hall. exact Hall.
Qed.

Lemma cycles_preserves (host : Host) (P : LoadCell.t -> Prop) :
  preserves P (HX711._read host) ->
  forall n s,
    Forall P (HX711._load_cells (fst s)) ->
    Forall P (HX711._load_cells (fst (cycles host n s))).
Proof.
  intros HP. induction n as [| n IH]; intros s Hs; cbn [cycles].
  - exact Hs.
  - apply IH.
    destruct (HX711._read host s) as [r s'] eqn:Hread. cbn [snd].
    exact (HP s r s' Hread Hs).
Qed.

(** X8. After [n] calls of [_read] in a row, whatever each returned or
    raised, every accumulator has its former raw and signed histories as
    they were, followed by at most [n] new entries, as many in the one as
    in the other; histories that were index-aligned before are so after. *)
Theorem cycles_only_append_entries (host : Host) (n : nat)
    (s : HX711.state) :
  Forall2 (grown_by n) (HX711._load_cells (fst s))
    (HX711._load_cells (fst (cycles host n s))) /\
  (Forall aligned (HX711._load_cells (fst s)) ->
   Forall aligned (HX711._load_cells (fst (cycles host n s)))).
Proof.
  split.
  - revert s. induction n as [| n IH]; intros s; cbn [cycles].
    + eapply Forall2_impl; [| apply (Forall2_R_refl (fun c c' => c' = c))];
        [| reflexivity].
      intros c c' ->. apply grown_by_refl.
    + change (S n) with (1 + n)%nat.
      eapply Forall2_grown_by_compose; [apply _read_grown_by_1 | apply IH].
  - apply cycles_preserves.
    apply (preserves__read aligned host).
    + apply aligned__init_raw_read.
    + intros c tr c' tr'. apply aligned__read.
    + intros c tr c' tr'. apply aligned__finish_raw_read.
Qed.

Lemma cycles_only_append_entries_witness :
  Forall aligned
    (HX711._load_cells
       (fst (cycles host_high 2 (with_pd_sck hx_57_6 6, [])))).
Proof.
  apply (proj2 (cycles_only_append_entries host_high 2
                  (with_pd_sck hx_57_6 6, []))).
  repeat constructor.
Defined.

Lemma __init___load_cells (host : Host)
    (dout_pins sck_pin gain channel : pyval) (debug : bool)
    (tr tr' : trace) (self : HX711.t) :
  HX711.__init__ host dout_pins sck_pin gain channel debug tr
  = (Ret self, tr') ->
  HX711._load_cells self
  = map (fun pin => LoadCell.__init__ pin debug) (HX711._dout_pins self).
Proof.
  unfold HX711.__init__.
  destruct (HX711._set_dout_pins dout_pins); [| discriminate].
  destruct (HX711._set_sck_pin sck_pin); [| discriminate].
  destruct (HX711._init_gpio host _ _ tr) as [[[] | e] tr1]; [| discriminate].
  destruct (HX711._set_channel_a_gain gain); [| discriminate].
  destruct (HX711._set_channel_select channel); [| discriminate].
  intros H. inversion H. reflexivity.
Qed.

Lemma all_None_repeat (l : list (option Z)) :
  Forall (fun r => r = None) l -> l = repeat None (List.length l).
Proof.
  induction 1 as [| x l Hx _ IH]; [reflexivity |].
  cbn. now rewrite Hx, <- IH.
Qed.

(** X9. On a controller that [__init__] returned and whose [_pd_sck] the
    caller has then set, any number of cycles leaves in every accumulator
    a signed history made of [None] only, one [None] per entry of the raw
    history: [_finish_raw_read] never records a number. *)
Theorem signed_history_holds_only_None (host : Host)
    (dout_pins sck_pin gain channel : pyval) (debug : bool)
    (tr0 tr1 tr : trace) (self : HX711.t) (pin : Z) (n : nat) :
  HX711.__init__ host dout_pins sck_pin gain channel debug tr0
  = (Ret self, tr1) ->
  Forall (fun c => LoadCell.reads c
                   = repeat None (List.length (LoadCell.raw_reads c)))
    (HX711._load_cells (fst (cycles host n (with_pd_sck self pin, tr)))).
Proof.
  intros Hinit.
  pose proof (__init___load_cells host dout_pins sck_pin gain channel debug
                tr0 tr1 self Hinit) as Hcells.
  assert (Hfresh : Forall (fun c => aligned c /\ all_invalid c)
                     (HX711._load_cells (fst (with_pd_sck self pin, tr)))).
  { cbn [fst with_pd_sck HX711._load_cells]. rewrite Hcells.
    apply Forall_forall. intros c Hin. apply in_map_iff in Hin.
    destruct Hin as (p & <- & _). split; [reflexivity | constructor]. }
  assert (Hkeep : preserves (fun c => aligned c /\ all_invalid c)
                    (HX711._read host)).
  { apply preserves__read.
    - intros c Hc. exact Hc.
    - intros c t c' t' Hrun [Ha Hi]. split.
      + eapply aligned__read; eassumption.
      + eapply all_invalid__read; eassumption.
    - intros c t c' t' Hrun [Ha Hi]. split.
      + eapply aligned__finish_raw_read; eassumption.
      + eapply all_invalid__finish_raw_read; eassumption. }
  pose proof (cycles_preserves host _ Hkeep n _ Hfresh) as Hall.
  eapply Forall_impl; [| exact Hall].
  intros c [Ha Hi]. unfold aligned in Ha. rewrite Ha.
  apply all_None_repeat, Hi.
Qed.

Lemma signed_history_holds_only_None_witness :
  Forall (fun c => LoadCell.reads c
                   = repeat None (List.length (LoadCell.raw_reads c)))
    (HX711._load_cells
       (fst (cycles host_high 3 (with_pd_sck hx_5_6 6, [])))).
Proof.
  exact (signed_history_holds_only_None host_high
           (PyInt 5) (PyInt 6) (PyInt 128) (PyStr "A") false
           [] [EvSetup 5 false; EvSetup 6 true] [] hx_5_6 6 3 eq_refl).
Defined.

Example three_cycles_on_high_pins :
  map (fun c => (LoadCell.raw_reads c, LoadCell.reads c))
    (HX711._load_cells (fst (cycles host_high 3 (with_pd_sck hx_5_6 6, []))))
  = [([0xFFFFFF; 0xFFFFFF; 0xFFFFFF], [None; None; None])].
Proof. vm_compute. reflexivity. Qed.

(** ** An accumulator on its own *)

(** X10. [LoadCell.__init__] assigns [_last_raw_read] and not
    [_current_raw_read]: on an accumulator that has not been through
    [_init_raw_read], cleared by [_init_set_of_reads] or not, [_read] and
    [_finish_raw_read] raise [AttributeError] ([_read] does so before it
    looks up [GPIO], so also when [RPi.GPIO] is missing), make no GPIO
    call and append nothing; after [_init_raw_read], [_finish_raw_read]
    returns and appends the raw value 0 and the signed entry [None]. *)
Theorem fresh_accumulator_raises_until_reset (host : Host)
    (dout_pin : Z) (debug : bool) (tr : trace) :
  let fresh := LoadCell.__init__ dout_pin debug in
  LoadCell._read host fresh tr = (Raise AttributeError, tr) /\
  LoadCell._finish_raw_read fresh tr = (Raise AttributeError, tr) /\
  LoadCell._read host (LoadCell._init_set_of_reads fresh) tr
  = (Raise AttributeError, tr) /\
  LoadCell._finish_raw_read (LoadCell._init_set_of_reads fresh) tr
  = (Raise AttributeError, tr) /\
  exists c',
    LoadCell._finish_raw_read (LoadCell._init_raw_read fresh) tr
    = (Ret c', tr) /\
    LoadCell.raw_reads c' = [0] /\ LoadCell.reads c' = [None].
Proof.
  cbv zeta. repeat split.
  eexists. split; [reflexivity |]. split; reflexivity.
Qed.

(** X11. [LoadCell._read] neither resets the accumulator nor cuts it to 24
    bits: [n] steps in a row, each reading 0 or 1, take an accumulator
    holding [acc] to [acc * 2^n] plus the sum of [bit_i * 2^(n-1-i)], and
    touch nothing else of the object. *)
Theorem sampling_shifts_without_reset_or_mask (host : Host)
    (c : LoadCell.t) (acc : Z) (trs : list trace) :
  SIMULATE_PI host = false ->
  LoadCell._current_raw_read c = Some acc ->
  Forall (fun tr => is_bit (GPIO_input host (List.length tr)
                              (LoadCell._dout_pin c))) trs ->
  let bits := map (fun tr => GPIO_input host (List.length tr)
                               (LoadCell._dout_pin c)) trs in
  sample_at host c trs
  = Ret (LoadCell.set_current_raw_read c
           (acc * 2 ^ Z.of_nat (List.length trs) + msb_first bits)).
Proof.
  intros Hgpio Hacc Hlevels bits.
  rewrite (sample_at_exact host trs c acc Hgpio Hacc). fold bits.
  assert (Hbits : Forall is_bit bits).
  { unfold bits. apply Forall_forall. intros b Hin.
    apply in_map_iff in Hin. destruct Hin as (tr & <- & Htr).
    rewrite Forall_forall in Hlevels. now apply Hlevels. }
  rewrite (fold_shift_in_msb_first bits acc Hbits).
  unfold bits. now rewrite length_map.
Qed.

Lemma sampling_shifts_without_reset_or_mask_witness :
  sample_at host_high
    (LoadCell.set_current_raw_read (LoadCell.__init__ 5 false) 0xFFFFFF)
    [[]; [EvSleep]]
  = Ret (LoadCell.set_current_raw_read
           (LoadCell.set_current_raw_read (LoadCell.__init__ 5 false) 0xFFFFFF)
           (0xFFFFFF * 2 ^ Z.of_nat 2 + msb_first [1; 1])).
Proof.
  apply (sampling_shifts_without_reset_or_mask host_high
           (LoadCell.set_current_raw_read (LoadCell.__init__ 5 false) 0xFFFFFF)
           0xFFFFFF [[]; [EvSleep]]).
  - reflexivity.
  - reflexivity.
  - repeat (apply Forall_cons; [vm_compute; auto |]). apply Forall_nil.
Defined.

(** ** Without [RPi.GPIO] *)

Lemma output_pd_sck_simulated (host : Host) (self : HX711.t) (level : bool)
    (tr : trace) :
  SIMULATE_PI host = true ->
  HX711.output_pd_sck host self level tr = (Raise NameError, tr).
Proof.
  intros Hsim. unfold HX711.output_pd_sck, GPIO.name, bind.
  now rewrite Hsim.
Qed.

(** X12. When [import RPi.GPIO] has failed, [__init__] makes no GPIO call,
    whether it returns or raises, and every method of the read protocol
    raises [NameError], whatever [_pd_sck] is: [_prepare_to_read] and
    [_read] at once, [_pulse_sck_high] and [_write_channel_gain] after one
    [perf_counter()], and [LoadCell._read] on an accumulator that has been
    reset.  [_read] leaves every accumulator as it was. *)
Theorem without_gpio_every_protocol_method_raises (host : Host) :
  SIMULATE_PI host = true ->
  (forall dout_pins sck_pin gain channel debug tr r tr',
     HX711.__init__ host dout_pins sck_pin gain channel debug tr = (r, tr') ->
     tr' = tr) /\
  (forall self tr,
     HX711._prepare_to_read host self tr = (Raise NameError, tr) /\
     HX711._pulse_sck_high host self tr
     = (Raise NameError, EvPerfCounter :: tr) /\
     HX711._write_channel_gain host self tr
     = (Raise NameError, EvPerfCounter :: tr) /\
     HX711._read host (self, tr) = (Raise NameError, (self, tr))) /\
  (forall c cur tr,
     LoadCell._current_raw_read c = Some cur ->
     LoadCell._read host c tr = (Raise NameError, tr)).
Proof.
  intros Hsim. split; [| split].
  - intros dout_pins sck_pin gain channel debug tr r tr'.
    unfold HX711.__init__.
    destruct (HX711._set_dout_pins dout_pins);
      [| intros H; now inversion H].
    destruct (HX711._set_sck_pin sck_pin); [| intros H; now inversion H].
    rewrite _init_gpio_exact, Hsim.
    destruct (HX711._set_channel_a_gain gain); [| intros H; now inversion H].
    destruct (HX711._set_channel_select channel);
      intros H; now inversion H.
  - intros self tr.
    assert (Hprep : HX711._prepare_to_read host self tr
                    = (Raise NameError, tr)).
    { unfold HX711._prepare_to_read, bind.
      now rewrite output_pd_sck_simulated. }
    assert (Hpulse : forall t, HX711._pulse_sck_high host self t
                               = (Raise NameError, EvPerfCounter :: t)).
    { intros t. unfold HX711._pulse_sck_high, bind, perf_counter.
      now rewrite output_pd_sck_simulated. }
    split; [exact Hprep |]. split; [apply Hpulse |]. split.
    + unfold HX711._write_channel_gain.
      destruct (num_pulses_positive self) as [n ->].
      cbn [HX711.pulse_times]. unfold bind. now rewrite Hpulse.
    + apply _read_prepare_Raise, Hprep.
  - intros c cur tr Hcur. unfold LoadCell._read. rewrite Hcur.
    unfold bind, GPIO.name. now rewrite Hsim.
Qed.

Lemma without_gpio_every_protocol_method_raises_witness :
  HX711.__init__ host_simulated (PyInt 5) (PyInt 6) (PyInt 128) (PyStr "A")
    false []
  = (Ret hx_5_6, []) /\
  HX711._read host_simulated (with_pd_sck hx_5_6 6, [])
  = (Raise NameError, (with_pd_sck hx_5_6 6, [])).
Proof.
  split; [reflexivity |].
  exact (proj2 (proj2 (proj2 (proj1 (proj2
           (without_gpio_every_protocol_method_raises host_simulated eq_refl))
           (with_pd_sck hx_5_6 6) [])))).
Defined.

(** ** The clock is left LOW *)

Lemma keeps_clock_low_ret (S A : Type) (f : S -> trace) (a : A) :
  keeps_clock_low f (ret a).
Proof. intros s r s' H. inversion H; subst. auto. Qed.

Lemma keeps_clock_low_bind (S A B : Type) (f : S -> trace) (m : M S A)
    (k : A -> M S B) :
  keeps_clock_low f m -> (forall a, keeps_clock_low f (k a)) ->
  keeps_clock_low f (bind m k).
Proof.
  intros Hm Hk s r s' Hrun Hlow. unfold bind in Hrun.
  destruct (m s) as [[a | e] s1] eqn:Hms.
  - eapply Hk; [exact Hrun |]. eapply Hm; eassumption.
  - inversion Hrun; subst. eapply Hm; eassumption.
Qed.

Lemma clock_low_polled (cells : list LoadCell.t) (tr : trace) :
  clock_low tr -> clock_low (polled cells tr).
Proof.
  revert tr. induction cells as [| c cells IH]; intros tr Hlow;
    [exact Hlow |].
  rewrite polled_cons. apply IH. exact Hlow.
Qed.

Lemma keeps_clock_low_poll_load_cells (host : Host)
    (cells : list LoadCell.t) (ready : bool) :
  keeps_clock_low (fun tr => tr) (HX711.poll_load_cells host cells ready).
Proof.
  revert ready. induction cells as [| c cells IH]; intros ready;
    cbn [HX711.poll_load_cells].
  - apply keeps_clock_low_ret.
  - apply keeps_clock_low_bind.
    { intros tr r tr'. unfold GPIO.name.
      destruct (SIMULATE_PI host); intros H; inversion H; subst; auto. }
    intros _. apply keeps_clock_low_bind.
    { intros tr r tr' H. inversion H; subst. auto. }
    intros level. apply IH.
Qed.

Lemma keeps_clock_low_poll_ready (host : Host) (self : HX711.t) (n : nat)
    (ready : bool) :
  keeps_clock_low (fun tr => tr) (HX711.poll_ready host self n ready).
Proof.
  revert ready. induction n as [| n IH]; intros ready;
    cbn [HX711.poll_ready].
  - apply keeps_clock_low_ret.
  - apply keeps_clock_low_bind; [apply keeps_clock_low_poll_load_cells |].
    intros [|]; [apply keeps_clock_low_ret |].
    apply keeps_clock_low_bind.
    { intros tr r tr' H. inversion H; subst. auto. }
    intros _. apply IH.
Qed.

(** [_prepare_to_read] that returns has written the clock LOW. *)
Lemma _prepare_to_read_clock_low (host : Host) (self : HX711.t)
    (tr tr1 : trace) (b : bool) :
  HX711._prepare_to_read host self tr = (Ret b, tr1) -> clock_low tr1.
Proof.
  unfold HX711._prepare_to_read, bind.
  destruct (HX711.output_pd_sck host self false tr) as [[[] | e] tr0] eqn:Hout;
    [| discriminate].
  destruct (output_pd_sck_Ret host self false tr tr0 tt Hout)
    as [Hgpio [pin Hpin]].
  rewrite (output_pd_sck_present host self pin false tr Hgpio Hpin) in Hout.
  inversion Hout; subst tr0. intros Hpoll.
  eapply (keeps_clock_low_poll_ready host self 20 true); [exact Hpoll |].
  reflexivity.
Qed.

Lemma keeps_clock_low__pulse_sck_high (host : Host) (self : HX711.t) :
  keeps_clock_low (fun tr => tr) (HX711._pulse_sck_high host self).
Proof.
  intros tr r tr' Hrun Hlow.
  destruct (SIMULATE_PI host) eqn:Hgpio.
  - unfold HX711._pulse_sck_high, bind, perf_counter in Hrun.
    rewrite (output_pd_sck_simulated host self true _ Hgpio) in Hrun.
    inversion Hrun; subst. exact Hlow.
  - destruct (HX711._pd_sck self) as [pin |] eqn:Hpin.
    + rewrite (_pulse_sck_high_exact host Hgpio self pin Hpin) in Hrun.
      inversion Hrun; subst. reflexivity.
    + rewrite (_pulse_sck_high_absent host self tr Hpin) in Hrun.
      inversion Hrun; subst. exact Hlow.
Qed.

Lemma keeps_clock_low_pulse_times (host : Host) (self : HX711.t) (n : nat) :
  keeps_clock_low (fun tr => tr) (HX711.pulse_times host self n).
Proof.
  induction n as [| n IH]; cbn [HX711.pulse_times].
  - apply keeps_clock_low_ret.
  - apply keeps_clock_low_bind; [apply keeps_clock_low__pulse_sck_high |].
    intros [|]; [exact IH | apply keeps_clock_low_ret].
Qed.

Lemma keeps_clock_low_call (A : Type) (m : HX711.t -> M trace A) :
  (forall self, keeps_clock_low (fun tr => tr) (m self)) ->
  keeps_clock_low (@snd HX711.t trace) (HX711.call m).
Proof.
  intros Hm s r s' Hrun Hlow. unfold HX711.call in Hrun.
  destruct (m (fst s) (snd s)) as [r0 tr'] eqn:Hms.
  inversion Hrun; subst. cbn [snd].
  eapply (Hm (fst s)); eassumption.
Qed.

Lemma each_clock_low (m : LoadCell.t -> M trace LoadCell.t) :
  (forall c, keeps_clock_low (fun tr => tr) (m c)) ->
  forall cells tr r cells' tr',
    HX711.each m cells tr = (r, (cells', tr')) ->
    clock_low tr -> clock_low tr'.
Proof.
  intros Hm. induction cells as [| c cells IH]; intros tr r cells' tr' Hrun Hlow.
  - inversion Hrun; subst. exact Hlow.
  - cbn [HX711.each] in Hrun.
    destruct (m c tr) as [[c1 | e] tr1] eqn:Hstep.
    + destruct (HX711.each m cells tr1) as [r0 [rest' tr2]] eqn:Heach.
      inversion Hrun; subst.
      eapply IH; [exact Heach |]. exact (Hm c tr _ tr1 Hstep Hlow).
    + inversion Hrun; subst. exact (Hm c tr _ tr' Hstep Hlow).
Qed.

Lemma keeps_clock_low_for_load_cells (m : LoadCell.t -> M trace LoadCell.t) :
  (forall c, keeps_clock_low (fun tr => tr) (m c)) ->
  keeps_clock_low (@snd HX711.t trace) (HX711.for_load_cells m).
Proof.
  intros Hm s r s' Hrun Hlow. unfold HX711.for_load_cells in Hrun.
  destruct (HX711.each m (HX711._load_cells (fst s)) (snd s))
    as [r0 [cells' tr']] eqn:Heach.
  inversion Hrun; subst. cbn [snd].
  eapply each_clock_low; eassumption.
Qed.

Lemma keeps_clock_low_LoadCell_read (host : Host) (c : LoadCell.t) :
  keeps_clock_low (fun tr => tr) (LoadCell._read host c).
Proof.
  intros tr r tr'. unfold LoadCell._read.
  destruct (LoadCell._current_raw_read c) as [cur |].
  - unfold bind, GPIO.name. destruct (SIMULATE_PI host);
      intros H; inversion H; subst; auto.
  - intros H; inversion H; subst; auto.
Qed.

Lemma keeps_clock_low_LoadCell_finish (c : LoadCell.t) :
  keeps_clock_low (fun tr => tr) (LoadCell._finish_raw_read c).
Proof.
  intros tr r tr'. unfold LoadCell._finish_raw_read.
  destruct (LoadCell._current_raw_read c) as [cur |];
    intros H; inversion H; subst; auto.
Qed.

Lemma keeps_clock_low_read_bits (host : Host) (n : nat) :
  keeps_clock_low (@snd HX711.t trace) (HX711.read_bits host n).
Proof.
  induction n as [| n IH]; cbn [HX711.read_bits].
  - apply keeps_clock_low_ret.
  - apply keeps_clock_low_bind.
    { apply keeps_clock_low_call. apply keeps_clock_low__pulse_sck_high. }
    intros [|]; [| apply keeps_clock_low_ret].
    apply keeps_clock_low_bind.
    { apply keeps_clock_low_for_load_cells.
      apply keeps_clock_low_LoadCell_read. }
    intros _. exact IH.
Qed.

(** The steps of [_read] that follow [_prepare_to_read]. *)
Lemma keeps_clock_low_after_prepare (host : Host) (ready : bool) :
  keeps_clock_low (@snd HX711.t trace)
    (if negb ready then ret false
     else
       (HX711.for_load_cells (fun c => ret (LoadCell._init_raw_read c)) ;;
        ok <- HX711.read_bits host 24 ;;
        if negb ok then ret false
        else
          (HX711.for_load_cells LoadCell._finish_raw_read ;;
           ok' <- HX711.call (HX711._write_channel_gain host) ;;
           if negb ok' then ret false else ret true))%py).
Proof.
  destruct ready; cbn [negb]; [| apply keeps_clock_low_ret].
  apply keeps_clock_low_bind.
  { apply keeps_clock_low_for_load_cells.
    intros c tr r tr' H. inversion H; subst. auto. }
  intros _. apply keeps_clock_low_bind; [apply keeps_clock_low_read_bits |].
  intros [|]; cbn [negb]; [| apply keeps_clock_low_ret].
  apply keeps_clock_low_bind.
  { apply keeps_clock_low_for_load_cells.
    apply keeps_clock_low_LoadCell_finish. }
  intros _. apply keeps_clock_low_bind.
  { apply keeps_clock_low_call. intros self.
    apply keeps_clock_low_pulse_times. }
  intros [|]; apply keeps_clock_low_ret.
Qed.

(** X13. On any host and any controller, a call of [_pulse_sck_high],
    [_write_channel_gain] or [_read] that finds the clock last written LOW
    leaves it last written LOW, whether it returns [True], returns [False]
    or raises; and a call of [_read] that returns, whatever it returns,
    leaves the clock last written LOW even when it did not find it so.
    No path through the protocol leaves the clock HIGH. *)
Theorem read_never_leaves_the_clock_high (host : Host) (self : HX711.t)
    (tr : trace) :
  (forall r tr',
     HX711._pulse_sck_high host self tr = (r, tr') ->
     clock_low tr -> clock_low tr') /\
  (forall r tr',
     HX711._write_channel_gain host self tr = (r, tr') ->
     clock_low tr -> clock_low tr') /\
  (forall r s',
     HX711._read host (self, tr) = (r, s') ->
     clock_low tr -> clock_low (snd s')) /\
  (forall b s',
     HX711._read host (self, tr) = (Ret b, s') -> clock_low (snd s')).
Proof.
  split; [| split; [| split]].
  - intros r tr'. apply (keeps_clock_low__pulse_sck_high host self).
  - intros r tr'. apply (keeps_clock_low_pulse_times host self).
  - intros r s' Hrun Hlow. unfold HX711._read in Hrun.
    eapply (keeps_clock_low_bind _ _ _ (@snd HX711.t trace));
      [| | exact Hrun | exact Hlow].
    + apply keeps_clock_low_call. intros self0 t r0 t' Hprep Hl.
      destruct r0 as [b |].
      * exact (_prepare_to_read_clock_low host self0 t t' b Hprep).
      * unfold HX711._prepare_to_read, bind in Hprep.
        destruct (HX711.output_pd_sck host self0 false t)
          as [[[] | e0] t0] eqn:Hout.
        -- destruct (output_pd_sck_Ret host self0 false t t0 tt Hout)
             as [Hgpio [pin Hpin]].
           rewrite (output_pd_sck_present host self0 pin false t Hgpio Hpin)
             in Hout.
           inversion Hout; subst t0.
           eapply (keeps_clock_low_poll_ready host self0 20 true);
             [exact Hprep | reflexivity].
        -- unfold HX711.output_pd_sck, bind, GPIO.name, HX711.get_pd_sck,
             GPIO.output in Hout.
           destruct (SIMULATE_PI host); cbn in Hout.
           ++ inversion Hout; subst. inversion Hprep; subst. exact Hl.
           ++ destruct (HX711._pd_sck self0); cbn in Hout;
                inversion Hout; subst. inversion Hprep; subst. exact Hl.
    + apply keeps_clock_low_after_prepare.
  - intros b s' Hrun. unfold HX711._read, bind at 1 in Hrun.
    unfold HX711.call at 1 in Hrun. cbn [fst snd] in Hrun.
    destruct (HX711._prepare_to_read host self tr) as [[ready | e] tr1]
      eqn:Hprep; [| discriminate].
    eapply (keeps_clock_low_after_prepare host ready); [exact Hrun |].
    cbn [snd]. exact (_prepare_to_read_clock_low host self tr tr1 ready Hprep).
Qed.

Lemma read_never_leaves_the_clock_high_witness :
  clock_low (snd (snd (HX711._read (host_stall 15)
                         (with_pd_sck hx_5_6 6, [])))) /\
  clock_low (snd (snd cycle_5_6)).
Proof.
  split.
  - apply (proj2 (proj2 (proj2 (read_never_leaves_the_clock_high
             (host_stall 15) (with_pd_sck hx_5_6 6) []))) false).
    vm_compute. reflexivity.
  - apply (proj2 (proj2 (proj2 (read_never_leaves_the_clock_high
             host_high (with_pd_sck hx_5_6 6) []))) true).
    vm_compute. reflexivity.
Defined.

(** ** The pulse budget of a cycle *)

Lemma adds_at_most_ret (S A : Type) (f : S -> trace) (a : A) :
  adds_at_most f 0 (ret a).
Proof. intros s r s' H. inversion H; subst. lia. Qed.

Lemma adds_at_most_weaken (S A : Type) (f : S -> trace) (k k' : nat)
    (m : M S A) :
  (k <= k')%nat -> adds_at_most f k m -> adds_at_most f k' m.
Proof. intros Hle Hm s r s' Hrun. specialize (Hm s r s' Hrun). lia. Qed.

Lemma adds_at_most_bind (S A B : Type) (f : S -> trace) (a b : nat)
    (m : M S A) (k : A -> M S B) :
  adds_at_most f a m -> (forall x, adds_at_most f b (k x)) ->
  adds_at_most f (a + b) (bind m k).
Proof.
  intros Hm Hk s r s' Hrun. unfold bind in Hrun.
  destruct (m s) as [[x | e] s1] eqn:Hms.
  - specialize (Hm s _ s1 Hms). specialize (Hk x s1 r s' Hrun). lia.
  - inversion Hrun; subst. specialize (Hm s _ s' Hms). lia.
Qed.

Section PulseBudget.
Variable host : Host.

Lemma adds_at_most_output_pd_sck (self : HX711.t) (level : bool) :
  adds_at_most (fun tr => tr) (if level then 1 else 0)
    (HX711.output_pd_sck host self level).
Proof.
  intros tr r tr'.
  unfold HX711.output_pd_sck, bind, GPIO.name, HX711.get_pd_sck, GPIO.output.
  destruct (SIMULATE_PI host); cbn.
  - intros H. inversion H; subst. lia.
  - destruct (HX711._pd_sck self); cbn; intros H; inversion H; subst.
    + destruct level; cbn; lia.
    + lia.
Qed.

Lemma adds_at_most_poll_load_cells (cells : list LoadCell.t) (ready : bool) :
  adds_at_most (fun tr => tr) 0 (HX711.poll_load_cells host cells ready).
Proof.
  revert ready. induction cells as [| c cells IH]; intros ready;
    cbn [HX711.poll_load_cells].
  - apply adds_at_most_ret.
  - apply (adds_at_most_bind _ _ _ _ 0 0).
    { intros tr r tr'. unfold GPIO.name.
      destruct (SIMULATE_PI host); intros H; inversion H; subst; lia. }
    intros _. apply (adds_at_most_bind _ _ _ _ 0 0).
    { intros tr r tr' H. inversion H; subst. cbn. lia. }
    intros level. apply IH.
Qed.

Lemma adds_at_most_poll_ready (self : HX711.t) (n : nat) (ready : bool) :
  adds_at_most (fun tr => tr) 0 (HX711.poll_ready host self n ready).
Proof.
  revert ready. induction n as [| n IH]; intros ready;
    cbn [HX711.poll_ready].
  - apply adds_at_most_ret.
  - apply (adds_at_most_bind _ _ _ _ 0 0);
      [apply adds_at_most_poll_load_cells |].
    intros [|]; [apply adds_at_most_ret |].
    apply (adds_at_most_bind _ _ _ _ 0 0).
    { intros tr r tr' H. inversion H; subst. cbn. lia. }
    intros _. apply IH.
Qed.

Lemma adds_at_most__prepare_to_read (self : HX711.t) :
  adds_at_most (fun tr => tr) 0 (HX711._prepare_to_read host self).
Proof.
  unfold HX711._prepare_to_read.
  apply (adds_at_most_bind _ _ _ _ 0 0).
  - apply (adds_at_most_output_pd_sck self false).
  - intros _. apply adds_at_most_poll_ready.
Qed.

Lemma adds_at_most__pulse_sck_high (self : HX711.t) :
  adds_at_most (fun tr => tr) 1 (HX711._pulse_sck_high host self).
Proof.
  unfold HX711._pulse_sck_high.
  apply (adds_at_most_bind _ _ _ _ 0 1).
  { intros tr r tr' H. inversion H; subst. cbn. lia. }
  intros pulse_start. apply (adds_at_most_bind _ _ _ _ 1 0).
  { apply (adds_at_most_output_pd_sck self true). }
  intros _. apply (adds_at_most_bind _ _ _ _ 0 0).
  { apply (adds_at_most_output_pd_sck self false). }
  intros _. apply (adds_at_most_bind _ _ _ _ 0 0).
  { intros tr r tr' H. inversion H; subst. cbn. lia. }
  intros pulse_end. destruct (PrimFloat.leb _ _); apply adds_at_most_ret.
Qed.

Lemma adds_at_most_pulse_times (self : HX711.t) (n : nat) :
  adds_at_most (fun tr => tr) n (HX711.pulse_times host self n).
Proof.
  induction n as [| n IH]; cbn [HX711.pulse_times].
  - apply adds_at_most_ret.
  - apply (adds_at_most_bind _ _ _ _ 1 n);
      [apply adds_at_most__pulse_sck_high |].
    intros [|]; [exact IH |].
    eapply adds_at_most_weaken; [| apply adds_at_most_ret]. lia.
Qed.

Lemma adds_at_most__write_channel_gain (self : HX711.t) :
  adds_at_most (fun tr => tr) 3 (HX711._write_channel_gain host self).
Proof.
  unfold HX711._write_channel_gain.
  eapply adds_at_most_weaken; [| apply adds_at_most_pulse_times].
  unfold HX711.num_pulses. destruct (_ && _); [lia |].
  destruct (_ && _); lia.
Qed.

Lemma adds_at_most_call (A : Type) (k : nat) (m : HX711.t -> M trace A) :
  (forall self, adds_at_most (fun tr => tr) k (m self)) ->
  adds_at_most (@snd HX711.t trace) k (HX711.call m).
Proof.
  intros Hm s r s' Hrun. unfold HX711.call in Hrun.
  destruct (m (fst s) (snd s)) as [r0 tr'] eqn:Hms.
  inversion Hrun; subst. cbn [snd]. eapply (Hm (fst s)); eassumption.
Qed.

Lemma each_adds_nothing (m : LoadCell.t -> M trace LoadCell.t) :
  (forall c, adds_at_most (fun tr => tr) 0 (m c)) ->
  forall cells tr r cells' tr',
    HX711.each m cells tr = (r, (cells', tr')) ->
    (high_pulses tr' <= high_pulses tr)%nat.
Proof.
  intros Hm. induction cells as [| c cells IH]; intros tr r cells' tr' Hrun.
  - inversion Hrun; subst. lia.
  - cbn [HX711.each] in Hrun.
    destruct (m c tr) as [[c1 | e] tr1] eqn:Hstep.
    + destruct (HX711.each m cells tr1) as [r0 [rest' tr2]] eqn:Heach.
      inversion Hrun; subst.
      pose proof (Hm c tr _ tr1 Hstep). pose proof (IH _ _ _ _ Heach). lia.
    + inversion Hrun; subst. pose proof (Hm c tr _ tr' Hstep). lia.
Qed.

Lemma adds_at_most_for_load_cells (m : LoadCell.t -> M trace LoadCell.t) :
  (forall c, adds_at_most (fun tr => tr) 0 (m c)) ->
  adds_at_most (@snd HX711.t trace) 0 (HX711.for_load_cells m).
Proof.
  intros Hm s r s' Hrun. unfold HX711.for_load_cells in Hrun.
  destruct (HX711.each m (HX711._load_cells (fst s)) (snd s))
    as [r0 [cells' tr']] eqn:Heach.
  inversion Hrun; subst. cbn [snd].
  pose proof (each_adds_nothing m Hm _ _ _ _ _ Heach). lia.
Qed.

Lemma adds_at_most_LoadCell_read (c : LoadCell.t) :
  adds_at_most (fun tr => tr) 0 (LoadCell._read host c).
Proof.
  intros tr r tr'. unfold LoadCell._read.
  destruct (LoadCell._current_raw_read c) as [cur |].
  - unfold bind, GPIO.name. destruct (SIMULATE_PI host);
      intros H; inversion H; subst; cbn; lia.
  - intros H; inversion H; subst; lia.
Qed.

Lemma adds_at_most_LoadCell_finish (c : LoadCell.t) :
  adds_at_most (fun tr => tr) 0 (LoadCell._finish_raw_read c).
Proof.
  intros tr r tr'. unfold LoadCell._finish_raw_read.
  destruct (LoadCell._current_raw_read c) as [cur |];
    intros H; inversion H; subst; lia.
Qed.

Lemma adds_at_most_read_bits (n : nat) :
  adds_at_most (@snd HX711.t trace) n (HX711.read_bits host n).
Proof.
  induction n as [| n IH]; cbn [HX711.read_bits].
  - apply adds_at_most_ret.
  - apply (adds_at_most_bind _ _ _ _ 1 n).
    { apply adds_at_most_call. apply adds_at_most__pulse_sck_high. }
    intros [|].
    + apply (adds_at_most_bind _ _ _ _ 0 n).
      { apply adds_at_most_for_load_cells. apply adds_at_most_LoadCell_read. }
      intros _. exact IH.
    + eapply adds_at_most_weaken; [| apply adds_at_most_ret]. lia.
Qed.

Lemma adds_at_most__read :
  adds_at_most (@snd HX711.t trace) 27 (HX711._read host).
Proof.
  unfold HX711._read.
  apply (adds_at_most_bind _ _ _ _ 0 27).
  { apply adds_at_most_call. apply adds_at_most__prepare_to_read. }
  intros [|]; cbn [negb].
  2:{ eapply adds_at_most_weaken; [| apply adds_at_most_ret]. lia. }
  apply (adds_at_most_bind _ _ _ _ 0 27).
  { apply adds_at_most_for_load_cells.
    intros c tr r tr' H. inversion H; subst. lia. }
  intros _. apply (adds_at_most_bind _ _ _ _ 24 3).
  { apply adds_at_most_read_bits. }
  intros [|]; cbn [negb].
  2:{ eapply adds_at_most_weaken; [| apply adds_at_most_ret]. lia. }
  apply (adds_at_most_bind _ _ _ _ 0 3).
  { apply adds_at_most_for_load_cells. apply adds_at_most_LoadCell_finish. }
  intros _. apply (adds_at_most_bind _ _ _ _ 3 0).
  { apply adds_at_most_call. apply adds_at_most__write_channel_gain. }
  intros [|]; apply adds_at_most_ret.
Qed.

End PulseBudget.

(** X14. On any host and any controller, whatever the configuration stored
    in it and whatever the outcome, [_prepare_to_read] makes no clock
    pulse, [_pulse_sck_high] at most one, [_write_channel_gain] at most
    three, and one call of [_read] at most 27. *)
Theorem read_makes_at_most_27_pulses (host : Host) (self : HX711.t)
    (tr : trace) :
  (high_pulses (snd (HX711._prepare_to_read host self tr))
   <= high_pulses tr)%nat /\
  (high_pulses (snd (HX711._pulse_sck_high host self tr))
   <= 1 + high_pulses tr)%nat /\
  (high_pulses (snd (HX711._write_channel_gain host self tr))
   <= 3 + high_pulses tr)%nat /\
  (high_pulses (snd (snd (HX711._read host (self, tr))))
   <= 27 + high_pulses tr)%nat.
Proof.
  split; [| split; [| split]].
  - destruct (HX711._prepare_to_read host self tr) as [r tr'] eqn:Hrun.
    exact (adds_at_most__prepare_to_read host self tr r tr' Hrun).
  - destruct (HX711._pulse_sck_high host self tr) as [r tr'] eqn:Hrun.
    exact (adds_at_most__pulse_sck_high host self tr r tr' Hrun).
  - destruct (HX711._write_channel_gain host self tr) as [r tr'] eqn:Hrun.
    exact (adds_at_most__write_channel_gain host self tr r tr' Hrun).
  - destruct (HX711._read host (self, tr)) as [r s'] eqn:Hrun.
    exact (adds_at_most__read host (self, tr) r s' Hrun).
Qed.
